(** * job-offers-analyzer: retrieval, inference and digest pipeline

    A shallow embedding of [src/fetch_offers.py], [src/analyze_offers.py],
    [src/generate_email.py] and [src/main.py], and the properties of the
    pipeline proved on it.

    Conventions of the embedding.
    - A Python [str] is a sequence of Unicode code points: [list N].
    - A value decoded from JSON is a [json]; a [dict] keeps its insertion
      order, so it is an association list. Python floats are not modelled.
    - Code that can raise returns a [result]; code with effects (HTTP
      requests, sleeps, clock reads, file writes, calls of the inference
      service) runs in the monad [M] over a [world], which records the
      effects in order. An exception leaves the effects performed before it
      in place. Writing a file fails in one way only: the text cannot be
      encoded as UTF-8, because it holds a surrogate code point; the file is
      then left with what had reached it. The messages printed to the console
      and the messages of the exceptions are left out.
    - Functions of the Python standard library that are too large to embed
      ([json.loads], [json.dumps], [repr], [int] on text, [textwrap.dedent])
      are the fields of the class [PyLib], with one law: [textwrap.dedent]
      brings no surrogate into a text; what the environment of the
      program answers (the listing service, the inference service, the
      clock, the addresses of objects) are the fields of [Env]; the constants
      that [analyze_offers.py] reads from the process environment are the
      fields of [Settings]. Every theorem holds for all of them.

    The file has four parts: the embedding of the program, the notions used
    to state its properties, a reference instance of the library and of the
    environment on which the model runs, and the properties. *)

From stdpp Require Import base numbers list strings gmap pretty.
From Stdlib Require Import ZArith QArith Qcanon Lia.

Set Default Proof Using "Type".
Set Warnings "-register-all,-clear-no-such-hyp".
Open Scope Z_scope.

(** ** Text *)

Abbreviation pystr := (list N).

(** Decoding of the UTF-8 bytes of a literal of this file into code points. *)
Fixpoint utf8_decode (bs : list N) : pystr :=
  match bs with
  | [] => []
  | b :: rest =>
    if (b <? 128)%N then b :: utf8_decode rest
    else if (b <? 224)%N then
      match rest with
      | c1 :: rest1 => ((b - 192) * 64 + (c1 - 128))%N :: utf8_decode rest1
      | [] => [b]
      end
    else if (b <? 240)%N then
      match rest with
      | c1 :: c2 :: rest2 =>
        ((b - 224) * 4096 + (c1 - 128) * 64 + (c2 - 128))%N :: utf8_decode rest2
      | _ => [b]
      end
    else
      match rest with
      | c1 :: c2 :: c3 :: rest3 =>
        ((b - 240) * 262144 + (c1 - 128) * 4096 + (c2 - 128) * 64 + (c3 - 128))%N
          :: utf8_decode rest3
      | _ => [b]
      end
  end.

Definition byte_codes (s : string) : list N :=
  Ascii.N_of_ascii <$> String.list_ascii_of_string s.

Definition lit (s : string) : pystr := utf8_decode (byte_codes s).

(** [str(n)] for an [int]: the decimal digits, after a minus sign when
    [n] is negative. *)
Definition str_of_int (z : Z) : pystr := byte_codes (pretty z).

(** [str.isspace] on one code point, the characters [str.strip()] removes. *)
Definition is_space (c : N) : bool :=
  ((9 <=? c) && (c <=? 13) || (28 <=? c) && (c <=? 32)
   || (c =? 133) || (c =? 160) || (c =? 5760)
   || (8192 <=? c) && (c <=? 8202)
   || (c =? 8232) || (c =? 8233) || (c =? 8239) || (c =? 8287) || (c =? 12288))%N.

Fixpoint lstrip (s : pystr) : pystr :=
  match s with
  | c :: rest => if is_space c then lstrip rest else s
  | [] => []
  end.

Definition rstrip (s : pystr) : pystr := reverse (lstrip (reverse s)).

(** [s.strip()] *)
Definition strip (s : pystr) : pystr := rstrip (lstrip s).

(** [s.startswith(p)] and [s.endswith(p)] *)
Fixpoint startswith (s p : pystr) : bool :=
  match p, s with
  | [], _ => true
  | c :: p', d :: s' => (c =? d)%N && startswith s' p'
  | _ :: _, [] => false
  end.

Definition endswith (s p : pystr) : bool := startswith (reverse s) (reverse p).

(** A code point that UTF-8 cannot encode is a surrogate ([U+D800] to
    [U+DFFF]); [json.loads] gives one for an escape such as [\ud83d] that
    stands alone. A text is encodable when it holds none. *)
Definition is_surrogate (c : N) : bool := ((55296 <=? c) && (c <=? 57343))%N.

Definition encodable (s : pystr) : bool := forallb (λ c, negb (is_surrogate c)) s.

(** ** Exceptions and results *)

Inductive exn :=
| HttpError
| ValueError
| TypeError
| AttributeError
| RuntimeError
| JSONDecodeError
| UnicodeEncodeError
| OtherException (name : pystr).

Inductive result (A : Type) :=
| Ok (a : A)
| Raise (e : exn).
Arguments Ok {A} a.
Arguments Raise {A} e.

Definition rbind {A B} (r : result A) (k : A → result B) : result B :=
  match r with
  | Ok a => k a
  | Raise e => Raise e
  end.

Notation "'try!' x := r 'in' k" := (rbind r (λ x, k))
  (at level 10, x pattern, r at level 100, k at level 200).

Definition is_ok {A} (r : result A) : bool :=
  match r with Ok _ => true | Raise _ => false end.

(** ** JSON values as Python objects *)

Inductive json :=
| JNull
| JBool (b : bool)
| JInt (z : Z)
| JStr (s : pystr)
| JList (l : list json)
| JDict (kvs : list (pystr * json)).

(** The texts of a value, keys and values, are all encodable: what
    [json.dump(..., ensure_ascii=False)] needs to write the value to a file
    opened with [encoding="utf-8"]. *)
Fixpoint json_encodable (v : json) : bool :=
  match v with
  | JNull | JBool _ | JInt _ => true
  | JStr s => encodable s
  | JList l => forallb json_encodable l
  | JDict kvs => forallb (λ kv : pystr * json, encodable kv.1 && json_encodable kv.2) kvs
  end.

(** Truth value of an object, as [if x], [not x] and [x or y] test it. *)
Definition truthy (v : json) : bool :=
  match v with
  | JNull => false
  | JBool b => b
  | JInt z => negb (z =? 0)
  | JStr s => match s with [] => false | _ => true end
  | JList l => match l with [] => false | _ => true end
  | JDict kvs => match kvs with [] => false | _ => true end
  end.

Definition is_dict (v : json) : bool :=
  match v with JDict _ => true | _ => false end.

Fixpoint dict_lookup (kvs : list (pystr * json)) (key : pystr) : option json :=
  match kvs with
  | [] => None
  | (k, v) :: rest => if decide (k = key) then Some v else dict_lookup rest key
  end.

(** [x.get(key, default)]: only a [dict] has the method. *)
Definition py_get (x : json) (key : pystr) (dflt : json) : result json :=
  match x with
  | JDict kvs => Ok (default dflt (dict_lookup kvs key))
  | _ => Raise AttributeError
  end.

(** ** Sequences: [range] and slices *)

(** Number of elements of [range(start, stop, step)] for a step other than 0. *)
Definition range_length (start stop step : Z) : Z :=
  if 0 <? step then
    if start <? stop then (stop - start - 1) / step + 1 else 0
  else
    if stop <? start then (start - stop - 1) / (- step) + 1 else 0.

(** [range(start, stop, step)]; a step of 0 raises [ValueError]. *)
Definition py_range (start stop step : Z) : result (list Z) :=
  if step =? 0 then Raise ValueError
  else Ok ((λ k : nat, start + Z.of_nat k * step) <$> seq 0 (Z.to_nat (range_length start stop step))).

(** An index of a slice, brought into [0..n]; [None] is an omitted bound. *)
Definition slice_bound (n : Z) (i : option Z) (omitted : Z) : Z :=
  match i with
  | None => omitted
  | Some i => if i <? 0 then Z.max 0 (i + n) else Z.min i n
  end.

(** [l[lo:hi]] *)
Definition py_slice {A} (l : list A) (lo hi : option Z) : list A :=
  let n := Z.of_nat (length l) in
  let a := slice_bound n lo 0 in
  let b := slice_bound n hi n in
  take (Z.to_nat (b - a)) (drop (Z.to_nat a) l).

(** * The batch splitter ([analyze_offers.py], line 45)

    [[offers[i: i + BATCH_SIZE] for i in range(0, len(offers), BATCH_SIZE)]] *)

Definition split_batches {A} (offers : list A) (batch_size : Z) : result (list (list A)) :=
  try! starts := py_range 0 (Z.of_nat (length offers)) batch_size in
  Ok ((λ i, py_slice offers (Some i) (Some (i + batch_size))) <$> starts).

(** * The world of effects *)

(** What [session.get] does: a response, one of the two transient failures
    caught at line 72, or any other exception. *)
Record http_response := {
  status_code : Z;
  resp_json : result json;     (* [resp.json()] *)
}.

Inductive get_outcome :=
| Responds (resp : http_response)
| TimesOut                     (* [requests.Timeout] *)
| ConnectionFails              (* [requests.ConnectionError] *)
| GetRaises (e : exn).

(** The response object of the inference service, as far as
    [_extract_text_from_response] and [str(response)] read it. *)
Record Part := { part_text : option pystr }.
Record Content := { content_parts : option (list Part) }.
Record Candidate := { candidate_content : option Content }.
Record GenerateContentResponse := {
  candidates : option (list Candidate);
  response_str : pystr;        (* [str(response)] *)
}.

Inductive generate_outcome :=
| Generates (r : GenerateContentResponse)
| GenerateRaises (e : exn).    (* any subclass of [Exception] *)

Inductive event :=
| EvGet (params : json)
| EvSleep (seconds : Qc)
| EvGenerate (prompt : pystr)
| EvWrite (path : pystr) (text : pystr).

Record world := {
  trace : list event;          (* effects so far, oldest first *)
  files : gmap pystr pystr;    (* the files written, by path *)
  gets : nat;                  (* HTTP requests sent *)
  generates : nat;             (* inference calls made *)
  clock_reads : nat;           (* readings of [time.time()] *)
}.

(** The environment: the answer to the [n]-th HTTP request and to the [n]-th
    inference call, the [n]-th reading of the clock in whole seconds, and
    [id(item)] of the [i]-th item of the results of page [p]. *)
Class Env := {
  server : nat → json → get_outcome;
  gemini : nat → pystr → generate_outcome;
  clock : nat → Z;
  item_id : Z → nat → Z;
}.

(** The standard-library functions left abstract. *)
Record dump_options := {
  sort_keys : bool;
  ensure_ascii : bool;
  indent : option Z;
}.

Class PyLib := {
  json_loads : pystr → result json;
  json_dumps : dump_options → json → pystr;
  (* what [json.dump] has passed to the stream when a text of the value
     cannot be encoded: the chunks before the one that holds it *)
  json_dump_partial : dump_options → json → pystr;
  py_repr : json → pystr;            (* [str] of a list or a dict *)
  repr_exn : exn → pystr;            (* [repr(e)] *)
  int_of_text : pystr → result Z;    (* [int(s)] *)
  dedent : pystr → pystr;            (* [textwrap.dedent] *)
  (* [textwrap.dedent] only removes blanks *)
  dedent_encodable : ∀ s, encodable s = true → encodable (dedent s) = true;
}.

Definition M (A : Type) : Type := world → result A * world.

Definition ret {A} (a : A) : M A := λ w, (Ok a, w).
Definition raise {A} (e : exn) : M A := λ w, (Raise e, w).
Definition lift {A} (r : result A) : M A := λ w, (r, w).

Definition bind {A B} (m : M A) (k : A → M B) : M B := λ w,
  match m w with
  | (Ok a, w') => k a w'
  | (Raise e, w') => (Raise e, w')
  end.

Notation "'let!' x := m 'in' k" := (bind m (λ x, k))
  (at level 10, x pattern, m at level 100, k at level 200).

(** [try: m except Exception as e: h e] *)
Definition try_except {A} (m : M A) (h : exn → M A) : M A := λ w,
  match m w with
  | (Ok a, w') => (Ok a, w')
  | (Raise e, w') => h e w'
  end.

Definition log (ev : event) (w : world) : world :=
  {| trace := trace w ++ [ev]; files := files w; gets := gets w;
     generates := generates w; clock_reads := clock_reads w |}.

(** The file [path] holds [text] from now on. *)
Definition stored (path text : pystr) (w : world) : world :=
  {| trace := trace w ++ [EvWrite path text]; files := <[path := text]> (files w);
     gets := gets w; generates := generates w; clock_reads := clock_reads w |}.

(** [time.sleep(seconds)]: a negative length raises [ValueError]. *)
Definition sleep (seconds : Qc) : M unit := λ w,
  if decide (seconds < 0)%Qc then (Raise ValueError, w)
  else (Ok (), log (EvSleep seconds) w).

Section WithEnv.
Context `{Env} `{PyLib}.

Definition session_get (params : json) : M get_outcome := λ w,
  (Ok (server (gets w) params),
   {| trace := trace w ++ [EvGet params]; files := files w; gets := S (gets w);
      generates := generates w; clock_reads := clock_reads w |}).

(** * Transport: [HttpClient] ([fetch_offers.py]) *)

(** The fields that steer [get_json]; the URL, the timeout and the session
    headers are passed to [session.get] unchanged. *)
Record HttpClient := {
  max_retries : Z;
  backoff_seconds : Qc;
}.

Definition retry_status (status : Z) : bool :=
  bool_decide (status ∈ [429; 500; 502; 503; 504]).

(** [resp.ok]: [raise_for_status] raises for the codes 400 to 599. *)
Definition resp_ok (resp : http_response) : bool :=
  negb ((400 <=? status_code resp) && (status_code resp <? 600)).

Fixpoint get_json_loop (http : HttpClient) (params : json)
    (attempts : list Z) (backoff : Qc) : M json :=
  match attempts with
  | [] => raise HttpError                                   (* line 80 *)
  | attempt :: rest =>
    let! out := session_get params in
    match out with
    | Responds resp =>
      if retry_status (status_code resp) && (attempt <? max_retries http) then
        let! _ := sleep backoff in
        get_json_loop http params rest (backoff * 2)%Qc
      else if negb (resp_ok resp) then raise HttpError      (* line 68 *)
      else lift (resp_json resp)
    | TimesOut | ConnectionFails =>
      if attempt <? max_retries http then
        let! _ := sleep backoff in
        get_json_loop http params rest (backoff * 2)%Qc
      else raise HttpError                                  (* line 77 *)
    | GetRaises e => raise e
    end
  end.

Definition get_json (http : HttpClient) (params : json) : M json :=
  let! attempts := lift (py_range 1 (max_retries http + 1) 1) in
  get_json_loop http params attempts (backoff_seconds http).

(** * Paginator: [JobOffersFetcher] ([fetch_offers.py]) *)

Record JobOffersFetcher := {
  http : HttpClient;
  sleep_between_pages : Qc;
}.

(** [str(x)] *)
Definition py_str (v : json) : pystr :=
  match v with
  | JNull => lit "None"
  | JBool b => if b then lit "True" else lit "False"
  | JInt z => str_of_int z
  | JStr s => s
  | JList _ | JDict _ => py_repr v
  end.

(** [int(x)] *)
Definition py_int (v : json) : result Z :=
  match v with
  | JInt z => Ok z
  | JBool b => Ok (if b then 1 else 0)
  | JStr s => int_of_text s
  | JNull | JList _ | JDict _ => Raise TypeError
  end.

Fixpoint is_substring (p s : pystr) : bool :=
  startswith s p || match s with [] => false | _ :: s' => is_substring p s' end.

(** [key in data] for a text [key] *)
Definition py_contains (key : pystr) (data : json) : result bool :=
  match data with
  | JDict kvs => Ok (bool_decide (is_Some (dict_lookup kvs key)))
  | JList l =>
    Ok (existsb (λ v, match v with JStr s => bool_decide (s = key) | _ => false end) l)
  | JStr s => Ok (is_substring key s)
  | JNull | JBool _ | JInt _ => Raise TypeError
  end.

(** [data[key]] for a text [key] *)
Definition py_subscript (data : json) (key : pystr) : result json :=
  match data with
  | JDict kvs =>
    match dict_lookup kvs key with
    | Some v => Ok v
    | None => Raise (OtherException (lit "KeyError"))
    end
  | _ => Raise TypeError
  end.

Definition is_list (v : json) : bool :=
  match v with JList _ => true | _ => false end.

(** An object together with its identity [id(item)]. *)
Definition pyobj : Type := Z * json.

(** [str(item.get("_id") or item.get("linkOffer") or id(item))] *)
Definition _dedupe_key (item : pyobj) : result pystr :=
  try! a := py_get item.2 (lit "_id") JNull in
  if truthy a then Ok (py_str a) else
  try! b := py_get item.2 (lit "linkOffer") JNull in
  if truthy b then Ok (py_str b) else
  Ok (py_str (JInt item.1)).

Fixpoint require_keys (keys : list pystr) (data : json) : result unit :=
  match keys with
  | [] => Ok ()
  | key :: rest =>
    try! present := py_contains key data in
    if present then require_keys rest data else Raise ValueError
  end.

Definition fetch_page (self : JobOffersFetcher) (days page : Z) : M json :=
  let params := JDict [(lit "days", JInt days); (lit "page", JInt page)] in
  let! data := get_json (http self) params in
  let! _ := lift (require_keys [lit "results"; lit "total"; lit "totalPages"; lit "page"] data) in
  let! results := lift (py_subscript data (lit "results")) in
  if is_list results then ret data else raise TypeError.

Record RunMetadata := {
  total_reported : json;
  pages_traversed : Z;
  total_pages_api : Z;
  items_consolidated : Z;
  days_param : Z;
}.

(** The closure [add_batch]: [seen] and [consolidated] are its two
    captured variables. *)
Fixpoint add_batch (items : list pyobj) (seen : gset pystr) (consolidated : list json)
    : result (gset pystr * list json) :=
  match items with
  | [] => Ok (seen, consolidated)
  | it :: rest =>
    try! key := _dedupe_key it in
    if bool_decide (key ∈ seen) then add_batch rest seen consolidated
    else add_batch rest ({[key]} ∪ seen) (consolidated ++ [it.2])
  end.

(** The items of the results of page [page], each with its identity. *)
Definition page_items (page : Z) (data : json) : result (list pyobj) :=
  try! results := py_subscript data (lit "results") in
  match results with
  | JList items => Ok (imap (λ i it, (item_id page i, it)) items)
  | _ => Raise TypeError
  end.

Fixpoint remaining_pages (self : JobOffersFetcher) (days : Z) (respect_rate_limit : bool)
    (pages : list Z) (seen : gset pystr) (consolidated : list json)
    : M (gset pystr * list json) :=
  match pages with
  | [] => ret (seen, consolidated)
  | p :: rest =>
    let! _ := if respect_rate_limit && bool_decide (0 < sleep_between_pages self)%Qc
              then sleep (sleep_between_pages self) else ret () in
    let! page_data := fetch_page self days p in
    let! items := lift (page_items p page_data) in
    let! (seen, consolidated) := lift (add_batch items seen consolidated) in
    remaining_pages self days respect_rate_limit rest seen consolidated
  end.

Definition get_all_offers (self : JobOffersFetcher) (days : Z) (max_pages : option Z)
    (respect_rate_limit : bool) : M (list json * RunMetadata) :=
  let! first := fetch_page self days 1 in
  let! total_pages_value := lift (py_get first (lit "totalPages") (JInt 1)) in
  let! total_pages_api := lift (py_int total_pages_value) in
  let total_pages :=
    match max_pages with
    | Some max_pages => Z.min total_pages_api max_pages
    | None => total_pages_api
    end in
  let! items := lift (page_items 1 first) in
  let! (seen, consolidated) := lift (add_batch items ∅ []) in
  let! pages := lift (py_range 2 (total_pages + 1) 1) in
  let! (seen, consolidated) :=
    remaining_pages self days respect_rate_limit pages seen consolidated in
  let! total := lift (py_get first (lit "total") JNull) in
  ret (consolidated,
       {| total_reported := total;
          pages_traversed := total_pages;
          total_pages_api := total_pages_api;
          items_consolidated := Z.of_nat (length consolidated);
          days_param := days |}).


(** * Inference and consolidation: [GeminiAnalyzer] ([analyze_offers.py]) *)

(** The module constants read from the process environment at import. *)
Class Settings := {
  MAX_ATTEMPTS : Z;
  BACKOFF_SECONDS : Qc;
  BATCH_SIZE : Z;
}.

Context `{Settings}.

Definition JSON_PATH : pystr := lit "data/matches.json".

Definition read_clock : M Z := λ w,
  (Ok (clock (clock_reads w)),
   {| trace := trace w; files := files w; gets := gets w;
      generates := generates w; clock_reads := S (clock_reads w) |}).

(** [with open(path, "w", encoding="utf-8") as f:
      json.dump(value, f, ensure_ascii=False, indent=2)]

    [open] empties the file; [json.dump] passes the text to the stream
    chunk by chunk, and the stream raises [UnicodeEncodeError] at the first
    chunk that holds a surrogate, that is when a text of the value holds
    one. The chunks before it are in the file when it is closed. *)
Definition write_json (path : pystr) (value : json) : M unit := λ w,
  let options := {| sort_keys := false; ensure_ascii := false; indent := Some 2 |} in
  if json_encodable value
  then (Ok (), stored path (json_dumps options value) w)
  else (Raise UnicodeEncodeError, stored path (json_dump_partial options value) w).

Definition generate_content (prompt : pystr) : M generate_outcome := λ w,
  (Ok (gemini (generates w) prompt),
   {| trace := trace w ++ [EvGenerate prompt]; files := files w; gets := gets w;
      generates := S (generates w); clock_reads := clock_reads w |}).

Definition nonempty_text (t : option pystr) : option pystr :=
  match t with
  | Some (c :: s) => Some (c :: s)
  | Some [] | None => None
  end.

Definition _extract_text_from_response (r : GenerateContentResponse) : option pystr :=
  match candidates r with
  | None | Some [] => None
  | Some (candidate :: _) =>
    match candidate_content candidate with
    | None => None
    | Some content_obj =>
      match content_parts content_obj with
      | None | Some [] => None
      | Some parts =>
        match omap (λ p, nonempty_text (part_text p)) parts with
        | [] => None
        | texts => Some (concat texts)
        end
      end
    end
  end.

Definition fence : pystr := lit "```".
Definition fence_json : pystr := lit "```json".
Definition triple_double : pystr := [34; 34; 34]%N.
Definition triple_single : pystr := lit "'''".

Definition _clean_response_text (text : pystr) : pystr :=
  let s := strip text in
  let s := if startswith s fence_json
           then strip (py_slice s (Some (Z.of_nat (length fence_json))) None) else s in
  let s := if startswith s fence then strip (py_slice s (Some 3) None) else s in
  let s := if endswith s fence then strip (py_slice s None (Some (-3))) else s in
  let s := if startswith s triple_double && endswith s triple_double
              || startswith s triple_single && endswith s triple_single
           then strip (py_slice s (Some 3) (Some (-3))) else s in
  s.

(** Lines 120 to 132: from the response to the parsed list. *)
Definition parse_response (r : GenerateContentResponse) : result (list json) :=
  match nonempty_text (_extract_text_from_response r) with
  | None => Raise RuntimeError
  | Some text =>
    try! parsed := json_loads (_clean_response_text text) in
    match parsed with
    | JList matches => Ok matches
    | _ => Raise ValueError
    end
  end.

(** The body of the [try] of one attempt. The local variable [response]
    keeps its binding from an earlier attempt when the call itself raises. *)
Definition attempt_body (prompt : pystr) (response : option GenerateContentResponse)
    : M (option GenerateContentResponse * result (list json)) :=
  let! out := generate_content prompt in
  match out with
  | GenerateRaises e => ret (response, Raise e)
  | Generates r => ret (Some r, parse_response r)
  end.

Definition raw_path (batch_idx attempt ts : Z) : pystr :=
  lit "data/raw_batch" ++ str_of_int batch_idx ++ lit "_attempt" ++ str_of_int attempt
    ++ lit "_" ++ str_of_int ts ++ lit ".json".

Definition failure_payload (e : exn) (attempt : Z) (prompt : pystr)
    (response : option GenerateContentResponse) : json :=
  JDict [(lit "error", JStr (repr_exn e));
         (lit "attempt", JInt attempt);
         (lit "prompt_preview", JStr (py_slice prompt None (Some 2000)));
         (lit "response_str",
          match response with Some r => JStr (response_str r) | None => JNull end)].

Fixpoint call_gemini_loop (prompt : pystr) (batch_idx : Z) (attempts : list Z)
    (backoff : Qc) (response : option GenerateContentResponse) : M (list json) :=
  match attempts with
  | [] => ret []                                            (* line 161 *)
  | attempt :: rest =>
    let! (response, outcome) := attempt_body prompt response in
    match outcome with
    | Ok parsed => ret parsed
    | Raise e =>
      let! ts := read_clock in
      let! _ := write_json (raw_path batch_idx attempt ts)
                  (failure_payload e attempt prompt response) in
      if attempt <? MAX_ATTEMPTS then
        let! _ := sleep backoff in
        call_gemini_loop prompt batch_idx rest (backoff * 2)%Qc response
      else ret []                                           (* line 158 *)
    end
  end.

Definition _call_gemini_with_retries (prompt : pystr) (batch_idx : Z) : M (list json) :=
  let! attempts := lift (py_range 1 (MAX_ATTEMPTS + 1) 1) in
  call_gemini_loop prompt batch_idx attempts BACKOFF_SECONDS None.

Record GeminiAnalyzer := {
  profile : json;              (* the profile loaded by [_load_profile] *)
}.

Definition dq : pystr := [34%N].
Definition nl : pystr := [10%N].
Definition quoted (s : string) : pystr := dq ++ lit s ++ dq.

(** [x[:hi]] for a text or a list; any other object raises (a number is not
    subscriptable, a dict takes no slice). *)
Definition py_prefix (v : json) (hi : Z) : result json :=
  match v with
  | JStr s => Ok (JStr (py_slice s None (Some hi)))
  | JList l => Ok (JList (py_slice l None (Some hi)))
  | JNull | JBool _ | JInt _ | JDict _ => Raise TypeError
  end.

Definition offer_preview (o : json) : result json :=
  try! id := py_get o (lit "_id") JNull in
  try! title := py_get o (lit "titleJob") JNull in
  try! employer := py_get o (lit "employer") JNull in
  try! location := py_get o (lit "location") JNull in
  try! description := py_get o (lit "descriptionOffer") JNull in
  try! description := py_prefix (if truthy description then description else JStr []) 400 in
  try! link := py_get o (lit "linkOffer") JNull in
  Ok (JDict [(lit "_id", id); (lit "titleJob", title); (lit "employer", employer);
             (lit "location", location); (lit "descriptionOffer", description);
             (lit "linkOffer", link)]).

Fixpoint result_map {A B} (f : A → result B) (l : list A) : result (list B) :=
  match l with
  | [] => Ok []
  | a :: rest => try! b := f a in try! bs := result_map f rest in Ok (b :: bs)
  end.

Definition plain_dumps : json → pystr :=
  json_dumps {| sort_keys := false; ensure_ascii := false; indent := None |}.

Definition _build_prompt (self : GeminiAnalyzer) (offers : list json)
    (batch_idx total_batches : Z) : result pystr :=
  let profile_str := plain_dumps (profile self) in
  try! offers_preview := result_map offer_preview offers in
  Ok (lit "Eres un asistente que filtra ofertas de trabajo según un perfil profesional. "
      ++ lit "No considerar puestos de asistente o juniors"
      ++ lit "Analizar cuáles son las empresas más importantes en la región y darles prioridad."
      ++ nl ++ nl
      ++ lit "Perfil:" ++ nl
      ++ profile_str ++ nl ++ nl
      ++ lit "Batch " ++ str_of_int batch_idx ++ lit "/" ++ str_of_int total_batches
      ++ lit " - Ofertas (campos: _id, titleJob, employer, location, descriptionOffer, linkOffer):"
      ++ nl
      ++ plain_dumps (JList offers_preview) ++ nl ++ nl
      ++ lit "Tarea: Devuelve SOLO un JSON cuya raíz sea una LISTA. Cada elemento debe tener exactamente los campos:"
      ++ nl
      ++ lit "- " ++ quoted "id" ++ lit ": usar el valor de " ++ quoted "_id"
      ++ lit " de la oferta (si no existe, usar linkOffer)," ++ nl
      ++ lit "- " ++ quoted "title" ++ lit ": titleJob," ++ nl
      ++ lit "- " ++ quoted "employer" ++ lit ": employer," ++ nl
      ++ lit "- " ++ quoted "linkOffer" ++ lit ": linkOffer," ++ nl
      ++ lit "- " ++ quoted "reason"
      ++ lit ": breve explicación (1-2 frases) de por qué la oferta encaja con el perfil."
      ++ nl ++ nl
      ++ lit "En reason indicar el rango salaria si está en la oferta."
      ++ lit "La respuesta debe ser estrictamente JSON (sin explicaciones adicionales). Si no hay matches, devuelve [] (una lista vacía)."
      ++ nl).

(** What a [set] keeps of a key: its class under [==], so [True] and [1]
    are one element. A list or a dict has no hash. *)
Inductive hashed :=
| HNone
| HInt (z : Z)
| HStr (s : pystr).

Global Instance hashed_eq_dec : EqDecision hashed.
Proof. solve_decision. Defined.

Global Instance hashed_countable : Countable hashed.
Proof.
  refine (inj_countable'
    (λ h, match h with HNone => None | HInt z => Some (inl z) | HStr s => Some (inr s) end)
    (λ o, match o with None => HNone | Some (inl z) => HInt z | Some (inr s) => HStr s end) _).
  by intros [].
Defined.

Definition py_hash (v : json) : result hashed :=
  match v with
  | JNull => Ok HNone
  | JBool b => Ok (HInt (if b then 1 else 0))
  | JInt z => Ok (HInt z)
  | JStr s => Ok (HStr s)
  | JList _ | JDict _ => Raise TypeError
  end.

Definition sorted_dumps : json → pystr :=
  json_dumps {| sort_keys := true; ensure_ascii := true; indent := None |}.

(** Lines 60 to 63: the key under which a match is deduplicated. *)
Definition match_key (m : json) : result json :=
  try! id := py_get m (lit "id") JNull in
  try! key := if truthy id then Ok id else
              try! link := py_get m (lit "linkOffer") JNull in
              Ok (if truthy link then link else JNull) in
  Ok (if negb (truthy key) then JStr (sorted_dumps m) else key).

(** Lines 59 to 67: the inner loop over the matches of one batch. *)
Fixpoint consolidate_batch (batch_matches : list json) (seen_ids : gset hashed)
    (all_matches : list json) : result (gset hashed * list json) :=
  match batch_matches with
  | [] => Ok (seen_ids, all_matches)
  | m :: rest =>
    try! key := match_key m in
    try! h := py_hash key in
    if bool_decide (h ∈ seen_ids) then consolidate_batch rest seen_ids all_matches
    else consolidate_batch rest ({[h]} ∪ seen_ids) (all_matches ++ [m])
  end.

Definition _save_filtered_offers (filtered : list json) : M pystr :=
  let! _ := write_json JSON_PATH (JList filtered) in
  ret JSON_PATH.

(** Lines 49 to 67: the loop over [enumerate(batches, start=1)]. *)
Fixpoint batches_loop (self : GeminiAnalyzer) (batches : list (Z * list json))
    (total_batches : Z) (seen_ids : gset hashed) (all_matches : list json)
    : M (gset hashed * list json) :=
  match batches with
  | [] => ret (seen_ids, all_matches)
  | (batch_idx, batch) :: rest =>
    let! prompt := lift (_build_prompt self batch batch_idx total_batches) in
    let! batch_matches := _call_gemini_with_retries prompt batch_idx in
    match batch_matches with
    | [] => batches_loop self rest total_batches seen_ids all_matches
    | _ :: _ =>
      let! (seen_ids, all_matches) :=
        lift (consolidate_batch batch_matches seen_ids all_matches) in
      batches_loop self rest total_batches seen_ids all_matches
    end
  end.

Definition enumerate_from {A} (start : Z) (l : list A) : list (Z * A) :=
  imap (λ i a, (start + Z.of_nat i, a)) l.

Definition filter_offers (self : GeminiAnalyzer) (offers : list json) : M (list json) :=
  match offers with
  | [] => ret []                                            (* line 42 *)
  | _ :: _ =>
    let! batches := lift (split_batches offers BATCH_SIZE) in
    let! (seen_ids, all_matches) :=
      batches_loop self (enumerate_from 1 batches) (Z.of_nat (length batches)) ∅ [] in
    let! _ := _save_filtered_offers all_matches in
    ret all_matches
  end.

(** * The digest renderer: [EmailGenerator] ([generate_email.py]) *)

Definition HTML_PATH : pystr := lit "data/email_body.html".

(** [html.escape(s)] with [quote=True]; the argument must be a [str]. *)
Definition escape_char (c : N) : pystr :=
  if (c =? 38)%N then lit "&amp;"
  else if (c =? 60)%N then lit "&lt;"
  else if (c =? 62)%N then lit "&gt;"
  else if (c =? 34)%N then lit "&quot;"
  else if (c =? 39)%N then lit "&#x27;"
  else [c].

Definition html_escape (v : json) : result pystr :=
  match v with
  | JStr s => Ok (mjoin (escape_char <$> s))
  | JNull | JBool _ | JInt _ | JList _ | JDict _ => Raise AttributeError
  end.

Definition line (margin : nat) (s : pystr) : pystr := replicate margin 32%N ++ s ++ nl.

Definition page_head : pystr :=
  dedent (
    line 12 (lit "<!DOCTYPE html>")
    ++ line 12 (lit "<html lang=" ++ quoted "es" ++ lit ">")
    ++ line 12 (lit "<head>")
    ++ line 16 (lit "<meta charset=" ++ quoted "UTF-8" ++ lit ">")
    ++ line 16 (lit "<meta name=" ++ quoted "viewport" ++ lit " content="
                ++ quoted "width=device-width, initial-scale=1.0" ++ lit ">")
    ++ line 16 (lit "<style>")
    ++ line 20 (lit "body { font-family: Arial, sans-serif; }")
    ++ line 20 (lit ".offer { margin-bottom: 20px; border-bottom: 1px solid #ccc; padding-bottom: 10px; }")
    ++ line 20 (lit ".title { font-size: 18px; font-weight: bold; color: #333; }")
    ++ line 20 (lit ".company, .link { color: #0073b1; text-decoration: none; }")
    ++ line 16 (lit "</style>")
    ++ line 12 (lit "</head>")
    ++ line 12 (lit "<body>")
    ++ line 16 (lit "<h2>Últimas Ofertas de Trabajo Filtradas</h2>")
    ++ replicate 8 32%N).

(** The f-string of lines 44 to 51, before [dedent]. *)
Definition offer_block (title employer reason link_offer : pystr) : pystr :=
  nl
  ++ line 20 (lit "<div class=" ++ quoted "offer" ++ lit ">")
  ++ line 24 (lit "<p class=" ++ quoted "title" ++ lit ">" ++ title ++ lit "</p>")
  ++ line 24 (lit "<p class=" ++ quoted "company" ++ lit ">" ++ employer ++ lit "</p>")
  ++ line 24 (lit "<p><strong>Razón:</strong> " ++ reason ++ lit "</p>")
  ++ line 24 (lit "<p><a class=" ++ quoted "link" ++ lit " href=" ++ dq ++ link_offer ++ dq
              ++ lit ">Ver oferta completa</a></p>")
  ++ line 20 (lit "</div>")
  ++ replicate 16 32%N.

(** Lines 39 to 51: one iteration of the loop over the offers. *)
Definition render_offer (offer : json) : result pystr :=
  try! title := py_get offer (lit "title") (JStr (lit "Sin título")) in
  try! title := html_escape title in
  try! employer := py_get offer (lit "employer") (JStr (lit "Sin empresa")) in
  try! employer := html_escape employer in
  try! link_offer := py_get offer (lit "linkOffer") (JStr (lit "#")) in
  try! link_offer := html_escape link_offer in
  try! reason := py_get offer (lit "reason") (JStr []) in
  try! reason := html_escape reason in
  Ok (dedent (offer_block title employer reason link_offer)).

Fixpoint render_offers (offers : list json) (html_content : pystr) : result pystr :=
  match offers with
  | [] => Ok html_content
  | offer :: rest =>
    try! block := render_offer offer in
    render_offers rest (html_content ++ block)
  end.

(** [path.write_text(text, encoding="utf-8")]: [open] empties the file and
    the text is written at once, so a text that cannot be encoded leaves
    the file empty. *)
Definition write_text (path text : pystr) : M unit := λ w,
  if encodable text
  then (Ok (), stored path text w)
  else (Raise UnicodeEncodeError, stored path [] w).

Definition html_document (offers : list json) : result pystr :=
  try! html_content :=
    match offers with
    | [] => Ok (page_head
                ++ lit "<p>No se encontraron ofertas que coincidan con el perfil.</p>" ++ nl)
    | _ :: _ => render_offers offers page_head
    end in
  Ok (html_content ++ lit "</body></html>").

Definition generate_html (offers : list json) : M unit :=
  let! html_content := lift (html_document offers) in
  write_text HTML_PATH html_content.

(** * The entry point ([main.py]) *)

Definition main (fetcher : JobOffersFetcher) (analyzer : GeminiAnalyzer) : M unit :=
  let! (offers, _meta) := get_all_offers fetcher 7 None true in
  let! matches := filter_offers analyzer offers in
  generate_html matches.

(** * The constructor of [HttpClient] ([fetch_offers.py], line 40) *)

(** [s.lstrip(chars)] and [s.rstrip(chars)]: the characters of [chars] are
    removed from the end of the text for as long as there are any. *)
Fixpoint lstrip_chars (s chars : pystr) : pystr :=
  match s with
  | c :: rest => if bool_decide (c ∈ chars) then lstrip_chars rest chars else s
  | [] => []
  end.

Definition rstrip_chars (s chars : pystr) : pystr :=
  reverse (lstrip_chars (reverse s) chars).

(** [self.base_url = base_url.rstrip("/")] *)
Definition base_url (given : pystr) : pystr := rstrip_chars given (lit "/").

End WithEnv.

(** * Notions used to state the properties *)

(** The [m] first slices of width [b] of a list. *)
Definition chunks {A} (l : list A) (b m : nat) : list (list A) :=
  (λ k, take b (drop (k * b)%nat l)) <$> seq 0 m.

(** First occurrence wins: of a list whose elements have the keys [k x],
    keep the element at position [i] unless its key is in [seen] or is the
    key of an element before position [i]; the kept elements stay in order. *)
Definition first_occurrences {A K} `{Countable K} (k : A → K) (seen : gset K)
    (l : list A) : list A :=
  omap id (imap (λ i x,
    if bool_decide (k x ∈ seen ∨ k x ∈ k <$> take i l) then None else Some x) l).

(** The requests and the sleeps of a trace, in order. *)
Definition requests_in (t : list event) : list json :=
  omap (λ ev, match ev with EvGet params => Some params | _ => None end) t.

Definition sleeps_in (t : list event) : list Qc :=
  omap (λ ev, match ev with EvSleep d => Some d | _ => None end) t.

(** [n] requests with a sleep between two of them, the [k]-th sleep
    lasting [backoff * 2 ^ k]. *)
Definition retry_trace (params : json) (backoff : Qc) (n : nat) : list event :=
  mjoin ((λ k, [EvGet params; EvSleep (backoff * 2 ^ k)%Qc]) <$> seq 0 (n - 1))
  ++ match n with O => [] | S _ => [EvGet params] end.

(** An attempt fails in a way that [get_json] retries: one of the five
    status codes, a timeout or a connection error. *)
Definition retryable_failure (out : get_outcome) : bool :=
  match out with
  | Responds resp => retry_status (status_code resp)
  | TimesOut | ConnectionFails => true
  | GetRaises _ => false
  end.

(** The world after [n] requests of [params] and the sleeps between them. *)
Definition after_retries (params : json) (w : world) (backoff : Qc) (n : nat) : world :=
  {| trace := trace w ++ retry_trace params backoff n; files := files w;
     gets := gets w + n; generates := generates w; clock_reads := clock_reads w |}.

(** A posting with neither a true [_id] nor a true [linkOffer]. *)
Definition anonymous (v : json) : bool :=
  match v with
  | JDict kvs =>
    negb (truthy (default JNull (dict_lookup kvs (lit "_id"))))
    && negb (truthy (default JNull (dict_lookup kvs (lit "linkOffer"))))
  | _ => false
  end.

(** The query of one page. *)
Definition page_params (days page : Z) : json :=
  JDict [(lit "days", JInt days); (lit "page", JInt page)].

(** A well-formed answer of the listing service: a success status and an
    envelope with the four keys, whose results are a list of records. *)
Definition valid_page (out : get_outcome) (items : list json) (total_pages : json) : Prop :=
  ∃ status kvs,
    out = Responds {| status_code := status; resp_json := Ok (JDict kvs) |}
    ∧ retry_status status = false
    ∧ (400 <=? status) && (status <? 600) = false
    ∧ dict_lookup kvs (lit "results") = Some (JList items)
    ∧ is_Some (dict_lookup kvs (lit "total"))
    ∧ dict_lookup kvs (lit "totalPages") = Some total_pages
    ∧ is_Some (dict_lookup kvs (lit "page"))
    ∧ Forall (λ v, is_dict v = true) items.

(** The value whose text is the deduplication key of a posting: its [_id]
    if that is true, else its [linkOffer] if that is true, else the
    identity [id(item)] of the object. *)
Definition identity_of (addr : Z) (kvs : list (pystr * json)) : json :=
  let id := default JNull (dict_lookup kvs (lit "_id")) in
  let link := default JNull (dict_lookup kvs (lit "linkOffer")) in
  if truthy id then id else if truthy link then link else JInt addr.

(** The key of an item, for the items that have one. *)
Definition key_text `{PyLib} (item : pyobj) : pystr :=
  match _dedupe_key item with Ok key => key | Raise _ => [] end.

(** The world after one request. *)
Definition sent (params : json) (w : world) : world :=
  {| trace := trace w ++ [EvGet params]; files := files w; gets := S (gets w);
     generates := generates w; clock_reads := clock_reads w |}.

(** Every request is answered by a well-formed page. *)
Definition healthy `{Env} : Prop :=
  ∀ n params, ∃ items total_pages, valid_page (server n params) items total_pages.

(** Texts of blanks only, and texts that neither start nor end with a
    blank (and are not empty). *)
Definition blank (s : pystr) : Prop := Forall (λ c, is_space c = true) s.

Definition solid (s : pystr) : Prop :=
  (∃ c rest, s = c :: rest ∧ is_space c = false)
  ∧ (∃ c front, s = front ++ [c] ∧ is_space c = false).

(** Wrapped in triple quotes of one kind at both ends. *)
Definition wrapped (s : pystr) : bool :=
  startswith s triple_double && endswith s triple_double
  || startswith s triple_single && endswith s triple_single.

Definition backquote : N := 96%N.

(** A body on which the sanitizer has nothing to remove: it has no blank
    and no backquote at either end and is not wrapped in triple quotes. *)
Definition plain (body : pystr) : Prop :=
  solid body
  ∧ head body ≠ Some backquote
  ∧ last body ≠ Some backquote
  ∧ wrapped body = false.





(** The files written in a trace, in order, and its inference calls. *)
Definition writes_in (t : list event) : list (pystr * pystr) :=
  omap (λ ev, match ev with EvWrite path text => Some (path, text) | _ => None end) t.

Definition prompts_in (t : list event) : list pystr :=
  omap (λ ev, match ev with EvGenerate prompt => Some prompt | _ => None end) t.

(** An attempt fails: the service raises, or its response has no text, or
    the text does not parse, or the parsed root is not a list. *)
Definition attempt_fails `{PyLib} (out : generate_outcome) : bool :=
  match out with
  | GenerateRaises _ => true
  | Generates r => negb (is_ok (parse_response r))
  end.

(** The key of a match as the set [seen_ids] holds it. *)
Definition hashed_key `{PyLib} (m : json) : result hashed :=
  try! key := match_key m in py_hash key.

(** A match that has a key: a record whose [id] (or, failing that,
    [linkOffer]) can be hashed. *)
Definition keyed `{PyLib} (m : json) : Prop := is_ok (hashed_key m) = true.

Definition dedup_class `{PyLib} (m : json) : hashed :=
  match hashed_key m with Ok h => h | Raise _ => HNone end.

(** The value that is the key of a record: its [id] if that is true, else
    its [linkOffer] if that is true, else the whole record serialized by
    [json.dumps(m, sort_keys=True)]. *)
Definition key_of_record `{PyLib} (kvs : list (pystr * json)) : json :=
  let id := default JNull (dict_lookup kvs (lit "id")) in
  let link := default JNull (dict_lookup kvs (lit "linkOffer")) in
  if truthy id then id else if truthy link then link
  else JStr (json_dumps {| sort_keys := true; ensure_ascii := true; indent := None |}
               (JDict kvs)).

(** The inference calls of a run, batch after batch, without the
    consolidation that the run does between them: the per-batch results in
    submission order. *)
Fixpoint inference_results `{Env} `{PyLib} `{Settings} (self : GeminiAnalyzer)
    (batches : list (Z * list json)) (total_batches : Z) : M (list (list json)) :=
  match batches with
  | [] => ret []
  | (batch_idx, batch) :: rest =>
    let! prompt := lift (_build_prompt self batch batch_idx total_batches) in
    let! batch_matches := _call_gemini_with_retries prompt batch_idx in
    let! others := inference_results self rest total_batches in
    ret (batch_matches :: others)
  end.

(** The world after the result artifact is written. *)
Definition saved `{PyLib} (matches : list json) (w : world) : world :=
  let text := json_dumps {| sort_keys := false; ensure_ascii := false; indent := Some 2 |}
                (JList matches) in
  {| trace := trace w ++ [EvWrite JSON_PATH text];
     files := <[JSON_PATH := text]> (files w);
     gets := gets w; generates := generates w; clock_reads := clock_reads w |}.

(** The world after one inference call. *)
Definition generated (prompt : pystr) (w : world) : world :=
  {| trace := trace w ++ [EvGenerate prompt]; files := files w; gets := gets w;
     generates := S (generates w); clock_reads := clock_reads w |}.

(** [json.dump(..., ensure_ascii=False, indent=2)], as both artifacts are
    written. *)
Definition artifact_options : dump_options :=
  {| sort_keys := false; ensure_ascii := false; indent := Some 2 |}.

(** A field of a match that the renderer can show: missing, or a text. *)
Definition text_field (kvs : list (pystr * json)) (key : pystr) : Prop :=
  dict_lookup kvs key = None ∨ ∃ s, dict_lookup kvs key = Some (JStr s).

(** What is shown for a field: the placeholder when the field is missing,
    the escaped text when it is there. *)
Definition shown (kvs : list (pystr * json)) (key placeholder : pystr) : pystr :=
  match dict_lookup kvs key with
  | Some (JStr s) => mjoin (escape_char <$> s)
  | _ => placeholder
  end.

(** The block of a match as the digest is to show it, before [dedent]:
    the text of lines 44 to 51 with the four values in their places. *)
Definition expected_block (title employer reason link_offer : pystr) : pystr :=
  nl
  ++ lit "                    <div class=" ++ dq ++ lit "offer" ++ dq ++ lit ">" ++ nl
  ++ lit "                        <p class=" ++ dq ++ lit "title" ++ dq ++ lit ">"
  ++ title ++ lit "</p>" ++ nl
  ++ lit "                        <p class=" ++ dq ++ lit "company" ++ dq ++ lit ">"
  ++ employer ++ lit "</p>" ++ nl
  ++ lit "                        <p><strong>Razón:</strong> " ++ reason ++ lit "</p>" ++ nl
  ++ lit "                        <p><a class=" ++ dq ++ lit "link" ++ dq ++ lit " href="
  ++ dq ++ link_offer ++ dq ++ lit ">Ver oferta completa</a></p>" ++ nl
  ++ lit "                    </div>" ++ nl
  ++ lit "                ".

(** The four fields of a match that the digest shows. *)
Definition rendered_fields : list pystr :=
  [lit "title"; lit "employer"; lit "linkOffer"; lit "reason"].

(** A match whose four rendered fields are missing or texts. *)
Definition renderable (offer : json) : Prop :=
  ∃ kvs, offer = JDict kvs
    ∧ text_field kvs (lit "title") ∧ text_field kvs (lit "employer")
    ∧ text_field kvs (lit "linkOffer") ∧ text_field kvs (lit "reason").

(** The world after the digest is written. *)
Definition digest_written (text : pystr) (w : world) : world :=
  {| trace := trace w ++ [EvWrite HTML_PATH text]; files := <[HTML_PATH := text]> (files w);
     gets := gets w; generates := generates w; clock_reads := clock_reads w |}.

(** ** Further notions *)

(** What ends a [get_json] call at the attempt that meets it: a response
    whose status is not retried gives its body when the status is a
    success and [HttpError] otherwise; an exception other than the two
    transient ones leaves the call as it is. [None]: a retryable failure. *)
Definition final_result (out : get_outcome) : option (result json) :=
  match out with
  | Responds resp =>
    if retry_status (status_code resp) then None
    else Some (if resp_ok resp then resp_json resp else Raise HttpError)
  | TimesOut | ConnectionFails => None
  | GetRaises e => Some (Raise e)
  end.

(** The four keys that [fetch_page] requires. *)
Definition page_keys : list pystr :=
  [lit "results"; lit "total"; lit "totalPages"; lit "page"].

(** The results of the answer to request number [n]. *)
Definition served `{Env} (n : nat) (params : json) : list json :=
  match server n params with
  | Responds resp =>
    match resp_json resp with
    | Ok (JDict kvs) =>
      match dict_lookup kvs (lit "results") with
      | Some (JList items) => items
      | _ => []
      end
    | _ => []
    end
  | _ => []
  end.

(** The items of the pages [pages], when their requests are the requests
    number [n], [n + 1], ...: each item with its identity, in the order of
    the pages and of the results. *)
Fixpoint listing `{Env} (days : Z) (n : nat) (pages : list Z) : list pyobj :=
  match pages with
  | [] => []
  | p :: rest =>
    imap (λ i it, (item_id p i, it)) (served n (page_params days p))
    ++ listing days (S n) rest
  end.

(** The requests [n], [n + 1], ... for the pages [pages] are answered by
    well-formed pages. *)
Definition answers_pages `{Env} (days : Z) (n : nat) (pages : list Z) : Prop :=
  ∀ i p, pages !! i = Some p →
    ∃ items total_pages, valid_page (server (n + i) (page_params days p)) items total_pages.

(** The requests of a run that asks for the pages [pages] in order, the
    page at position [i] as many times in a row as [counts] tells at
    position [i]: a page is asked for again when its request is retried. *)
Definition repeated_requests (days : Z) (counts : list nat) (pages : list Z) : list json :=
  mjoin (zip_with (λ k p, replicate k (page_params days p)) counts pages).

(** The sleep before a page other than the first. *)
Definition pacing (self : JobOffersFetcher) (respect_rate_limit : bool) : list event :=
  if respect_rate_limit && bool_decide (0 < sleep_between_pages self)%Qc
  then [EvSleep (sleep_between_pages self)] else [].

(** The events of the pages [pages]: for each page the sleep, if any, and
    the request. *)
Definition paged_trace (self : JobOffersFetcher) (days : Z) (respect_rate_limit : bool)
    (pages : list Z) : list event :=
  mjoin ((λ p, pacing self respect_rate_limit ++ [EvGet (page_params days p)]) <$> pages).

(** The number of pages to traverse, of [total_pages] pages under the
    limit [max_pages], and the pages after the first that a run traverses. *)
Definition page_limit (total_pages : Z) (max_pages : option Z) : Z :=
  match max_pages with
  | Some max_pages => Z.min total_pages max_pages
  | None => total_pages
  end.

Definition later_pages (total_pages : Z) (max_pages : option Z) : list Z :=
  seqZ 2 (page_limit total_pages max_pages - 1).

(** A world that differs from [w] by the events [new], of which [n] are
    requests. *)
Definition fetched (w : world) (new : list event) (n : nat) : world :=
  {| trace := trace w ++ new; files := files w; gets := gets w + n;
     generates := generates w; clock_reads := clock_reads w |}.

(** An event of the fetch stage: a request or a sleep. *)
Definition fetch_event (ev : event) : bool :=
  match ev with
  | EvGet _ | EvSleep _ => true
  | EvGenerate _ | EvWrite _ _ => false
  end.

(** The world [w'] comes from [w] by requests and sleeps only. *)
Definition only_fetches (w w' : world) : Prop :=
  ∃ new, trace w' = trace w ++ new
    ∧ forallb fetch_event new = true
    ∧ files w' = files w
    ∧ generates w' = generates w
    ∧ clock_reads w' = clock_reads w.

(** The text [s] is a stretch of the text [t]. *)
Definition within (s t : pystr) : Prop := ∃ a d, t = a ++ s ++ d.

(** The world [w'] comes from [w] by the effects that an inference call
    for [prompt] and batch [batch_idx] may have over the attempts
    [attempts]: inference calls with this prompt, at most one per attempt;
    diagnostic artifacts of this batch and these attempts, at most one per
    inference call, and no other file; sleeps. *)
Definition call_effects (prompt : pystr) (batch_idx : Z) (attempts : list Z)
    (w w' : world) : Prop :=
  ∃ new,
    trace w' = trace w ++ new
    ∧ (length (prompts_in new) ≤ length attempts)%nat
    ∧ Forall (λ p, p = prompt) (prompts_in new)
    ∧ requests_in new = []
    ∧ (length (writes_in new) ≤ length (prompts_in new))%nat
    ∧ Forall (λ pt : pystr * pystr, ∃ attempt ts, attempt ∈ attempts
                ∧ pt.1 = raw_path batch_idx attempt ts) (writes_in new)
    ∧ (∀ path, (∀ attempt ts, path ≠ raw_path batch_idx attempt ts) →
               files w' !! path = files w !! path)
    ∧ gets w' = gets w.

(** The value of a field of a posting as [get] returns it: [None] when the
    field is missing. *)
Definition field (kvs : list (pystr * json)) (key : pystr) : json :=
  default JNull (dict_lookup kvs key).

(** The text of the description of a posting, empty when the description
    is missing or not a text. *)
Definition description_text (kvs : list (pystr * json)) : pystr :=
  match dict_lookup kvs (lit "descriptionOffer") with
  | Some (JStr s) => s
  | _ => []
  end.

(** An offer that [offer_preview] accepts. *)
Definition previewable (o : json) : bool := is_ok (offer_preview o).

(** The characters that [html.escape] replaces. *)
Definition markup (c : N) : bool :=
  ((c =? 38) || (c =? 60) || (c =? 62) || (c =? 34) || (c =? 39))%N.

(** The block of a match in the digest. *)
Definition block_of `{PyLib} (offer : json) : pystr :=
  match offer with
  | JDict kvs =>
    dedent (offer_block (shown kvs (lit "title") (lit "Sin título"))
                        (shown kvs (lit "employer") (lit "Sin empresa"))
                        (shown kvs (lit "reason") [])
                        (shown kvs (lit "linkOffer") (lit "#")))
  | _ => []
  end.

(** The digest of an empty list of matches. *)
Definition empty_digest `{PyLib} : pystr :=
  page_head ++ lit "<p>No se encontraron ofertas que coincidan con el perfil.</p>" ++ nl
  ++ lit "</body></html>".

(** The world [w'] has the file [path] as [w] has it, and as many requests
    sent. *)
Definition keeps (path : pystr) (w w' : world) : Prop :=
  files w' !! path = files w !! path ∧ gets w' = gets w.

(** ** The diagnostic artifacts *)

(** The exception with which a failed attempt ends: the one that the call
    of the service raised, or the one that reading its response raised. *)
Definition attempt_error `{PyLib} (out : generate_outcome) : exn :=
  match out with
  | GenerateRaises e => e
  | Generates r =>
    match parse_response r with
    | Raise e => e
    | Ok _ => RuntimeError
    end
  end.

(** What the local variable [response] holds after the attempt that got
    answer number [n + k], when it held [before] ahead of the attempt that
    got answer number [n]: the response of the latest of these attempts
    whose call returned one. *)
Fixpoint bound_response `{Env} (prompt : pystr) (n k : nat)
    (before : option GenerateContentResponse) : option GenerateContentResponse :=
  match gemini (n + k) prompt with
  | Generates r => Some r
  | GenerateRaises _ =>
    match k with
    | O => before
    | S k' => bound_response prompt n k' before
    end
  end.

(** The content of the artifact of a failed attempt: the four entries of
    lines 140 to 143. *)
Definition expected_artifact `{PyLib} (e : exn) (attempt : Z) (prompt : pystr)
    (response : option GenerateContentResponse) : json :=
  JDict [(lit "error", JStr (repr_exn e));
         (lit "attempt", JInt attempt);
         (lit "prompt_preview", JStr (take 2000 prompt));
         (lit "response_str",
          match response with
          | Some r => JStr (response_str r)
          | None => JNull
          end)].

(** The text of a response that is bound, if any, can be encoded. *)
Definition response_encodable (response : option GenerateContentResponse) : Prop :=
  match response with
  | Some r => encodable (response_str r) = true
  | None => True
  end.

(** The diagnostic artifacts of the calls for [prompt] can be encoded: the
    first 2000 characters of the prompt, the [repr] of the exception of
    every attempt and the text of every response hold no surrogate. *)
Definition artifacts_encodable `{Env} `{PyLib} (prompt : pystr) : Prop :=
  encodable (take 2000 prompt) = true
  ∧ ∀ n, encodable (repr_exn (attempt_error (gemini n prompt))) = true
         ∧ ∀ r, gemini n prompt = Generates r → encodable (response_str r) = true.

(** The world after a failed attempt, numbered [attempt], whose artifact
    can be encoded. *)
Definition after_failure `{Env} `{PyLib} (prompt : pystr) (batch_idx attempt : Z)
    (response : option GenerateContentResponse) (w : world) : world :=
  stored (raw_path batch_idx attempt (clock (clock_reads w)))
    (json_dumps artifact_options
       (expected_artifact (attempt_error (gemini (generates w) prompt)) attempt prompt
          (bound_response prompt (generates w) 0 response)))
    {| trace := trace w ++ [EvGenerate prompt]; files := files w; gets := gets w;
       generates := S (generates w); clock_reads := S (clock_reads w) |}.

(** * A reference instance of the library and of the environment

    The theorems below hold for every [PyLib] and every [Env]. The instances
    of this part serve to run the model on concrete inputs: a model of the
    library functions on JSON texts without floats, and environments in which
    the two services answer in a fixed way. *)

Module Reference.

(** ** [json.loads] *)

Definition is_json_space (c : N) : bool :=
  ((c =? 32) || (c =? 9) || (c =? 10) || (c =? 13))%N.

Fixpoint skip_spaces (s : pystr) : pystr :=
  match s with
  | c :: rest => if is_json_space c then skip_spaces rest else s
  | [] => []
  end.

Definition hex_value (c : N) : option N :=
  if ((48 <=? c) && (c <=? 57))%N then Some (c - 48)%N
  else if ((97 <=? c) && (c <=? 102))%N then Some (c - 87)%N
  else if ((65 <=? c) && (c <=? 70))%N then Some (c - 55)%N
  else None.

Definition simple_escape (c : N) : option N :=
  if (c =? 34)%N then Some 34%N
  else if (c =? 92)%N then Some 92%N
  else if (c =? 47)%N then Some 47%N
  else if (c =? 98)%N then Some 8%N
  else if (c =? 102)%N then Some 12%N
  else if (c =? 110)%N then Some 10%N
  else if (c =? 114)%N then Some 13%N
  else if (c =? 116)%N then Some 9%N
  else None.

(** The characters of a string up to its closing quote, and the rest. *)
Fixpoint parse_chars (fuel : nat) (s acc : pystr) : option (pystr * pystr) :=
  match fuel with
  | O => None
  | S fuel =>
    match s with
    | [] => None
    | c :: rest =>
      if (c =? 34)%N then Some (acc, rest)
      else if (c =? 92)%N then
        match rest with
        | e :: rest1 =>
          if (e =? 117)%N then
            match rest1 with
            | h1 :: h2 :: h3 :: h4 :: rest2 =>
              match hex_value h1, hex_value h2, hex_value h3, hex_value h4 with
              | Some d1, Some d2, Some d3, Some d4 =>
                parse_chars fuel rest2 (acc ++ [d1 * 4096 + d2 * 256 + d3 * 16 + d4])%N
              | _, _, _, _ => None
              end
            | _ => None
            end
          else
            match simple_escape e with
            | Some d => parse_chars fuel rest1 (acc ++ [d])
            | None => None
            end
        | [] => None
        end
      else if (c <? 32)%N then None
      else parse_chars fuel rest (acc ++ [c])
    end
  end.

Definition is_digit (c : N) : bool := ((48 <=? c) && (c <=? 57))%N.

Fixpoint parse_digits (s : pystr) (acc : Z) : Z * pystr :=
  match s with
  | c :: rest =>
    if is_digit c then parse_digits rest (10 * acc + Z.of_N (c - 48)) else (acc, s)
  | [] => (acc, [])
  end.

(** An integer: an optional minus sign and digits without a leading zero;
    a fraction or an exponent (a float) is outside the model. *)
Definition parse_int (s : pystr) : option (Z * pystr) :=
  let '(negative, body) :=
    match s with
    | c :: rest => if (c =? 45)%N then (true, rest) else (false, s)
    | [] => (false, s)
    end in
  match body with
  | d :: after =>
    if is_digit d then
      let '(n, rest) := parse_digits body 0 in
      let leading_zero := (d =? 48)%N && match after with
                                          | d2 :: _ => is_digit d2
                                          | [] => false
                                          end in
      let float := match rest with
                   | c :: _ => (c =? 46)%N || (c =? 101)%N || (c =? 69)%N
                   | [] => false
                   end in
      if leading_zero || float then None
      else Some (if negative then - n else n, rest)
    else None
  | [] => None
  end.

(** [d[key] = value] on an insertion-ordered dict. *)
Fixpoint dict_set (kvs : list (pystr * json)) (key : pystr) (value : json)
    : list (pystr * json) :=
  match kvs with
  | [] => [(key, value)]
  | (k, v) :: rest =>
    if decide (k = key) then (k, value) :: rest else (k, v) :: dict_set rest key value
  end.

Fixpoint parse_value (fuel : nat) (s : pystr) : option (json * pystr) :=
  match fuel with
  | O => None
  | S fuel =>
    let s := skip_spaces s in
    if startswith s (lit "null") then Some (JNull, drop 4 s)
    else if startswith s (lit "true") then Some (JBool true, drop 4 s)
    else if startswith s (lit "false") then Some (JBool false, drop 5 s)
    else
      match s with
      | [] => None
      | c :: rest =>
        if (c =? 34)%N then
          match parse_chars (length rest) rest [] with
          | Some (text, rest1) => Some (JStr text, rest1)
          | None => None
          end
        else if (c =? 91)%N then
          match skip_spaces rest with
          | c1 :: rest1 =>
            if (c1 =? 93)%N then Some (JList [], rest1) else parse_elements fuel rest []
          | [] => None
          end
        else if (c =? 123)%N then
          match skip_spaces rest with
          | c1 :: rest1 =>
            if (c1 =? 125)%N then Some (JDict [], rest1) else parse_members fuel rest []
          | [] => None
          end
        else
          match parse_int s with
          | Some (z, rest1) => Some (JInt z, rest1)
          | None => None
          end
      end
  end
with parse_elements (fuel : nat) (s : pystr) (acc : list json) : option (json * pystr) :=
  match fuel with
  | O => None
  | S fuel =>
    match parse_value fuel s with
    | Some (v, rest) =>
      match skip_spaces rest with
      | c :: rest1 =>
        if (c =? 44)%N then parse_elements fuel rest1 (acc ++ [v])
        else if (c =? 93)%N then Some (JList (acc ++ [v]), rest1)
        else None
      | [] => None
      end
    | None => None
    end
  end
with parse_members (fuel : nat) (s : pystr) (acc : list (pystr * json))
    : option (json * pystr) :=
  match fuel with
  | O => None
  | S fuel =>
    match skip_spaces s with
    | q :: rest =>
      if (q =? 34)%N then
        match parse_chars (length rest) rest [] with
        | Some (key, rest1) =>
          match skip_spaces rest1 with
          | colon :: rest2 =>
            if (colon =? 58)%N then
              match parse_value fuel rest2 with
              | Some (v, rest3) =>
                match skip_spaces rest3 with
                | c :: rest4 =>
                  if (c =? 44)%N then parse_members fuel rest4 (dict_set acc key v)
                  else if (c =? 125)%N then Some (JDict (dict_set acc key v), rest4)
                  else None
                | [] => None
                end
              | None => None
              end
            else None
          | [] => None
          end
        | None => None
        end
      else None
    | [] => None
    end
  end.

Definition loads (s : pystr) : result json :=
  match parse_value (2 * length s + 2) s with
  | Some (v, rest) =>
    match skip_spaces rest with
    | [] => Ok v
    | _ :: _ => Raise JSONDecodeError
    end
  | None => Raise JSONDecodeError
  end.

(** ** [json.dumps] *)

Definition hex_digit (d : N) : N := if (d <? 10)%N then (48 + d)%N else (87 + d)%N.

(** [\uXXXX] *)
Definition u_escape (c : N) : pystr :=
  [92; 117; hex_digit (c / 4096 mod 16); hex_digit (c / 256 mod 16);
   hex_digit (c / 16 mod 16); hex_digit (c mod 16)]%N.

Definition escape_json_char (ascii_only : bool) (c : N) : pystr :=
  if (c =? 34)%N then [92; 34]%N
  else if (c =? 92)%N then [92; 92]%N
  else if (c =? 10)%N then [92; 110]%N
  else if (c =? 13)%N then [92; 114]%N
  else if (c =? 9)%N then [92; 116]%N
  else if (c =? 8)%N then [92; 98]%N
  else if (c =? 12)%N then [92; 102]%N
  else if (c <? 32)%N then u_escape c
  else if ascii_only && (126 <? c)%N then
    if (c <? 65536)%N then u_escape c
    else u_escape (55296 + (c - 65536) / 1024) ++ u_escape (56320 + (c - 65536) mod 1024)
  else [c].

Definition dumps_text (ascii_only : bool) (s : pystr) : pystr :=
  dq ++ mjoin (escape_json_char ascii_only <$> s) ++ dq.

(** Order of two texts by code points, as [sorted] compares the keys. *)
Fixpoint text_le (a b : pystr) : bool :=
  match a, b with
  | [], _ => true
  | _ :: _, [] => false
  | x :: a', y :: b' => (x <? y)%N || (x =? y)%N && text_le a' b'
  end.

Fixpoint insert_sorted {A} (kv : pystr * A) (l : list (pystr * A)) : list (pystr * A) :=
  match l with
  | [] => [kv]
  | kv' :: rest =>
    if text_le kv.1 kv'.1 then kv :: l else kv' :: insert_sorted kv rest
  end.

Definition sort_items {A} (l : list (pystr * A)) : list (pystr * A) :=
  foldr insert_sorted [] l.

Fixpoint join_with (sep : pystr) (pieces : list pystr) : pystr :=
  match pieces with
  | [] => []
  | [p] => p
  | p :: rest => p ++ sep ++ join_with sep rest
  end.

(** The text of a value at nesting depth [level]. *)
Fixpoint dumps_at (opts : dump_options) (level : nat) (v : json) : pystr :=
  let newline (lvl : nat) : pystr :=
    match indent opts with
    | Some width => nl ++ replicate (Z.to_nat width * lvl) 32%N
    | None => []
    end in
  let item_separator : pystr :=
    match indent opts with
    | Some _ => lit "," ++ newline (S level)
    | None => lit ", "
    end in
  match v with
  | JNull => lit "null"
  | JBool b => if b then lit "true" else lit "false"
  | JInt z => str_of_int z
  | JStr s => dumps_text (ensure_ascii opts) s
  | JList [] => lit "[]"
  | JList l =>
    lit "[" ++ newline (S level)
    ++ join_with item_separator (dumps_at opts (S level) <$> l)
    ++ newline level ++ lit "]"
  | JDict [] => lit "{}"
  | JDict kvs =>
    let items :=
      (λ kv : pystr * json,
         (kv.1, dumps_text (ensure_ascii opts) kv.1 ++ lit ": "
                ++ dumps_at opts (S level) kv.2)) <$> kvs in
    let items := if sort_keys opts then sort_items items else items in
    lit "{" ++ newline (S level)
    ++ join_with item_separator (snd <$> items)
    ++ newline level ++ lit "}"
  end.

Definition dumps (opts : dump_options) (v : json) : pystr := dumps_at opts 0 v.

(** The chunks in which [json.dump] passes the text to the stream (the
    encoder of CPython 3.11 that [json.dump] iterates): a scalar is one
    chunk; in a list a scalar item makes one chunk with the separator
    before it, and a list or a dict as item comes after a chunk of the
    separator alone; in a dict the separator, the key, the colon and the
    value are chunks of their own. *)
Definition is_scalar (v : json) : bool :=
  match v with
  | JNull | JBool _ | JInt _ | JStr _ => true
  | JList _ | JDict _ => false
  end.

Fixpoint chunks_at (opts : dump_options) (level : nat) (v : json) : list pystr :=
  let newline (lvl : nat) : pystr :=
    match indent opts with
    | Some width => nl ++ replicate (Z.to_nat width * lvl) 32%N
    | None => []
    end in
  let item_separator : pystr :=
    match indent opts with
    | Some _ => lit "," ++ newline (S level)
    | None => lit ", "
    end in
  let closing (bracket : pystr) : list pystr :=
    match indent opts with
    | Some _ => [newline level; bracket]
    | None => [bracket]
    end in
  match v with
  | JNull | JBool _ | JInt _ | JStr _ => [dumps_at opts level v]
  | JList [] => [lit "[]"]
  | JList l =>
    let items := (λ item, (is_scalar item, chunks_at opts (S level) item)) <$> l in
    mjoin (imap (λ i (item : bool * list pystr),
             let before := if bool_decide (i = 0%nat)
                           then lit "[" ++ newline (S level) else item_separator in
             if item.1 then [before ++ mjoin item.2] else before :: item.2) items)
    ++ closing (lit "]")
  | JDict [] => [lit "{}"]
  | JDict kvs =>
    let items :=
      (λ kv : pystr * json,
         (kv.1, [dumps_text (ensure_ascii opts) kv.1; lit ": "]
                ++ chunks_at opts (S level) kv.2)) <$> kvs in
    let items := if sort_keys opts then sort_items items else items in
    [lit "{"]
    ++ match indent opts with Some _ => [newline (S level)] | None => [] end
    ++ mjoin (imap (λ i (item : pystr * list pystr),
                if bool_decide (i = 0%nat) then item.2 else item_separator :: item.2) items)
    ++ closing (lit "}")
  end.

Fixpoint encodable_chunks (chunks : list pystr) : list pystr :=
  match chunks with
  | chunk :: rest => if encodable chunk then chunk :: encodable_chunks rest else []
  | [] => []
  end.

(** What is in the file when [json.dump] raises. *)
Definition dump_partial (opts : dump_options) (v : json) : pystr :=
  mjoin (encodable_chunks (chunks_at opts 0 v)).

(** ** [repr] of a list or a dict, [repr] of an exception, [int] of a text *)

Definition repr_char (quote : N) (c : N) : pystr :=
  if (c =? quote)%N then [92; c]%N
  else if (c =? 92)%N then [92; 92]%N
  else if (c =? 10)%N then [92; 110]%N
  else if (c =? 13)%N then [92; 114]%N
  else if (c =? 9)%N then [92; 116]%N
  else if (c <? 32)%N || (c =? 127)%N then
    [92; 120; hex_digit (c / 16 mod 16); hex_digit (c mod 16)]%N
  else [c].

(** Single quotes, unless the text has one and has no double quote. *)
Definition repr_text (s : pystr) : pystr :=
  let quote := if bool_decide (39%N ∈ s) && negb (bool_decide (34%N ∈ s))
               then 34%N else 39%N in
  [quote] ++ mjoin (repr_char quote <$> s) ++ [quote].

Fixpoint repr (v : json) : pystr :=
  match v with
  | JNull => lit "None"
  | JBool b => if b then lit "True" else lit "False"
  | JInt z => str_of_int z
  | JStr s => repr_text s
  | JList l => lit "[" ++ join_with (lit ", ") (repr <$> l) ++ lit "]"
  | JDict kvs =>
    lit "{"
    ++ join_with (lit ", ") ((λ kv : pystr * json, repr_text kv.1 ++ lit ": " ++ repr kv.2) <$> kvs)
    ++ lit "}"
  end.

(** The class of the exception; the model keeps no message. *)
Definition exn_repr (e : exn) : pystr :=
  match e with
  | HttpError => lit "HttpError()"
  | ValueError => lit "ValueError()"
  | TypeError => lit "TypeError()"
  | AttributeError => lit "AttributeError()"
  | RuntimeError => lit "RuntimeError()"
  | JSONDecodeError => lit "JSONDecodeError()"
  | UnicodeEncodeError => lit "UnicodeEncodeError()"
  | OtherException name => name ++ lit "()"
  end.

(** [int(s)]: surrounding blanks, an optional sign, decimal digits. *)
Definition int_of (s : pystr) : result Z :=
  let s := strip s in
  let '(negative, body) :=
    match s with
    | c :: rest =>
      if (c =? 45)%N then (true, rest) else if (c =? 43)%N then (false, rest) else (false, s)
    | [] => (false, s)
    end in
  match body with
  | d :: _ =>
    if is_digit d then
      match parse_digits body 0 with
      | (n, []) => Ok (if negative then - n else n)
      | (_, _ :: _) => Raise ValueError
      end
    else Raise ValueError
  | [] => Raise ValueError
  end.

(** ** [textwrap.dedent] *)

Fixpoint split_lines (s cur : pystr) : list pystr :=
  match s with
  | [] => [cur]
  | c :: rest => if (c =? 10)%N then cur :: split_lines rest [] else split_lines rest (cur ++ [c])
  end.

Definition is_blank (c : N) : bool := ((c =? 32) || (c =? 9))%N.

Fixpoint leading_blanks (l : pystr) : pystr :=
  match l with
  | c :: rest => if is_blank c then c :: leading_blanks rest else []
  | [] => []
  end.

Fixpoint common_prefix (a b : pystr) : pystr :=
  match a, b with
  | x :: a', y :: b' => if (x =? y)%N then x :: common_prefix a' b' else []
  | _, _ => []
  end.

(** Lines of blanks become empty; the longest common run of leading blanks
    of the other lines is removed from each of them. *)
Definition dedent_text (text : pystr) : pystr :=
  let lines := (λ l, if forallb is_blank l then [] else l) <$> split_lines text [] in
  let indents := leading_blanks <$> filter (λ l, l ≠ []) lines in
  let margin := match indents with
                | [] => []
                | first :: rest => foldl common_prefix first rest
                end in
  join_with nl ((λ l, if startswith l margin then drop (length margin) l else l) <$> lines).

(** [dedent_text] keeps or drops characters of the text and joins the
    lines with the newlines it split them at. *)
Definition dedent_text_encodable (text : pystr) :
  encodable text = true → encodable (dedent_text text) = true.
Proof.
  assert (∀ s, encodable s = true ↔ Forall (λ c, is_surrogate c = false) s) as Hall.
  { intros s. unfold encodable. rewrite forallb_forall, Forall_forall.
    split; intros Hs c Hc.
    - apply negb_true_iff, Hs. by apply list_elem_of_In.
    - apply negb_true_iff, Hs. by apply list_elem_of_In. }
  assert (∀ s cur, encodable s = true → encodable cur = true →
                   Forall (λ l, encodable l = true) (split_lines s cur)) as Hsplit.
  { induction s as [|c s IH]; intros cur Hs Hcur; simpl.
    - by constructor.
    - apply Hall, Forall_cons in Hs as [Hc Hs]. apply Hall in Hs.
      destruct (c =? 10)%N.
      + constructor; [done|]. by apply IH.
      + apply IH; [done|]. apply Hall, Forall_app. split; [by apply Hall|].
        by constructor. }
  assert (∀ pieces, Forall (λ l, encodable l = true) pieces →
                    encodable (join_with nl pieces) = true) as Hjoin.
  { induction 1 as [|p pieces Hp Hrest IH]; [done|]. simpl.
    destruct pieces as [|q pieces]; [done|].
    apply Hall, Forall_app. split; [by apply Hall|].
    apply Forall_cons. split; [done|by apply Hall]. }
  intros Htext. unfold dedent_text. apply Hjoin.
  apply Forall_fmap, Forall_fmap.
  eapply Forall_impl; [by apply (Hsplit text [] Htext)|].
  intros l Hl. simpl.
  assert (encodable (if forallb is_blank l then [] else l) = true) as Hkept.
  { by destruct (forallb is_blank l). }
  destruct (startswith _ _); [|done].
  apply Hall, Forall_drop. by apply Hall.
Qed.

Definition lib : PyLib := {|
  json_loads := loads;
  json_dumps := dumps;
  json_dump_partial := dump_partial;
  py_repr := repr;
  repr_exn := exn_repr;
  int_of_text := int_of;
  dedent := dedent_text;
  dedent_encodable := dedent_text_encodable;
|}.

(** ** Environments *)

Definition empty_world : world :=
  {| trace := []; files := ∅; gets := 0; generates := 0; clock_reads := 0 |}.

Definition page_of (params : json) : Z :=
  match params with
  | JDict kvs =>
    match dict_lookup kvs (lit "page") with
    | Some (JInt p) => p
    | _ => 0
    end
  | _ => 0
  end.

Definition posting (n : Z) : json :=
  JDict [(lit "_id", JStr (lit "offer-" ++ str_of_int n));
         (lit "titleJob", JStr (lit "QA Engineer"));
         (lit "linkOffer", JStr (lit "https://jobs.example/" ++ str_of_int n))].

(** Page [p] of a listing of [total_pages] pages with three postings each. *)
Definition page_envelope (total_pages p : Z) : json :=
  JDict [(lit "results", JList [posting (3 * p - 2); posting (3 * p - 1); posting (3 * p)]);
         (lit "total", JInt (3 * total_pages));
         (lit "page", JInt p);
         (lit "totalPages", JInt total_pages)].

Definition silent_gemini : nat → pystr → generate_outcome :=
  λ _ _, GenerateRaises (OtherException (lit "ServerError")).

(** A listing service that answers every request with its page. *)
Definition listing_service (total_pages : Z) : Env := {|
  server := λ _ params,
    Responds {| status_code := 200;
                resp_json := Ok (page_envelope total_pages (page_of params)) |};
  gemini := silent_gemini;
  clock := λ n, 1700000000 + Z.of_nat n;
  item_id := λ p i, 4096 + 64 * p + Z.of_nat i;
|}.

(** A listing service that answers 503 to every request. *)
Definition always_503 : Env := {|
  server := λ _ _, Responds {| status_code := 503; resp_json := Raise JSONDecodeError |};
  gemini := silent_gemini;
  clock := λ n, 1700000000 + Z.of_nat n;
  item_id := λ p i, 4096 + 64 * p + Z.of_nat i;
|}.

(** A response whose single part carries [text]. *)
Definition text_response (text : pystr) : GenerateContentResponse :=
  {| candidates :=
       Some [{| candidate_content :=
                  Some {| content_parts := Some [{| part_text := Some text |}] |} |}];
     response_str := lit "GenerateContentResponse(...)" |}.

(** An inference service that answers its calls from a script, in order. *)
Definition scripted_gemini (script : list generate_outcome) : Env := {|
  server := λ _ _, ConnectionFails;
  gemini := λ n _, default (GenerateRaises (OtherException (lit "ServerError"))) (script !! n);
  clock := λ n, 1700000000 + Z.of_nat n;
  item_id := λ p i, 4096 + 64 * p + Z.of_nat i;
|}.

Definition default_client : HttpClient := {| max_retries := 3; backoff_seconds := 1 |}.

Definition default_fetcher : JobOffersFetcher :=
  {| http := default_client; sleep_between_pages := Q2Qc (3 # 10) |}.

Definition default_settings : Settings :=
  {| MAX_ATTEMPTS := 3; BACKOFF_SECONDS := 1; BATCH_SIZE := 25 |}.

(** Three answers on which an attempt fails: a text that is not JSON, an
    exception of the service, and a JSON text whose root is a dict. *)
Definition failing_script : list generate_outcome :=
  [Generates (text_response (lit "Sorry, I cannot help with that."));
   GenerateRaises (OtherException (lit "ServerError"));
   Generates (text_response (lit "{}"))].

Definition sample_analyzer : GeminiAnalyzer :=
  {| profile := JDict [(lit "role", JStr (lit "QA Automation Engineer"))] |}.

(** Batches of two postings. *)
Definition small_batches : Settings :=
  {| MAX_ATTEMPTS := 3; BACKOFF_SECONDS := 1; BATCH_SIZE := 2 |}.

Definition match_record (n : Z) : json :=
  JDict [(lit "id", JStr (lit "offer-" ++ str_of_int n));
         (lit "title", JStr (lit "QA Engineer"));
         (lit "employer", JStr (lit "ACME"));
         (lit "linkOffer", JStr (lit "https://jobs.example/" ++ str_of_int n));
         (lit "reason", JStr (lit "Encaja con el perfil."))].

(** The answer of the service that selects the postings [ns], fenced. *)
Definition selects (ns : list Z) : generate_outcome :=
  Generates (text_response
    (lit "```json" ++ nl
     ++ dumps {| sort_keys := false; ensure_ascii := true; indent := None |}
          (JList (match_record <$> ns))
     ++ nl ++ lit "```")).

(** Both services: the listing of [total_pages] pages and the scripted
    inference service. *)
Definition both_services (total_pages : Z) (script : list generate_outcome) : Env := {|
  server := λ _ params,
    Responds {| status_code := 200;
                resp_json := Ok (page_envelope total_pages (page_of params)) |};
  gemini := λ n _, default (GenerateRaises (OtherException (lit "ServerError"))) (script !! n);
  clock := λ n, 1700000000 + Z.of_nat n;
  item_id := λ p i, 4096 + 64 * p + Z.of_nat i;
|}.

(** Batches of five postings. *)
Definition batches_of_five : Settings :=
  {| MAX_ATTEMPTS := 3; BACKOFF_SECONDS := 1; BATCH_SIZE := 5 |}.

(** A listing service that answers 503 to its first [failures] requests
    and its page to the later ones. *)
Definition recovering_service (failures : nat) (total_pages : Z) : Env := {|
  server := λ n params,
    if (n <? failures)%nat
    then Responds {| status_code := 503; resp_json := Raise JSONDecodeError |}
    else Responds {| status_code := 200;
                     resp_json := Ok (page_envelope total_pages (page_of params)) |};
  gemini := silent_gemini;
  clock := λ n, 1700000000 + Z.of_nat n;
  item_id := λ p i, 4096 + 64 * p + Z.of_nat i;
|}.

(** Page [p] of a listing whose consecutive pages overlap: the postings
    [p], [p + 1] and [p + 2]. *)
Definition overlapping_envelope (total_pages p : Z) : json :=
  JDict [(lit "results", JList [posting p; posting (p + 1); posting (p + 2)]);
         (lit "total", JInt (total_pages + 2));
         (lit "page", JInt p);
         (lit "totalPages", JInt total_pages)].

Definition overlapping_service (total_pages : Z) : Env := {|
  server := λ _ params,
    Responds {| status_code := 200;
                resp_json := Ok (overlapping_envelope total_pages (page_of params)) |};
  gemini := silent_gemini;
  clock := λ n, 1700000000 + Z.of_nat n;
  item_id := λ p i, 4096 + 64 * p + Z.of_nat i;
|}.

(** A listing service that answers its first [good] requests with their
    pages and every later request with 404. *)
Definition failing_after (good : nat) (total_pages : Z) : Env := {|
  server := λ n params,
    if (n <? good)%nat
    then Responds {| status_code := 200;
                     resp_json := Ok (page_envelope total_pages (page_of params)) |}
    else Responds {| status_code := 404; resp_json := Raise JSONDecodeError |};
  gemini := silent_gemini;
  clock := λ n, 1700000000 + Z.of_nat n;
  item_id := λ p i, 4096 + 64 * p + Z.of_nat i;
|}.

(** A listing service whose results hold a text among the postings. *)
Definition malformed_service : Env := {|
  server := λ _ params,
    Responds {| status_code := 200;
                resp_json := Ok (JDict [(lit "results", JList [posting 1; JStr (lit "posting")]);
                                        (lit "total", JInt 2);
                                        (lit "page", JInt 1);
                                        (lit "totalPages", JInt 1)]) |};
  gemini := silent_gemini;
  clock := λ n, 1700000000 + Z.of_nat n;
  item_id := λ p i, 4096 + 64 * p + Z.of_nat i;
|}.

(** A listing service that has no posting. *)
Definition empty_service : Env := {|
  server := λ _ params,
    Responds {| status_code := 200;
                resp_json := Ok (JDict [(lit "results", JList []);
                                        (lit "total", JInt 0);
                                        (lit "page", JInt 1);
                                        (lit "totalPages", JInt 0)]) |};
  gemini := silent_gemini;
  clock := λ n, 1700000000 + Z.of_nat n;
  item_id := λ p i, 4096 + 64 * p + Z.of_nat i;
|}.

End Reference.

(** ** The reference library on small inputs *)

Example loads_1 : Reference.loads (lit "[{" ++ quoted "id" ++ lit ":" ++ quoted "1" ++ lit "}]")
  = Ok (JList [JDict [(lit "id", JStr (lit "1"))]]).
Proof. vm_compute. reflexivity. Qed.
Example loads_2 : Reference.loads (lit " [1, -20, true, null, [], {}, [[3]]] ")
  = Ok (JList [JInt 1; JInt (-20); JBool true; JNull; JList []; JDict []; JList [JList [JInt 3]]]).
Proof. vm_compute. reflexivity. Qed.
Example loads_3 : Reference.loads (lit "not a list") = Raise JSONDecodeError.
Proof. vm_compute. reflexivity. Qed.
Example dumps_1 :
  Reference.dumps {| sort_keys := true; ensure_ascii := true; indent := None |}
    (JDict [(lit "title", JStr (lit "Sin título")); (lit "a", JList [JInt 1; JNull])])
  = lit "{" ++ quoted "a" ++ lit ": [1, null], " ++ quoted "title" ++ lit ": "
    ++ dq ++ lit "Sin t\u00edtulo" ++ dq ++ lit "}".
Proof. vm_compute. reflexivity. Qed.
Example dumps_2 :
  Reference.dumps {| sort_keys := false; ensure_ascii := false; indent := Some 2 |}
    (JList [JDict [(lit "id", JInt 1)]; JList []])
  = lit "[" ++ nl ++ lit "  {" ++ nl ++ lit "    " ++ quoted "id" ++ lit ": 1" ++ nl
    ++ lit "  }," ++ nl ++ lit "  []" ++ nl ++ lit "]".
Proof. vm_compute. reflexivity. Qed.
Example repr_1 : Reference.repr (JList [JStr (lit "a'b"); JInt 2; JDict [(lit "k", JBool true)]])
  = lit "[" ++ dq ++ lit "a'b" ++ dq ++ lit ", 2, {'k': True}]".
Proof. vm_compute. reflexivity. Qed.
Example int_1 : Reference.int_of (lit " -42 ") = Ok (-42).
Proof. vm_compute. reflexivity. Qed.
Example dedent_1 :
  Reference.dedent_text (nl ++ lit "    <div>" ++ nl ++ lit "      <p>x</p>" ++ nl ++ lit "    </div>" ++ nl ++ lit "  ")
  = nl ++ lit "<div>" ++ nl ++ lit "  <p>x</p>" ++ nl ++ lit "</div>" ++ nl.
Proof. vm_compute. reflexivity. Qed.
Example dump_partial_1 :
  Reference.dump_partial {| sort_keys := false; ensure_ascii := false; indent := Some 2 |}
    (JList [JStr (lit "a"); JStr [120; 55357]%N; JStr (lit "b")])
  = lit "[" ++ nl ++ lit "  " ++ quoted "a".
Proof. vm_compute. reflexivity. Qed.
Example dump_partial_2 :
  Reference.dump_partial {| sort_keys := false; ensure_ascii := false; indent := Some 2 |}
    (JDict [(lit "a", JList []); (lit "b", JDict [(lit "c", JStr [120; 55357]%N)])])
  = lit "{" ++ nl ++ lit "  " ++ quoted "a" ++ lit ": []," ++ nl ++ lit "  " ++ quoted "b"
    ++ lit ": {" ++ nl ++ lit "    " ++ quoted "c" ++ lit ": ".
Proof. vm_compute. reflexivity. Qed.
Example dump_partial_3 :
  Reference.dump_partial {| sort_keys := false; ensure_ascii := false; indent := Some 2 |}
    (JList [JStr [120; 55357]%N])
  = [].
Proof. vm_compute. reflexivity. Qed.

(** * Properties of the batch splitter *)

Example split_5_2 : split_batches [1; 2; 3; 4; 5] 2 = Ok [[1; 2]; [3; 4]; [5]].
Proof. reflexivity. Qed.

Section Splitter.
Context {A : Type}.
Implicit Types (l : list A) (b m : nat).

Lemma concat_chunks l b m : concat (chunks l b m) = take (m * b) l.
Proof.
  unfold chunks. induction m as [|m IH]; [done|].
  rewrite seq_S, fmap_app, concat_app, IH. simpl.
  rewrite app_nil_r, take_take_drop. f_equal. lia.
Qed.

Lemma chunks_lookup l b m i c :
  chunks l b m !! i = Some c → (i < m)%nat ∧ c = take b (drop (i * b)%nat l).
Proof.
  unfold chunks. rewrite list_lookup_fmap. intros H.
  destruct (seq 0 m !! i) as [k|] eqn:Hk; [|done].
  apply lookup_seq in Hk as [-> ?]. simpl in H. by injection H as <-.
Qed.

Lemma py_slice_chunk l (i w : Z) :
  0 ≤ i → 0 ≤ w →
  py_slice l (Some i) (Some (i + w)) = take (Z.to_nat w) (drop (Z.to_nat i) l).
Proof.
  intros Hi Hw. unfold py_slice, slice_bound.
  destruct (Z.ltb_spec i 0); [lia|]. destruct (Z.ltb_spec (i + w) 0); [lia|].
  destruct (Z_le_gt_dec i (Z.of_nat (length l))) as [Hin|Hout].
  - rewrite (Z.min_l i) by lia.
    destruct (Z_le_gt_dec (i + w) (Z.of_nat (length l))).
    + rewrite Z.min_l by lia. do 2 f_equal. lia.
    + rewrite Z.min_r by lia.
      rewrite !take_ge; [done| |]; rewrite length_drop; lia.
  - rewrite !Z.min_r by lia. rewrite Z.sub_diag. simpl.
    rewrite (drop_ge l (Z.to_nat i)) by lia. by rewrite take_nil.
Qed.

Lemma split_batches_chunks l (B : Z) :
  1 ≤ B →
  split_batches l B
  = Ok (chunks l (Z.to_nat B) (Z.to_nat (range_length 0 (Z.of_nat (length l)) B))).
Proof.
  intros HB. unfold split_batches, py_range.
  destruct (Z.eqb_spec B 0); [lia|]. simpl. f_equal.
  unfold chunks. rewrite <- list_fmap_compose. apply list_fmap_ext.
  intros _ k _. simpl. rewrite py_slice_chunk by lia. do 2 f_equal. lia.
Qed.

Lemma range_length_pos (n B : Z) :
  0 ≤ n → 1 ≤ B →
  let m := range_length 0 n B in
  0 ≤ m ∧ n ≤ m * B ∧ (0 < n → (m - 1) * B < n).
Proof.
  intros Hn HB. unfold range_length. simpl.
  destruct (Z.ltb_spec 0 B); [|lia].
  destruct (Z.ltb_spec 0 n); [|lia].
  rewrite Z.sub_0_r.
  pose proof (Z.div_mod (n - 1) B) as Hdm.
  pose proof (Z.mod_pos_bound (n - 1) B).
  assert (0 ≤ (n - 1) / B) by (apply Z.div_pos; lia).
  nia.
Qed.
End Splitter.

(** C7 (as amended). For a batch size of at least 1 the split succeeds, the
    batches concatenated in order give back the input, no batch is empty or
    longer than the batch size, and every batch but the last has exactly the
    batch size. A batch size of 0 raises [ValueError] (from [range]); a
    negative batch size raises nothing and yields no batch at all. *)
Theorem split_batches_spec {A} (offers : list A) (batch_size : Z) :
  (1 ≤ batch_size →
   ∃ batches, split_batches offers batch_size = Ok batches
     ∧ concat batches = offers
     ∧ ∀ (i : nat) (b : list A), batches !! i = Some b →
         (1 ≤ length b)%nat ∧ Z.of_nat (length b) ≤ batch_size
         ∧ ((S i < length batches)%nat → Z.of_nat (length b) = batch_size))
  ∧ (batch_size = 0 → split_batches offers batch_size = Raise ValueError)
  ∧ (batch_size < 0 → split_batches offers batch_size = Ok []).
Proof.
  split; [|split].
  - intros HB. eexists. split; [by apply split_batches_chunks|].
    pose proof (range_length_pos (Z.of_nat (length offers)) batch_size
                  ltac:(lia) HB) as (Hm0 & Hcover & Htight).
    set (m := range_length 0 (Z.of_nat (length offers)) batch_size) in *.
    split.
    + rewrite concat_chunks. apply take_ge. nia.
    + intros i b Hb. apply chunks_lookup in Hb as [Hi ->].
      assert (length (chunks offers (Z.to_nat batch_size) (Z.to_nat m)) = Z.to_nat m) as Hlen.
      { unfold chunks. by rewrite length_fmap, length_seq. }
      rewrite Hlen, length_take, length_drop.
      assert (0 < Z.of_nat (length offers)) as Hpos.
      { destruct (length offers); [|lia]. subst m. simpl in Hi. unfold range_length in Hi.
        simpl in Hi. destruct (0 <? batch_size); simpl in Hi; lia. }
      specialize (Htight Hpos).
      repeat split; [nia|lia|]. intros Hnext. nia.
  - intros ->. reflexivity.
  - intros HB. unfold split_batches, py_range.
    destruct (Z.eqb_spec batch_size 0); [lia|]. simpl.
    unfold range_length. destruct (Z.ltb_spec 0 batch_size); [lia|].
    destruct (Z.ltb_spec (Z.of_nat (length offers)) 0); [lia|]. reflexivity.
Qed.

(** C7, the claim as written fails: with a batch size of -1 no error is
    signalled and the three postings are split into no batch. *)
Lemma split_batches_negative_silent :
  split_batches [JInt 1; JInt 2; JInt 3] (-1) = Ok []
  ∧ ¬ (∀ (offers : list json) (batch_size : Z),
         batch_size ≤ 0 → is_ok (split_batches offers batch_size) = false).
Proof.
  split; [reflexivity|]. intros H. by specialize (H [JInt 1; JInt 2; JInt 3] (-1) ltac:(lia)).
Qed.

Lemma split_batches_spec_witness :
  ∃ batches, split_batches (Reference.posting <$> [1; 2; 3; 4; 5]) 2 = Ok batches
    ∧ concat batches = Reference.posting <$> [1; 2; 3; 4; 5]
    ∧ length <$> batches = [2; 2; 1]%nat.
Proof.
  destruct (split_batches_spec (Reference.posting <$> [1; 2; 3; 4; 5]) 2) as [Hsplit _].
  destruct Hsplit as (batches & Hrun & Hconcat & _); [lia|].
  exists batches. split; [exact Hrun|]. split; [exact Hconcat|].
  assert (Ok batches = Ok [Reference.posting <$> [1; 2]; Reference.posting <$> [3; 4];
                           Reference.posting <$> [5]]) as Heq by (by rewrite <- Hrun).
  by injection Heq as ->.
Defined.

(** * First occurrence wins *)

Section FirstOccurrences.
Context {A K : Type} `{Countable K}.
Variable k : A → K.


Lemma first_occurrences_nil (seen : gset K) : first_occurrences k seen [] = [].
Proof. done. Qed.

Lemma first_occurrences_cons x (l : list A) (seen : gset K) :
  first_occurrences k seen (x :: l)
  = if bool_decide (k x ∈ seen) then first_occurrences k seen l
    else x :: first_occurrences k ({[k x]} ∪ seen) l.
Proof.
  unfold first_occurrences. rewrite imap_cons. simpl.
  assert (bool_decide (k x ∈ seen ∨ k x ∈ []) = bool_decide (k x ∈ seen)) as ->.
  { apply bool_decide_ext. rewrite elem_of_nil. naive_solver. }
  assert (∀ seen', (k x ∈ seen → seen' = seen) → (k x ∉ seen → seen' = {[k x]} ∪ seen) →
    imap ((λ i y, if bool_decide (k y ∈ seen ∨ k y ∈ k <$> take i (x :: l))
                  then None else Some y) ∘ S) l
    = imap (λ i y, if bool_decide (k y ∈ seen' ∨ k y ∈ k <$> take i l)
                   then None else Some y) l) as Hshift.
  { intros seen' Hin Hout. apply imap_ext. intros i y _. simpl.
    assert ((k y ∈ seen ∨ k y ∈ k x :: (k <$> take i l))
            ↔ (k y ∈ seen' ∨ k y ∈ k <$> take i l)) as Hiff.
    { rewrite elem_of_cons.
      destruct (decide (k x ∈ seen)) as [Hx|Hx]; [rewrite (Hin Hx)|rewrite (Hout Hx)].
      - split; [intros [?|[Hy|?]]|intros [?|?]]; auto. left. by rewrite Hy.
      - rewrite elem_of_union, elem_of_singleton.
        split; [intros [?|[Hy|?]]|intros [[?|?]|?]]; auto. }
    by rewrite (bool_decide_ext _ _ Hiff). }
  case_bool_decide as Hx.
  - by rewrite (Hshift seen).
  - simpl. f_equal. by rewrite (Hshift ({[k x]} ∪ seen)).
Qed.

Lemma first_occurrences_app (l1 l2 : list A) (seen : gset K) :
  first_occurrences k seen (l1 ++ l2)
  = first_occurrences k seen l1
    ++ first_occurrences k (list_to_set (k <$> l1) ∪ seen) l2.
Proof.
  revert seen. induction l1 as [|x l1 IH]; intros seen.
  - simpl. f_equal. set_solver.
  - simpl. rewrite !first_occurrences_cons. case_bool_decide as Hx.
    + rewrite IH. do 2 f_equal. set_solver.
    + simpl. rewrite IH. do 3 f_equal. set_solver.
Qed.

(** The kept elements are a subsequence of the input. *)
Lemma first_occurrences_sublist (l : list A) (seen : gset K) : first_occurrences k seen l `sublist_of` l.
Proof.
  revert seen. induction l as [|x l IH]; intros seen; [done|].
  rewrite first_occurrences_cons. case_bool_decide.
  - by apply sublist_cons.
  - by apply sublist_skip.
Qed.

(** No two kept elements share a key, and no kept key was seen before. *)
Lemma first_occurrences_fresh (l : list A) (seen : gset K) x :
  x ∈ first_occurrences k seen l → k x ∉ seen.
Proof.
  revert seen. induction l as [|y l IH]; intros seen; [by intros ?%elem_of_nil|].
  rewrite first_occurrences_cons. case_bool_decide as Hy.
  - apply IH.
  - intros [->|Hin]%elem_of_cons; [done|]. apply IH in Hin. set_solver.
Qed.

Lemma first_occurrences_NoDup (l : list A) (seen : gset K) : NoDup (k <$> first_occurrences k seen l).
Proof.
  revert seen. induction l as [|y l IH]; intros seen; [constructor|].
  rewrite first_occurrences_cons. case_bool_decide as Hy; [apply IH|].
  simpl. constructor; [|apply IH].
  intros (x & Hk & Hx)%list_elem_of_fmap. apply first_occurrences_fresh in Hx. set_solver.
Qed.

(** Every key of the input that was not seen before is the key of a kept
    element. *)
Lemma first_occurrences_covers (l : list A) (seen : gset K) x :
  x ∈ l → k x ∉ seen → ∃ y, y ∈ first_occurrences k seen l ∧ k y = k x.
Proof.
  revert seen. induction l as [|z l IH]; intros seen; [by intros ?%elem_of_nil|].
  rewrite first_occurrences_cons. intros Hin Hx.
  case_bool_decide as Hz.
  - apply elem_of_cons in Hin as [->|Hin]; [done|]. by apply IH.
  - destruct (decide (k z = k x)) as [Heq|Hne].
    + exists z. split; [apply elem_of_cons; by left|done].
    + apply elem_of_cons in Hin as [->|Hin]; [done|].
      destruct (IH ({[k z]} ∪ seen) Hin) as (y & Hy & Hky); [set_solver|].
      exists y. split; [apply elem_of_cons; by right|done].
Qed.

End FirstOccurrences.

(** * Properties of the Transport *)

Lemma py_range_step_1 (a b : Z) :
  py_range a b 1 = Ok ((λ k : nat, a + Z.of_nat k) <$> seq 0 (Z.to_nat (b - a))).
Proof.
  unfold py_range, range_length. simpl. f_equal.
  replace (Z.to_nat (if a <? b then (b - a - 1) / 1 + 1 else 0)) with (Z.to_nat (b - a)).
  - apply list_fmap_ext. intros _ k _. lia.
  - destruct (Z.ltb_spec a b); [|lia]. rewrite Z.div_1_r. lia.
Qed.

Lemma fmap_seq_shift {B} (f : nat → B) (n : nat) :
  f <$> seq 1 n = (λ k, f (S k)) <$> seq 0 n.
Proof. by rewrite <- fmap_S_seq, <- list_fmap_compose. Qed.

Lemma Qc_double_nonneg (b : Qc) : (0 ≤ b)%Qc → (0 ≤ b * 2)%Qc.
Proof. intros. by apply Qcmult_nonneg_nonneg. Qed.

Lemma retry_trace_S params backoff n :
  retry_trace params backoff (S (S n))
  = EvGet params :: EvSleep backoff :: retry_trace params (backoff * 2)%Qc (S n).
Proof.
  unfold retry_trace. simpl. rewrite Nat.sub_0_r, fmap_seq_shift.
  replace (backoff * 1)%Qc with backoff by ring.
  do 4 f_equal. apply list_fmap_ext. intros _ k _. do 3 f_equal. simpl. ring.
Qed.

Lemma requests_in_retry_trace params backoff n :
  requests_in (retry_trace params backoff n) = replicate n params.
Proof.
  revert backoff. induction n as [|[|n] IH]; intros backoff; [done..|].
  rewrite retry_trace_S. simpl. by rewrite (IH (backoff * 2)%Qc).
Qed.

Lemma sleeps_in_retry_trace params backoff n :
  sleeps_in (retry_trace params backoff n)
  = (λ k, backoff * 2 ^ k)%Qc <$> seq 0 (n - 1).
Proof.
  revert backoff. induction n as [|[|n] IH]; intros backoff; [done..|].
  rewrite retry_trace_S. simpl. rewrite (IH (backoff * 2)%Qc). simpl.
  rewrite Nat.sub_0_r, fmap_seq_shift. f_equal; [ring|].
  apply list_fmap_ext. intros _ k _. simpl. ring.
Qed.

Section Transport.
Context `{Env}.
Variable client : HttpClient.
Variable params : json.

(** The status codes that are retried, among the codes 100 to 599. *)
Example retried_status_codes :
  filter (λ status, retry_status status = true) (seqZ 100 500) = [429; 500; 502; 503; 504].
Proof. vm_compute. reflexivity. Qed.

Lemma retry_status_not_ok resp :
  retry_status (status_code resp) = true → resp_ok resp = false.
Proof.
  unfold retry_status, resp_ok. intros Hs%bool_decide_eq_true.
  repeat (apply elem_of_cons in Hs as [->|Hs]; [done|]). by apply elem_of_nil in Hs.
Qed.

Lemma get_json_loop_exhausts (m : nat) : ∀ (a : Z) (backoff : Qc) (w : world),
  a + Z.of_nat m = max_retries client + 1 →
  (0 ≤ backoff)%Qc →
  (∀ k, (k < m)%nat → retryable_failure (server (gets w + k) params) = true) →
  get_json_loop client params ((λ k : nat, a + Z.of_nat k) <$> seq 0 m) backoff w
  = (Raise HttpError, after_retries params w backoff m).
Proof.
  induction m as [|m IH]; intros a backoff w Ha Hb Hfail.
  - simpl. unfold raise, after_retries, retry_trace. simpl.
    rewrite app_nil_r, Nat.add_0_r. by destruct w.
  - simpl. rewrite fmap_seq_shift.
    unfold bind at 1. unfold session_get at 1.
    pose proof (Hfail 0%nat ltac:(lia)) as H0. rewrite Nat.add_0_r in H0.
    rewrite Z.add_0_r.
    assert (¬ (backoff < 0)%Qc) as Hnn by (by apply Qcle_not_lt).
    set (w1 := {| trace := trace w ++ [EvGet params]; files := files w;
                  gets := S (gets w); generates := generates w;
                  clock_reads := clock_reads w |}).
    assert (∀ k, (k < m)%nat →
              retryable_failure (server (gets (log (EvSleep backoff) w1) + k) params) = true)
      as Hrest.
    { intros k Hk. simpl. specialize (Hfail (S k) ltac:(lia)).
      by replace (gets w + S k)%nat with (S (gets w + k)) in Hfail by lia. }
    assert (m ≠ 0%nat →
      (let! _ := sleep backoff in
       get_json_loop client params ((λ k : nat, a + Z.of_nat (S k)) <$> seq 0 m)
         (backoff * 2)%Qc) w1
      = (Raise HttpError, after_retries params w backoff (S m))) as Hretry.
    { intros Hm. unfold bind, sleep. rewrite decide_False by done.
      erewrite (list_fmap_ext _ (λ k : nat, (a + 1) + Z.of_nat k)); [|intros; lia].
      rewrite (IH (a + 1)) by (lia || done || by apply Qc_double_nonneg).
      f_equal. destruct m as [|m']; [done|].
      unfold after_retries. rewrite retry_trace_S. simpl.
      rewrite <- !app_assoc. simpl. f_equal. lia. }
    assert (m = 0%nat → (Raise HttpError, w1)
                        = (@Raise json HttpError, after_retries params w backoff (S m))) as Hlast.
    { intros ->. unfold after_retries, retry_trace. simpl. subst w1. f_equal. f_equal. lia. }
    destruct (server (gets w) params) as [resp| | |e]; simpl in H0; [| | |done].
    + rewrite H0. simpl. destruct (Z.ltb_spec a (max_retries client)).
      * apply Hretry. lia.
      * rewrite (retry_status_not_ok _ H0). simpl. apply Hlast. lia.
    + destruct (Z.ltb_spec a (max_retries client)); [apply Hretry|apply Hlast]; lia.
    + destruct (Z.ltb_spec a (max_retries client)); [apply Hretry|apply Hlast]; lia.
Qed.

End Transport.

(** C2. When every attempt of a [get_json] call fails in a retryable way,
    the call sends exactly [max_retries] requests (none when [max_retries]
    is not positive), raises [HttpError] after the last one, and sleeps
    between two requests for the base backoff doubled each time:
    [backoff_seconds * 2 ^ k] before retry number [k + 1]. The base backoff
    is a length of time, so it is not negative. *)
Theorem get_json_retry_budget `{Env} (client : HttpClient) (params : json) (w : world) :
  (0 ≤ backoff_seconds client)%Qc →
  (∀ k, (k < Z.to_nat (max_retries client))%nat →
        retryable_failure (server (gets w + k) params) = true) →
  ∃ w' new,
    get_json client params w = (Raise HttpError, w')
    ∧ trace w' = trace w ++ new
    ∧ new = retry_trace params (backoff_seconds client) (Z.to_nat (max_retries client))
    ∧ requests_in new = replicate (Z.to_nat (max_retries client)) params
    ∧ Z.of_nat (length (requests_in new)) = Z.max 0 (max_retries client)
    ∧ sleeps_in new
      = (λ k, backoff_seconds client * 2 ^ k)%Qc <$> seq 0 (Z.to_nat (max_retries client) - 1)
    ∧ gets w' = (gets w + Z.to_nat (max_retries client))%nat
    ∧ files w' = files w.
Proof.
  intros Hb Hfail.
  exists (after_retries params w (backoff_seconds client) (Z.to_nat (max_retries client))).
  eexists. split; [|split; [reflexivity|split; [reflexivity|]]].
  - unfold get_json, bind, lift. rewrite py_range_step_1.
    replace (max_retries client + 1 - 1) with (max_retries client) by lia.
    destruct (Z_le_gt_dec (max_retries client) 0) as [Hle|Hgt].
    + replace (Z.to_nat (max_retries client)) with 0%nat by lia. simpl.
      unfold raise, after_retries, retry_trace. simpl.
      rewrite app_nil_r, Nat.add_0_r. by destruct w.
    + apply get_json_loop_exhausts; [lia|done|done].
  - rewrite requests_in_retry_trace, length_replicate, sleeps_in_retry_trace.
    repeat split. lia.
Qed.

Lemma get_json_retry_budget_witness :
  ∃ w' new,
    @get_json Reference.always_503 Reference.default_client (JDict []) Reference.empty_world = (Raise HttpError, w')
    ∧ trace w' = trace Reference.empty_world ++ new
    ∧ new = retry_trace (JDict []) (backoff_seconds Reference.default_client)
              (Z.to_nat (max_retries Reference.default_client))
    ∧ requests_in new = replicate (Z.to_nat (max_retries Reference.default_client)) (JDict [])
    ∧ Z.of_nat (length (requests_in new)) = Z.max 0 (max_retries Reference.default_client)
    ∧ sleeps_in new
      = (λ k, backoff_seconds Reference.default_client * 2 ^ k)%Qc
          <$> seq 0 (Z.to_nat (max_retries Reference.default_client) - 1)
    ∧ gets w' = (gets Reference.empty_world + Z.to_nat (max_retries Reference.default_client))%nat
    ∧ files w' = files Reference.empty_world.
Proof.
  apply (@get_json_retry_budget Reference.always_503 Reference.default_client (JDict []) Reference.empty_world).
  - done.
  - intros k _. reflexivity.
Defined.

(** The same run, evaluated: three requests, sleeps of 1 and 2 seconds. *)
Example get_json_503_run :
  let '(r, w) := @get_json Reference.always_503 Reference.default_client (JDict []) Reference.empty_world in
  r = Raise HttpError
  ∧ trace w = [EvGet (JDict []); EvSleep 1; EvGet (JDict []); EvSleep (1 * 2);
               EvGet (JDict [])].
Proof. vm_compute. split; reflexivity. Qed.

(** * Properties of the Paginator *)

Lemma byte_codes_inj : Inj (=) (=) byte_codes.
Proof.
  intros s1 s2 Heq. unfold byte_codes in Heq.
  apply (list_fmap_eq_inj Ascii.N_of_ascii) in Heq.
  - rewrite <- (String.string_of_list_ascii_of_string s1),
      <- (String.string_of_list_ascii_of_string s2). by rewrite Heq.
  - intros a b Hab.
    rewrite <- (Ascii.ascii_N_embedding a), <- (Ascii.ascii_N_embedding b). by rewrite Hab.
Qed.

Lemma str_of_int_inj : Inj (=) (=) str_of_int.
Proof. intros a b Hab. by apply (inj pretty), byte_codes_inj. Qed.

Section Paginator.
Context `{Env} `{PyLib}.

Lemma dedupe_key_dict (addr : Z) (kvs : list (pystr * json)) :
  _dedupe_key (addr, JDict kvs) = Ok (py_str (identity_of addr kvs)).
Proof.
  unfold _dedupe_key, identity_of. simpl.
  destruct (truthy (default JNull (dict_lookup kvs (lit "_id")))); [done|].
  by destruct (truthy (default JNull (dict_lookup kvs (lit "linkOffer")))).
Qed.

Lemma dedupe_key_anonymous (addr : Z) (v : json) :
  anonymous v = true → _dedupe_key (addr, v) = Ok (str_of_int addr).
Proof.
  destruct v as [| | | | |kvs]; try done. simpl.
  intros [Hid Hlink]%andb_true_iff. rewrite dedupe_key_dict. unfold identity_of.
  apply negb_true_iff in Hid, Hlink. by rewrite Hid, Hlink.
Qed.

Lemma add_batch_first_occurrences (items : list pyobj) :
  ∀ (seen : gset pystr) (consolidated : list json),
  Forall (λ it, is_dict it.2 = true) items →
  add_batch items seen consolidated
  = Ok (list_to_set (key_text <$> items) ∪ seen,
        consolidated ++ (snd <$> first_occurrences key_text seen items)).
Proof.
  induction items as [|it items IH]; intros seen consolidated Hdict.
  - simpl. rewrite app_nil_r. f_equal. f_equal. set_solver.
  - apply Forall_cons in Hdict as [Hit Hdict].
    rewrite first_occurrences_cons. simpl.
    assert (_dedupe_key it = Ok (key_text it)) as ->.
    { unfold key_text. destruct it as [addr [| | | | |kvs]]; try done.
      by rewrite dedupe_key_dict. }
    simpl. case_bool_decide as Hseen.
    + rewrite IH by done. do 2 f_equal. set_solver.
    + rewrite IH by done. simpl. rewrite <- app_assoc. do 2 f_equal. set_solver.
Qed.

End Paginator.

(** C3 (as amended). The deduplication key of a posting is the text of its
    [_id] if that is true, else of its [linkOffer] if that is true, else of
    the identity [id(item)] of the object, which no other live object
    shares. So two postings that lack both fields are both kept, whatever
    they contain, also when they are structurally identical; two postings
    with the same key collapse to the first; and [add_batch] keeps the first
    occurrence of every key, in order. *)
Theorem dedupe_key_identity `{PyLib} :
  (∀ addr kvs, _dedupe_key (addr, JDict kvs) = Ok (py_str (identity_of addr kvs)))
  ∧ (∀ a1 a2 v1 v2,
       anonymous v1 = true → anonymous v2 = true → a1 ≠ a2 →
       _dedupe_key (a1, v1) ≠ _dedupe_key (a2, v2)
       ∧ ∃ seen, add_batch [(a1, v1); (a2, v2)] ∅ [] = Ok (seen, [v1; v2]))
  ∧ (∀ it1 it2 key,
       _dedupe_key it1 = Ok key → _dedupe_key it2 = Ok key →
       ∃ seen, add_batch [it1; it2] ∅ [] = Ok (seen, [it1.2]))
  ∧ (∀ items,
       Forall (λ it : pyobj, is_dict it.2 = true) items →
       ∃ seen, add_batch items ∅ [] = Ok (seen, snd <$> first_occurrences key_text ∅ items)).
Proof.
  split; [apply dedupe_key_dict|]. split; [|split].
  - intros a1 a2 v1 v2 Hv1 Hv2 Hne.
    assert (str_of_int a1 ≠ str_of_int a2) as Hkeys.
    { intros Heq. by apply str_of_int_inj in Heq. }
    split.
    + rewrite !dedupe_key_anonymous by done. congruence.
    + simpl. rewrite !dedupe_key_anonymous by done. simpl.
      rewrite bool_decide_eq_false_2 by set_solver. simpl.
      rewrite bool_decide_eq_false_2 by set_solver. by eexists.
  - intros it1 it2 key H1 H2. simpl. rewrite H1, H2. simpl.
    rewrite bool_decide_eq_false_2 by set_solver. simpl.
    rewrite bool_decide_eq_true_2 by set_solver. by eexists.
  - intros items Hdict. rewrite add_batch_first_occurrences by done. by eexists.
Qed.

Section Pages.
Context `{Env} `{PyLib}.
Variable self : JobOffersFetcher.
Variable days : Z.
Hypothesis one_attempt : 1 ≤ max_retries (http self).

Lemma requests_in_app (t1 t2 : list event) :
  requests_in (t1 ++ t2) = requests_in t1 ++ requests_in t2.
Proof. apply omap_app. Qed.

Lemma get_json_first_try (params : json) (w : world) (resp : http_response) :
  server (gets w) params = Responds resp →
  retry_status (status_code resp) = false →
  resp_ok resp = true →
  get_json (http self) params w = (resp_json resp, sent params w).
Proof using one_attempt.
  intros Hserver Hretry Hok. unfold get_json, bind, lift. rewrite py_range_step_1.
  replace (max_retries (http self) + 1 - 1) with (max_retries (http self)) by lia.
  destruct (Z.to_nat (max_retries (http self))) as [|m] eqn:Hm; [lia|].
  simpl. unfold bind, session_get. rewrite Hserver, Hretry, Hok. reflexivity.
Qed.

Lemma page_items_dicts (page : Z) (items : list json) :
  Forall (λ v, is_dict v = true) items →
  Forall (λ it : pyobj, is_dict it.2 = true) (imap (λ i it, (item_id page i, it)) items).
Proof.
  intros Hd. apply Forall_lookup. intros i [addr v]. rewrite list_lookup_imap.
  destruct (items !! i) as [v'|] eqn:Hi; [|done]. simpl. intros [= <- <-].
  by eapply Forall_lookup in Hd.
Qed.

Lemma fetch_page_valid (page : Z) (w : world) (items : list json) (total_pages : json) :
  valid_page (server (gets w) (page_params days page)) items total_pages →
  ∃ data,
    fetch_page self days page w = (Ok data, sent (page_params days page) w)
    ∧ page_items page data = Ok (imap (λ i it, (item_id page i, it)) items)
    ∧ py_get data (lit "totalPages") (JInt 1) = Ok total_pages
    ∧ is_ok (py_get data (lit "total") JNull) = true.
Proof using one_attempt.
  intros (status & kvs & Hout & Hretry & Hok & Hres & [t Ht] & Htp & [pg Hpg] & Hd).
  exists (JDict kvs). unfold fetch_page. fold (page_params days page).
  unfold bind at 1. erewrite get_json_first_try; [|exact Hout|done|].
  2:{ unfold resp_ok. simpl. by rewrite Hok. }
  simpl. unfold bind, lift, ret. simpl.
  rewrite Hres, Ht, Htp, Hpg. simpl.
  split; [done|]. unfold page_items, py_subscript. by rewrite Hres.
Qed.

End Pages.

Lemma bind_ok {A B} (m : M A) (k : A → M B) (w w' : world) (a : A) :
  m w = (Ok a, w') → bind m k w = k a w'.
Proof. unfold bind. by intros ->. Qed.

Lemma bind_lift_ok {A B} (r : result A) (k : A → M B) (w : world) (a : A) :
  r = Ok a → bind (lift r) k w = k a w.
Proof. by intros ->. Qed.

Lemma py_range_seqZ (a b : Z) : py_range a b 1 = Ok (seqZ a (b - a)).
Proof.
  rewrite py_range_step_1. f_equal. unfold seqZ.
  apply list_fmap_ext. intros _ k _. lia.
Qed.

(** C3, the claim as written fails: two structurally identical postings
    without [_id] and [linkOffer], decoded as two objects, are both kept. *)
Lemma identical_anonymous_postings_both_kept :
  let posting := JDict [(lit "titleJob", JStr (lit "QA Engineer"))] in
  ∃ seen,
    @add_batch Reference.lib [(4097, posting); (4098, posting)] ∅ [] = Ok (seen, [posting; posting])
    ∧ @_dedupe_key Reference.lib (4097, posting) = Ok (lit "4097")
    ∧ @_dedupe_key Reference.lib (4098, posting) = Ok (lit "4098").
Proof. eexists. split; [vm_compute; reflexivity|]. split; vm_compute; reflexivity. Qed.

Lemma listing_service_healthy (total_pages : Z) : @healthy (Reference.listing_service total_pages).
Proof.
  intros n params.
  exists [Reference.posting (3 * Reference.page_of params - 2);
          Reference.posting (3 * Reference.page_of params - 1);
          Reference.posting (3 * Reference.page_of params)], (JInt total_pages).
  eexists 200, _. split; [reflexivity|]. repeat split; try by eexists.
  by repeat constructor.
Qed.

(** The scenario of the specification, evaluated: [totalPages = 5] and
    [max_pages = 2] request the pages 1 and 2, and [pages_traversed] is 2. *)
Example five_pages_limit_two :
  let '(r, w) := @get_all_offers (Reference.listing_service 5) Reference.lib
                   Reference.default_fetcher 7 (Some 2) true Reference.empty_world in
  requests_in (trace w) = [page_params 7 1; page_params 7 2]
  ∧ (pages_traversed ∘ snd <$> match r with Ok x => Some x | Raise _ => None end) = Some 2
  ∧ (length ∘ fst <$> match r with Ok x => Some x | Raise _ => None end) = Some 6%nat.
Proof. vm_compute. repeat split; reflexivity. Qed.

(** C4, the claim as written fails: with [max_pages = 0] the minimum is 0,
    so no page should be requested, yet page 1 is requested (and
    [pages_traversed] is 0). *)
Lemma page_limit_zero_still_requests_page_1 :
  ∃ offers meta w',
    @get_all_offers (Reference.listing_service 5) Reference.lib Reference.default_fetcher
      7 (Some 0) true Reference.empty_world = (Ok (offers, meta), w')
    ∧ requests_in (trace w') = [page_params 7 1]
    ∧ page_params 7 <$> seqZ 1 (Z.min 5 0) = []
    ∧ pages_traversed meta = 0.
Proof.
  eexists _, _, _. split; [vm_compute; reflexivity|].
  split; [vm_compute; reflexivity|]. split; reflexivity.
Qed.

Lemma dedupe_key_identity_witness :
  let posting := JDict [(lit "titleJob", JStr (lit "QA Engineer"))] in
  @_dedupe_key Reference.lib (4097, posting) ≠ @_dedupe_key Reference.lib (4098, posting)
  ∧ ∃ seen, @add_batch Reference.lib [(4097, posting); (4098, posting)] ∅ []
            = Ok (seen, [posting; posting]).
Proof.
  intros posting.
  destruct (@dedupe_key_identity Reference.lib) as (_ & Hdistinct & _).
  apply Hdistinct; [reflexivity|reflexivity|lia].
Defined.

(** Two postings with the same [_id], and two postings without [_id] and
    with the same [linkOffer], collapse to the first. *)
Example same_identity_collapses :
  let first := JDict [(lit "_id", JStr (lit "a1")); (lit "titleJob", JStr (lit "QA"))] in
  let again := JDict [(lit "_id", JStr (lit "a1")); (lit "titleJob", JStr (lit "QA Lead"))] in
  let linked := JDict [(lit "linkOffer", JStr (lit "https://jobs.example/9"))] in
  let relinked := JDict [(lit "linkOffer", JStr (lit "https://jobs.example/9"));
                         (lit "employer", JStr (lit "ACME"))] in
  snd <$> match @add_batch Reference.lib
                  [(4097, first); (4098, again); (4099, linked); (4100, relinked)] ∅ [] with
          | Ok x => Some x
          | Raise _ => None
          end
  = Some [first; linked].
Proof. vm_compute. reflexivity. Qed.

(** * Properties of the response sanitizer *)


Lemma lstrip_blank (a s : pystr) : blank a → lstrip (a ++ s) = lstrip s.
Proof. induction 1 as [|c a Hc _ IH]; [done|]. simpl. by rewrite Hc. Qed.

Lemma lstrip_blank_all (a : pystr) : blank a → lstrip a = [].
Proof. intros Ha. rewrite <- (app_nil_r a). by rewrite lstrip_blank. Qed.

Lemma lstrip_solid (s : pystr) : solid s → lstrip s = s.
Proof. intros [(c & rest & -> & Hc) _]. simpl. by rewrite Hc. Qed.

Lemma blank_reverse (a : pystr) : blank a → blank (reverse a).
Proof. unfold blank. by rewrite Forall_reverse. Qed.

Lemma solid_reverse (s : pystr) : solid s → solid (reverse s).
Proof.
  intros [(c & rest & -> & Hc) (d & front & Hs & Hd)]. split.
  - exists d, (reverse front). by rewrite Hs, reverse_snoc.
  - exists c, (reverse rest). by rewrite reverse_cons.
Qed.

Lemma strip_padded (a core d : pystr) :
  blank a → blank d → solid core → strip (a ++ core ++ d) = core.
Proof.
  intros Ha Hd Hcore. unfold strip, rstrip.
  rewrite lstrip_blank by done.
  assert (lstrip (core ++ d) = core ++ d) as ->.
  { destruct Hcore as [(c & rest & -> & Hc) _]. simpl. by rewrite Hc. }
  rewrite reverse_app, lstrip_blank by by apply blank_reverse.
  rewrite lstrip_solid by by apply solid_reverse. apply reverse_involutive.
Qed.

Lemma strip_solid (s : pystr) : solid s → strip s = s.
Proof.
  intros Hs.
  pose proof (strip_padded [] s [] ltac:(constructor) ltac:(constructor) Hs) as Hp.
  simpl in Hp. by rewrite app_nil_r in Hp.
Qed.






Lemma head_reverse {A} (s : list A) : head (reverse s) = last s.
Proof.
  induction s as [|c s IH] using rev_ind; [done|].
  by rewrite reverse_snoc, last_snoc.
Qed.





Lemma py_slice_take {A} (l : list A) (n : Z) :
  0 ≤ n → py_slice l None (Some n) = take (Z.to_nat n) l.
Proof.
  intros Hn. unfold py_slice, slice_bound.
  destruct (Z.ltb_spec n 0); [lia|]. change (Z.to_nat 0) with 0%nat. rewrite drop_0.
  destruct (Z_le_gt_dec n (Z.of_nat (length l))).
  - rewrite Z.min_l by lia. f_equal. lia.
  - rewrite Z.min_r by lia. rewrite !take_ge; [done|lia|lia].
Qed.






Lemma blank_head (b : pystr) (c : N) : blank b → is_space c = false → head b ≠ Some c.
Proof. destruct 1 as [|d b Hd _]; [done|]. simpl. intros Hc [= ->]. congruence. Qed.





Lemma plain_solid (body : pystr) : plain body → solid body.
Proof. by intros [? _]. Qed.






(** The two scenarios of the specification, evaluated with the reference
    parser: a fenced list is parsed, a scalar root raises [ValueError]. *)
Example sanitizer_round_trip :
  let body := lit "[{" ++ quoted "id" ++ lit ":" ++ quoted "1" ++ lit "}]" in
  let text := lit "```json" ++ nl ++ body ++ nl ++ lit "```" in
  _clean_response_text text = body
  ∧ @parse_response Reference.lib (Reference.text_response text)
    = Ok [JDict [(lit "id", JStr (lit "1"))]]
  ∧ @parse_response Reference.lib (Reference.text_response (quoted "not a list"))
    = Raise ValueError
  ∧ @parse_response Reference.lib (Reference.text_response (lit "{}")) = Raise ValueError.
Proof. vm_compute. repeat split; reflexivity. Qed.



(** * Properties of the consolidation *)

Lemma bind_inv {A B} (m : M A) (k : A → M B) (w w' : world) (b : B) :
  bind m k w = (Ok b, w') → ∃ a w1, m w = (Ok a, w1) ∧ k a w1 = (Ok b, w').
Proof.
  unfold bind. destruct (m w) as [[a|e] w1]; [|done]. intros Hk. by exists a, w1.
Qed.

Section Consolidation.
Context `{PyLib}.

Lemma match_key_record (kvs : list (pystr * json)) :
  match_key (JDict kvs) = Ok (key_of_record kvs).
Proof.
  unfold match_key, key_of_record. simpl.
  destruct (truthy (default JNull (dict_lookup kvs (lit "id")))) eqn:Hid; simpl.
  - by rewrite Hid.
  - destruct (truthy (default JNull (dict_lookup kvs (lit "linkOffer")))) eqn:Hlink; simpl.
    + by rewrite Hlink.
    + done.
Qed.

Lemma keyed_class (m : json) : keyed m → hashed_key m = Ok (dedup_class m).
Proof. unfold keyed, dedup_class. by destruct (hashed_key m). Qed.

Lemma consolidate_batch_first_occurrences (batch_matches : list json) :
  ∀ (seen_ids : gset hashed) (all_matches : list json),
  Forall keyed batch_matches →
  consolidate_batch batch_matches seen_ids all_matches
  = Ok (list_to_set (dedup_class <$> batch_matches) ∪ seen_ids,
        all_matches ++ first_occurrences dedup_class seen_ids batch_matches).
Proof.
  induction batch_matches as [|m ms IH]; intros seen_ids all_matches Hkeyed.
  - simpl. rewrite app_nil_r. do 2 f_equal. set_solver.
  - apply Forall_cons in Hkeyed as [Hm Hms].
    rewrite first_occurrences_cons. simpl.
    pose proof (keyed_class m Hm) as Hkey. unfold hashed_key in Hkey.
    destruct (match_key m) as [key|]; [|done]. simpl in *. rewrite Hkey. simpl.
    case_bool_decide.
    + rewrite IH by done. do 2 f_equal. set_solver.
    + rewrite IH by done. rewrite <- app_assoc. do 2 f_equal. set_solver.
Qed.

(** A non-record among the matches makes the loop raise. *)
Lemma consolidate_batch_non_record (batch_matches : list json) :
  ∀ (seen_ids : gset hashed) (all_matches : list json),
  Exists (λ m, is_dict m = false) batch_matches →
  ∃ e, consolidate_batch batch_matches seen_ids all_matches = Raise e.
Proof.
  induction batch_matches as [|m ms IH]; intros seen_ids all_matches Hbad.
  - by apply Exists_nil in Hbad.
  - simpl. destruct (match_key m) as [key|e] eqn:Hkey; [|by exists e].
    simpl. destruct (py_hash key) as [h|e]; [|by exists e]. simpl.
    apply Exists_cons in Hbad as [Hm|Hms].
    + by destruct m.
    + case_bool_decide; by apply IH.
Qed.

Lemma consolidate_batch_attribute_error (front : list json) (m : json) (back : list json)
    (seen_ids : gset hashed) (all_matches : list json) :
  Forall keyed front → is_dict m = false →
  consolidate_batch (front ++ m :: back) seen_ids all_matches = Raise AttributeError.
Proof.
  revert seen_ids all_matches.
  induction front as [|x front IH]; intros seen_ids all_matches Hfront Hm.
  - by destruct m.
  - apply Forall_cons in Hfront as [Hx Hfront]. simpl.
    pose proof (keyed_class x Hx) as Hkey. unfold hashed_key in Hkey.
    destruct (match_key x) as [key|]; [|done]. simpl in *. rewrite Hkey. simpl.
    case_bool_decide; by apply IH.
Qed.

End Consolidation.
(** * Properties of the inference call *)

Lemma omap_snoc {A B} (f : A → option B) (l : list A) (x : A) :
  omap f (l ++ [x]) = omap f l ++ match f x with Some y => [y] | None => [] end.
Proof. rewrite omap_app. simpl. by destruct (f x). Qed.

Section Writes.
Context `{PyLib}.

Lemma write_json_ok (path : pystr) (value : json) (w : world) :
  json_encodable value = true →
  write_json path value w = (Ok (), stored path (json_dumps artifact_options value) w).
Proof. intros Henc. unfold write_json. by rewrite Henc. Qed.

Lemma write_json_fails (path : pystr) (value : json) (w : world) :
  json_encodable value = false →
  write_json path value w
  = (Raise UnicodeEncodeError, stored path (json_dump_partial artifact_options value) w).
Proof. intros Henc. unfold write_json. by rewrite Henc. Qed.

Lemma failure_payload_expected (e : exn) (attempt : Z) (prompt : pystr)
    (response : option GenerateContentResponse) :
  failure_payload e attempt prompt response = expected_artifact e attempt prompt response.
Proof. unfold failure_payload, expected_artifact. by rewrite py_slice_take by lia. Qed.

Lemma expected_artifact_encodable (e : exn) (attempt : Z) (prompt : pystr)
    (response : option GenerateContentResponse) :
  json_encodable (expected_artifact e attempt prompt response)
  = encodable (repr_exn e) && encodable (take 2000 prompt)
    && match response with Some r => encodable (response_str r) | None => true end.
Proof.
  unfold expected_artifact. cbn [json_encodable forallb fst snd].
  change (encodable (lit "error")) with true.
  change (encodable (lit "attempt")) with true.
  change (encodable (lit "prompt_preview")) with true.
  change (encodable (lit "response_str")) with true.
  cbn [andb]. destruct response; cbn [json_encodable]; by rewrite ?andb_true_r, ?andb_assoc.
Qed.

End Writes.

Section Call.
Context `{Env} `{PyLib} `{Settings}.
Variable prompt : pystr.
Variable batch_idx : Z.

Lemma bound_response_shift (n k : nat) (before : option GenerateContentResponse) :
  bound_response prompt n (S k) before
  = bound_response prompt (S n) k (bound_response prompt n 0 before).
Proof.
  induction k as [|k IH].
  - simpl. by replace (n + 1)%nat with (S (n + 0)) by lia.
  - change (bound_response prompt n (S (S k)) before)
      with (match gemini (n + S (S k)) prompt with
            | Generates r => Some r
            | GenerateRaises _ => bound_response prompt n (S k) before
            end).
    change (bound_response prompt (S n) (S k) (bound_response prompt n 0 before))
      with (match gemini (S n + S k) prompt with
            | Generates r => Some r
            | GenerateRaises _ =>
              bound_response prompt (S n) k (bound_response prompt n 0 before)
            end).
    rewrite IH. by replace (n + S (S k))%nat with (S n + S k)%nat by lia.
Qed.

Lemma bound_response_encodable (n k : nat) (before : option GenerateContentResponse) :
  artifacts_encodable prompt → response_encodable before →
  response_encodable (bound_response prompt n k before).
Proof.
  intros [_ Henc] Hbefore. induction k as [|k IH]; simpl.
  - destruct (gemini (n + 0) prompt) as [r|e] eqn:Hr; [|done]. by apply (Henc (n + 0)%nat).
  - destruct (gemini (n + S k) prompt) as [r|e] eqn:Hr; [|done].
    by apply (Henc (n + S k)%nat).
Qed.

Lemma attempt_body_fails (response : option GenerateContentResponse) (w : world) :
  attempt_fails (gemini (generates w) prompt) = true →
  attempt_body prompt response w
  = (Ok (bound_response prompt (generates w) 0 response,
         Raise (attempt_error (gemini (generates w) prompt))),
     generated prompt w).
Proof.
  intros Hfail. unfold attempt_body, bind, generate_content. fold (generated prompt w).
  simpl. rewrite Nat.add_0_r.
  destruct (gemini (generates w) prompt) as [r|e]; simpl in *; [|done].
  by destruct (parse_response r).
Qed.

Lemma raw_path_not_result (attempt ts : Z) : raw_path batch_idx attempt ts ≠ JSON_PATH.
Proof. unfold raw_path, JSON_PATH. intros Heq. vm_compute in Heq. discriminate. Qed.

(** One failed attempt whose artifact can be encoded: the artifact is
    written after the call and a reading of the clock. *)
Lemma failed_attempt (attempt : Z) (response : option GenerateContentResponse) (w : world)
    (k : list json → M (list json)) (after : option GenerateContentResponse → M (list json)) :
  attempt_fails (gemini (generates w) prompt) = true →
  artifacts_encodable prompt → response_encodable response →
  (let! (response, outcome) := attempt_body prompt response in
   match outcome with
   | Ok parsed => k parsed
   | Raise e =>
     let! ts := read_clock in
     let! _ := write_json (raw_path batch_idx attempt ts)
                 (failure_payload e attempt prompt response) in
     after response
   end) w
  = after (bound_response prompt (generates w) 0 response)
      (stored (raw_path batch_idx attempt (clock (clock_reads w)))
         (json_dumps artifact_options
            (expected_artifact (attempt_error (gemini (generates w) prompt)) attempt prompt
               (bound_response prompt (generates w) 0 response)))
         {| trace := trace w ++ [EvGenerate prompt]; files := files w; gets := gets w;
            generates := S (generates w); clock_reads := S (clock_reads w) |}).
Proof.
  intros Hfail Henc Hresp.
  rewrite (bind_ok _ _ _ _ _ (attempt_body_fails response w Hfail)). cbv beta iota.
  unfold bind at 1, read_clock at 1. cbv beta iota.
  rewrite failure_payload_expected.
  assert (json_encodable
            (expected_artifact (attempt_error (gemini (generates w) prompt)) attempt prompt
               (bound_response prompt (generates w) 0 response)) = true) as Hjenc.
  { rewrite expected_artifact_encodable.
    pose proof (bound_response_encodable (generates w) 0 response Henc Hresp) as Hbound.
    destruct Henc as [Hprompt Hall]. destruct (Hall (generates w)) as [-> _]. rewrite Hprompt.
    by destruct (bound_response prompt (generates w) 0 response). }
  by rewrite (bind_ok _ _ _ _ _ (write_json_ok _ _ _ Hjenc)).
Qed.


Lemma call_gemini_loop_failed (attempt : Z) (rest : list Z) (backoff : Qc)
    (response : option GenerateContentResponse) (w : world) :
  attempt_fails (gemini (generates w) prompt) = true →
  artifacts_encodable prompt → response_encodable response →
  call_gemini_loop prompt batch_idx (attempt :: rest) backoff response w
  = (if attempt <? MAX_ATTEMPTS then
       let! _ := sleep backoff in
       call_gemini_loop prompt batch_idx rest (backoff * 2)%Qc
         (bound_response prompt (generates w) 0 response)
     else ret []) (after_failure prompt batch_idx attempt response w).
Proof.
  intros Hfail Henc Hresp.
  exact (failed_attempt attempt response w ret
           (λ response, if attempt <? MAX_ATTEMPTS then
                          let! _ := sleep backoff in
                          call_gemini_loop prompt batch_idx rest (backoff * 2)%Qc response
                        else ret []) Hfail Henc Hresp).
Qed.

Lemma call_gemini_loop_succeeds (attempt : Z) (rest : list Z) (backoff : Qc)
    (response : option GenerateContentResponse) (w : world) :
  attempt_fails (gemini (generates w) prompt) = false →
  ∃ r matches,
    gemini (generates w) prompt = Generates r ∧ parse_response r = Ok matches
    ∧ call_gemini_loop prompt batch_idx (attempt :: rest) backoff response w
      = (Ok matches, generated prompt w).
Proof.
  intros Hok. simpl. unfold bind at 1. unfold attempt_body, bind, generate_content.
  fold (generated prompt w). destruct (gemini (generates w) prompt) as [r|e]; [|done].
  simpl in *. destruct (parse_response r) as [matches|e] eqn:Hparse; [|done].
  by exists r, matches.
Qed.




End Call.

Section CallEffects.
Context `{Env} `{PyLib} `{Settings}.
Variable prompt : pystr.
Variable batch_idx : Z.

Lemma prompts_in_app (t1 t2 : list event) :
  prompts_in (t1 ++ t2) = prompts_in t1 ++ prompts_in t2.
Proof. apply omap_app. Qed.

Lemma writes_in_app (t1 t2 : list event) : writes_in (t1 ++ t2) = writes_in t1 ++ writes_in t2.
Proof. apply omap_app. Qed.

(** The effects of the loop, whatever the service answers. *)
Lemma call_gemini_loop_effects (attempts : list Z) :
  ∀ (backoff : Qc) (response : option GenerateContentResponse) (w : world),
  call_effects prompt batch_idx attempts w
    (call_gemini_loop prompt batch_idx attempts backoff response w).2.
Proof.
  induction attempts as [|attempt rest IH]; intros backoff response w.
  - exists []. simpl. rewrite app_nil_r. repeat split; done || constructor.
  - simpl. unfold bind at 1. unfold attempt_body, bind at 1, generate_content.
    fold (generated prompt w).
    assert (∀ (e : exn) (response' : option GenerateContentResponse),
      call_effects prompt batch_idx (attempt :: rest) w
        (bind read_clock (λ ts,
           bind (write_json (raw_path batch_idx attempt ts)
                   (failure_payload e attempt prompt response')) (λ _,
             if attempt <? MAX_ATTEMPTS
             then bind (sleep backoff) (λ _,
                    call_gemini_loop prompt batch_idx rest (backoff * 2)%Qc response')
             else ret [])) (generated prompt w)).2) as Hfailed.
    { intros e response'.
      unfold bind at 1, read_clock. cbv beta iota. unfold bind at 1, write_json. cbv zeta.
      set (path := raw_path batch_idx attempt (clock (clock_reads (generated prompt w)))).
      assert (∀ text, Forall (λ pt : pystr * pystr, ∃ a ts, a ∈ attempt :: rest
                        ∧ pt.1 = raw_path batch_idx a ts) [(path, text)]) as Hpath.
      { intros text. constructor; [|constructor]. exists attempt, (clock (clock_reads w)).
        split; [apply list_elem_of_here|done]. }
      assert (∀ text, call_effects prompt batch_idx (attempt :: rest) w
                (stored path text
                   {| trace := trace (generated prompt w); files := files (generated prompt w);
                      gets := gets (generated prompt w);
                      generates := generates (generated prompt w);
                      clock_reads := S (clock_reads (generated prompt w)) |})) as Hstop.
      { intros text. exists [EvGenerate prompt; EvWrite path text]. simpl.
        rewrite <- app_assoc. repeat split; try done; try lia.
        - by repeat constructor.
        - intros p Hp. rewrite lookup_insert_ne; [done|]. intros <-. by eapply Hp. }
      destruct (json_encodable (failure_payload e attempt prompt response'));
        [|apply Hstop].
      set (text := json_dumps _ _).
      destruct (attempt <? MAX_ATTEMPTS); [|apply Hstop].
      unfold bind, sleep. destruct (decide (backoff < 0)%Qc); [apply Hstop|].
      match goal with |- context [call_gemini_loop _ _ _ ?b ?r' ?w1] =>
        destruct (IH b r' w1) as (new & Htr & Hlen & Hprompts & Hreq & Hwlen
                                  & Hwrites & Hfiles & Hgets) end.
      exists ([EvGenerate prompt; EvWrite path text; EvSleep backoff] ++ new).
      split; [rewrite Htr; simpl; by rewrite <- !app_assoc|].
      rewrite Hgets. simpl. repeat split; try done; try lia.
      * by constructor.
      * constructor; [by pose proof (Hpath text) as Hp; inversion Hp|].
        eapply Forall_impl; [exact Hwrites|]. intros pt (a & ts & Ha & Hpt).
        exists a, ts. split; [by apply list_elem_of_further|done].
      * intros p Hp. rewrite Hfiles by done. simpl.
        rewrite lookup_insert_ne; [done|]. intros <-. by eapply Hp. }
    destruct (gemini (generates w) prompt) as [r|e]; simpl.
    + destruct (parse_response r) as [matches|e].
      * exists [EvGenerate prompt]. simpl.
        repeat split; first [done|lia|by repeat constructor|constructor].
      * apply Hfailed.
    + apply Hfailed.
Qed.

End CallEffects.

Lemma call_gemini_keeps_result `{Env} `{PyLib} `{Settings} (prompt : pystr) (batch_idx : Z)
    (w : world) :
  files (_call_gemini_with_retries prompt batch_idx w).2 !! JSON_PATH = files w !! JSON_PATH.
Proof.
  unfold _call_gemini_with_retries.
  rewrite (bind_lift_ok _ _ _ _ (py_range_seqZ _ _)).
  destruct (call_gemini_loop_effects prompt batch_idx (seqZ 1 (MAX_ATTEMPTS + 1 - 1))
              BACKOFF_SECONDS None w) as (new & _ & _ & _ & _ & _ & _ & Hfiles & _).
  apply Hfiles. intros a ts Heq. by apply (raw_path_not_result batch_idx a ts).
Qed.

(** ** The artifacts of one call are distinct files *)








(** * The run of [filter_offers] *)

Lemma elem_of_concat {A} (x : A) (ls : list (list A)) :
  x ∈ concat ls ↔ ∃ l, x ∈ l ∧ l ∈ ls.
Proof.
  rewrite list_elem_of_In, in_concat. split.
  - intros (l & Hl & Hx). exists l. by rewrite !list_elem_of_In.
  - intros (l & Hx & Hl). exists l. by rewrite <- !list_elem_of_In.
Qed.

Section Pipeline.
Context `{Env} `{PyLib} `{Settings}.
Variable self : GeminiAnalyzer.

Lemma lift_inv {A} (r : result A) (w w' : world) (a : A) :
  lift r w = (Ok a, w') → r = Ok a ∧ w' = w.
Proof. unfold lift. by intros [= -> ->]. Qed.

Lemma inference_results_cons (batch_idx : Z) (batch : list json)
    (rest : list (Z * list json)) (total_batches : Z) (w w' : world)
    (results : list (list json)) :
  inference_results self ((batch_idx, batch) :: rest) total_batches w = (Ok results, w') →
  ∃ prompt batch_matches others w1,
    _build_prompt self batch batch_idx total_batches = Ok prompt
    ∧ _call_gemini_with_retries prompt batch_idx w = (Ok batch_matches, w1)
    ∧ inference_results self rest total_batches w1 = (Ok others, w')
    ∧ results = batch_matches :: others.
Proof.
  simpl. intros Hrun.
  apply bind_inv in Hrun as (prompt & w0 & [Hprompt ->]%lift_inv & Hrun).
  apply bind_inv in Hrun as (batch_matches & w1 & Hcall & Hrun).
  apply bind_inv in Hrun as (others & w2 & Hrest & Hret).
  injection Hret as <- <-. by exists prompt, batch_matches, others, w1.
Qed.

(** The loop over the batches is the consolidation of the per-batch
    results, first occurrence first. *)
Lemma batches_loop_results (batches : list (Z * list json)) (total_batches : Z) :
  ∀ (w w' : world) (results : list (list json)) (seen_ids : gset hashed)
    (all_matches : list json),
  inference_results self batches total_batches w = (Ok results, w') →
  Forall keyed (concat results) →
  batches_loop self batches total_batches seen_ids all_matches w
  = (Ok (list_to_set (dedup_class <$> concat results) ∪ seen_ids,
         all_matches ++ first_occurrences dedup_class seen_ids (concat results)), w').
Proof.
  induction batches as [|[batch_idx batch] rest IH];
    intros w w' results seen_ids all_matches Hrun Hkeyed.
  - injection Hrun as <- <-. simpl. unfold ret. rewrite app_nil_r.
    do 3 f_equal. set_solver.
  - apply inference_results_cons in Hrun
      as (prompt & batch_matches & others & w1 & Hprompt & Hcall & Hrest & ->).
    simpl. rewrite (bind_lift_ok _ _ _ _ Hprompt), (bind_ok _ _ _ _ _ Hcall).
    simpl in Hkeyed. apply Forall_app in Hkeyed as [Hbatch Hothers].
    destruct batch_matches as [|m ms].
    + by apply IH.
    + rewrite (bind_lift_ok _ _ _ _
                 (consolidate_batch_first_occurrences _ seen_ids all_matches Hbatch)).
      cbv beta iota. rewrite (IH _ _ _ _ _ Hrest Hothers).
      rewrite first_occurrences_app, <- app_assoc.
      do 3 f_equal. rewrite fmap_app, list_to_set_app_L. set_solver.
Qed.

(** A non-record in a per-batch result makes the loop raise, and the loop
    writes nothing to the result artifact. *)
Lemma batches_loop_non_record (batches : list (Z * list json)) (total_batches : Z) :
  ∀ (w w' : world) (results : list (list json)) (seen_ids : gset hashed)
    (all_matches : list json),
  inference_results self batches total_batches w = (Ok results, w') →
  Exists (λ m, is_dict m = false) (concat results) →
  ∃ e w2,
    batches_loop self batches total_batches seen_ids all_matches w = (Raise e, w2)
    ∧ files w2 !! JSON_PATH = files w !! JSON_PATH.
Proof.
  induction batches as [|[batch_idx batch] rest IH];
    intros w w' results seen_ids all_matches Hrun Hbad.
  - injection Hrun as <- <-. by apply Exists_nil in Hbad.
  - apply inference_results_cons in Hrun
      as (prompt & batch_matches & others & w1 & Hprompt & Hcall & Hrest & ->).
    simpl. rewrite (bind_lift_ok _ _ _ _ Hprompt), (bind_ok _ _ _ _ _ Hcall).
    pose proof (call_gemini_keeps_result prompt batch_idx w) as Hfiles.
    rewrite Hcall in Hfiles. cbn [snd] in Hfiles.
    simpl in Hbad. apply Exists_app in Hbad.
    destruct batch_matches as [|m ms].
    + destruct Hbad as [Hbad|Hbad]; [by apply Exists_nil in Hbad|].
      destruct (IH _ _ _ seen_ids all_matches Hrest Hbad) as (e & w2 & Hloop & Hf).
      exists e, w2. by rewrite Hloop, Hf.
    + destruct (consolidate_batch (m :: ms) seen_ids all_matches)
        as [[seen' all']|e] eqn:Hcons.
      * unfold bind at 1, lift at 1. cbv beta iota.
        destruct Hbad as [Hbad|Hbad].
        -- destruct (consolidate_batch_non_record _ seen_ids all_matches Hbad) as [e He].
           congruence.
        -- destruct (IH _ _ _ seen' all' Hrest Hbad) as (e & w2 & Hloop & Hf).
           exists e, w2. by rewrite Hloop, Hf.
      * by exists e, w1.
Qed.

(** The run ends with the save of the consolidated list, which fails when
    a text of a match cannot be encoded. *)
Lemma filter_offers_results (offers : list json) (batches : list (list json))
    (results : list (list json)) (w w1 : world) :
  offers ≠ [] →
  split_batches offers BATCH_SIZE = Ok batches →
  inference_results self (enumerate_from 1 batches) (Z.of_nat (length batches)) w
  = (Ok results, w1) →
  Forall keyed (concat results) →
  filter_offers self offers w
  = if json_encodable (JList (first_occurrences dedup_class ∅ (concat results)))
    then (Ok (first_occurrences dedup_class ∅ (concat results)),
          saved (first_occurrences dedup_class ∅ (concat results)) w1)
    else (Raise UnicodeEncodeError,
          stored JSON_PATH
            (json_dump_partial artifact_options
               (JList (first_occurrences dedup_class ∅ (concat results)))) w1).
Proof.
  intros Hne Hsplit Hrun Hkeyed. unfold filter_offers.
  destruct offers as [|o offers]; [done|].
  rewrite (bind_lift_ok _ _ _ _ Hsplit).
  rewrite (bind_ok _ _ _ _ _ (batches_loop_results _ _ _ _ _ ∅ [] Hrun Hkeyed)).
  cbv beta iota. rewrite app_nil_l. unfold _save_filtered_offers.
  destruct (json_encodable (JList (first_occurrences dedup_class ∅ (concat results))))
    eqn:Henc.
  - rewrite (bind_ok _ _ _ _ _ (bind_ok _ _ _ _ _ (write_json_ok _ _ _ Henc))).
    reflexivity.
  - unfold bind. by rewrite (write_json_fails _ _ _ Henc).
Qed.

End Pipeline.

(** * The inference stage: the claims *)




(** The scenario of the specification, evaluated: of three batches the
    second fails on every attempt; the run returns the matches of the
    batches 1 and 3, and writes three diagnostic artifacts and the result. *)
Example second_batch_degrades :
  let script := [Reference.selects [1]] ++ Reference.failing_script ++ [Reference.selects [5]] in
  let offers := Reference.posting <$> [1; 2; 3; 4; 5] in
  let '(r, w) := @filter_offers (Reference.scripted_gemini script) Reference.lib
                   Reference.small_batches Reference.sample_analyzer offers
                   Reference.empty_world in
  r = Ok [Reference.match_record 1; Reference.match_record 5]
  ∧ length (prompts_in (trace w)) = 5%nat
  ∧ fst <$> writes_in (trace w)
    = [lit "data/raw_batch2_attempt1_1700000000.json";
       lit "data/raw_batch2_attempt2_1700000001.json";
       lit "data/raw_batch2_attempt3_1700000002.json";
       lit "data/matches.json"]
  ∧ size (files w) = 4%nat.
Proof. vm_compute. repeat split; reflexivity. Qed.



(** A record with neither [id] nor [linkOffer], evaluated: its key is the
    text of the whole record, the keys sorted. *)
Example anonymous_match_key :
  @match_key Reference.lib
    (JDict [(lit "title", JStr (lit "QA")); (lit "employer", JStr (lit "ACME"))])
  = Ok (JStr (lit "{" ++ quoted "employer" ++ lit ": " ++ quoted "ACME" ++ lit ", "
              ++ quoted "title" ++ lit ": " ++ quoted "QA" ++ lit "}")).
Proof. vm_compute. reflexivity. Qed.

(** The consolidated list is written to the result artifact, in place of
    what the file held, also when the list is empty. *)
Lemma filter_offers_persists `{Env} `{PyLib} `{Settings}
    (self : GeminiAnalyzer) (offers : list json) (batches results : list (list json))
    (w w1 : world) :
  offers ≠ [] →
  split_batches offers BATCH_SIZE = Ok batches →
  inference_results self (enumerate_from 1 batches) (Z.of_nat (length batches)) w
  = (Ok results, w1) →
  Forall keyed (concat results) →
  json_encodable (JList (first_occurrences dedup_class ∅ (concat results))) = true →
  ∃ final w',
    filter_offers self offers w = (Ok final, w')
    ∧ files w' !! JSON_PATH = Some (json_dumps artifact_options (JList final))
    ∧ last (writes_in (trace w')) = Some (JSON_PATH, json_dumps artifact_options (JList final)).
Proof.
  intros Hne Hsplit Hrun Hkeyed Henc. eexists _, _.
  rewrite (filter_offers_results self offers batches results w w1 Hne Hsplit Hrun Hkeyed).
  rewrite Henc. split; [reflexivity|].
  unfold saved. simpl. split; [by rewrite lookup_insert_eq|].
  unfold writes_in. by rewrite omap_snoc, last_snoc.
Qed.

(** C8, where the code departs from the claim: on an empty input
    [filter_offers] returns at once. It writes nothing, so a result artifact
    left by an earlier run stays as it was. *)
Theorem filter_offers_empty_input_writes_nothing `{Env} `{PyLib} `{Settings}
    (self : GeminiAnalyzer) (w : world) :
  filter_offers self [] w = (Ok [], w)
  ∧ ∀ w', (filter_offers self [] w).2 = w' →
          files w' !! JSON_PATH = files w !! JSON_PATH ∧ writes_in (trace w') = writes_in (trace w).
Proof. split; [done|]. by intros w' <-. Qed.

(** The same on a concrete world: the artifact of an earlier run, here the
    text [old], is still there after a run on no posting, whereas a run on
    a posting that yields no match replaces it by the empty list. *)
Example stale_result_artifact :
  let old := lit "[{...}]" in
  let before := {| trace := []; files := {[JSON_PATH := old]}; gets := 0;
                   generates := 0; clock_reads := 0 |} in
  let run offers := @filter_offers (Reference.scripted_gemini [Reference.selects []])
                      Reference.lib Reference.default_settings Reference.sample_analyzer
                      offers before in
  (run []).1 = Ok [] ∧ files (run []).2 !! JSON_PATH = Some old
  ∧ (run [Reference.posting 1]).1 = Ok []
  ∧ files (run [Reference.posting 1]).2 !! JSON_PATH = Some (lit "[]").
Proof. vm_compute. repeat split; reflexivity. Qed.

(** C10. The consolidation reads every match with [get]: a match that is
    not a record raises [AttributeError] when the loop reaches it, so a
    per-batch result with such an element makes the loop raise. The
    exception is raised outside the [try] of the inference call: the run
    ends with it instead of a result, and the result artifact is not
    written. *)
Theorem non_record_match_aborts_run `{Env} `{PyLib} `{Settings} :
  (∀ front m back seen_ids all_matches,
     Forall keyed front → is_dict m = false →
     consolidate_batch (front ++ m :: back) seen_ids all_matches = Raise AttributeError)
  ∧ (∀ batch_matches seen_ids all_matches,
       Exists (λ m, is_dict m = false) batch_matches →
       ∃ e, consolidate_batch batch_matches seen_ids all_matches = Raise e)
  ∧ ((0 ≤ BACKOFF_SECONDS)%Qc →
     ∀ self offers batches results w w1,
       offers ≠ [] →
       split_batches offers BATCH_SIZE = Ok batches →
       inference_results self (enumerate_from 1 batches) (Z.of_nat (length batches)) w
       = (Ok results, w1) →
       Exists (λ m, is_dict m = false) (concat results) →
       ∃ e w2,
         filter_offers self offers w = (Raise e, w2)
         ∧ files w2 !! JSON_PATH = files w !! JSON_PATH).
Proof.
  split; [intros; by apply consolidate_batch_attribute_error|].
  split; [intros; by apply consolidate_batch_non_record|].
  intros Hb self offers batches results w w1 Hne Hsplit Hrun Hbad.
  destruct (batches_loop_non_record self _ _ _ _ _ ∅ [] Hrun Hbad)
    as (e & w2 & Hloop & Hfiles).
  exists e, w2. split; [|done]. unfold filter_offers.
  destruct offers as [|o offers]; [done|].
  rewrite (bind_lift_ok _ _ _ _ Hsplit). unfold bind. by rewrite Hloop.
Qed.

(** A list with a number in it, evaluated: the second batch is never
    submitted and no result is written. *)
Example number_among_matches :
  let answer := Generates (Reference.text_response (lit "[1, " ++ quoted "x" ++ lit "]")) in
  let offers := Reference.posting <$> [1; 2; 3] in
  let '(r, w) := @filter_offers (Reference.scripted_gemini [answer; Reference.selects [3]])
                   Reference.lib Reference.small_batches Reference.sample_analyzer offers
                   Reference.empty_world in
  r = Raise AttributeError
  ∧ length (prompts_in (trace w)) = 1%nat
  ∧ writes_in (trace w) = [].
Proof. vm_compute. repeat split; reflexivity. Qed.

Lemma non_record_match_aborts_run_witness :
  @consolidate_batch Reference.lib
    ([Reference.match_record 1] ++ JInt 1 :: [JStr (lit "x")]) ∅ []
  = Raise AttributeError.
Proof.
  destruct (@non_record_match_aborts_run (Reference.scripted_gemini []) Reference.lib
              Reference.default_settings) as (Hattr & _).
  apply Hattr; [by repeat constructor|reflexivity].
Defined.

(** C7 on the whole stage, evaluated: with a negative batch size the run
    submits nothing and writes the empty list; with a batch size of 0 it
    ends with the [ValueError] of [range]. *)
Example degenerate_batch_sizes :
  let run size := @filter_offers (Reference.scripted_gemini [Reference.selects [1]])
                    Reference.lib
                    {| MAX_ATTEMPTS := 3; BACKOFF_SECONDS := 1; BATCH_SIZE := size |}
                    Reference.sample_analyzer (Reference.posting <$> [1; 2; 3])
                    Reference.empty_world in
  (run (-1)).1 = Ok []
  ∧ prompts_in (trace (run (-1)).2) = []
  ∧ files (run (-1)).2 !! JSON_PATH = Some (lit "[]")
  ∧ (run 0).1 = Raise ValueError
  ∧ trace (run 0).2 = [].
Proof. vm_compute. repeat split; reflexivity. Qed.

(** * Properties of the digest renderer *)

Section Email.
Context `{PyLib}.

Lemma escaped_field (kvs : list (pystr * json)) (key placeholder : pystr) :
  text_field kvs key →
  mjoin (escape_char <$> placeholder) = placeholder →
  (try! v := py_get (JDict kvs) key (JStr placeholder) in html_escape v)
  = Ok (shown kvs key placeholder).
Proof.
  intros [Hmissing|[s Hs]] Hplain; unfold shown; simpl.
  - rewrite Hmissing. simpl. by rewrite Hplain.
  - by rewrite Hs.
Qed.

Lemma render_offer_record (kvs : list (pystr * json)) :
  text_field kvs (lit "title") → text_field kvs (lit "employer") →
  text_field kvs (lit "linkOffer") → text_field kvs (lit "reason") →
  render_offer (JDict kvs)
  = Ok (dedent (offer_block (shown kvs (lit "title") (lit "Sin título"))
                            (shown kvs (lit "employer") (lit "Sin empresa"))
                            (shown kvs (lit "reason") [])
                            (shown kvs (lit "linkOffer") (lit "#")))).
Proof.
  intros Ht He Hl Hr. unfold render_offer.
  pose proof (escaped_field kvs (lit "title") (lit "Sin título") Ht eq_refl) as Et.
  pose proof (escaped_field kvs (lit "employer") (lit "Sin empresa") He eq_refl) as Ee.
  pose proof (escaped_field kvs (lit "linkOffer") (lit "#") Hl eq_refl) as El.
  pose proof (escaped_field kvs (lit "reason") [] Hr eq_refl) as Er.
  unfold rbind in *.
  destruct (py_get (JDict kvs) (lit "title") _); [|done]. rewrite Et.
  destruct (py_get (JDict kvs) (lit "employer") _); [|done]. rewrite Ee.
  destruct (py_get (JDict kvs) (lit "linkOffer") _); [|done]. rewrite El.
  destruct (py_get (JDict kvs) (lit "reason") _); [|done]. by rewrite Er.
Qed.

Lemma render_offers_renderable (offers : list json) :
  Forall renderable offers →
  ∀ html_content, ∃ blocks, render_offers offers html_content = Ok (html_content ++ blocks).
Proof.
  induction 1 as [|offer offers (kvs & -> & Ht & He & Hl & Hr) _ IH]; intros html_content.
  - exists []. simpl. by rewrite app_nil_r.
  - simpl. rewrite render_offer_record by done. simpl.
    destruct (IH (html_content ++ dedent (offer_block
                (shown kvs (lit "title") (lit "Sin título"))
                (shown kvs (lit "employer") (lit "Sin empresa"))
                (shown kvs (lit "reason") [])
                (shown kvs (lit "linkOffer") (lit "#"))))) as [blocks Hblocks].
    eexists. rewrite Hblocks. by rewrite <- app_assoc.
Qed.

Lemma offer_block_expected (title employer reason link_offer : pystr) :
  offer_block title employer reason link_offer
  = expected_block title employer reason link_offer.
Proof.
  unfold offer_block, expected_block, line, quoted. cbn [replicate].
  by rewrite <- !app_assoc.
Qed.

Lemma html_escape_cases (v : json) :
  (∃ s, v = JStr s ∧ html_escape v = Ok (mjoin (escape_char <$> s)))
  ∨ ((∀ s, v ≠ JStr s) ∧ html_escape v = Raise AttributeError).
Proof. destruct v as [| | |s| |]; try (by right); left. by exists s. Qed.

Lemma text_field_cases (kvs : list (pystr * json)) (key placeholder : pystr) :
  (text_field kvs key
   ∧ ∃ s, (try! v := py_get (JDict kvs) key (JStr placeholder) in html_escape v) = Ok s)
  ∨ (¬ text_field kvs key
     ∧ (try! v := py_get (JDict kvs) key (JStr placeholder) in html_escape v)
       = Raise AttributeError).
Proof.
  unfold text_field. simpl. destruct (dict_lookup kvs key) as [v|]; simpl.
  - destruct (html_escape_cases v) as [(s & -> & ->)|[Hv ->]].
    + left. split; [right; by exists s|by eexists].
    + right. split; [|done]. intros [?|[s [= ->]]]; [done|]. by destruct (Hv s).
  - left. split; [by left|by eexists].
Qed.

(** A match that is not renderable stops the rendering with
    [AttributeError]. *)
Lemma render_offer_not_renderable (offer : json) :
  ¬ renderable offer → render_offer offer = Raise AttributeError.
Proof.
  intros Hnot. destruct offer as [| | | | |kvs]; try done.
  unfold render_offer.
  destruct (text_field_cases kvs (lit "title") (lit "Sin título")) as [[Ht [t Et]]|[_ Et]].
  2:{ unfold rbind in *. destruct (py_get _ (lit "title") _); [by rewrite Et|done]. }
  destruct (text_field_cases kvs (lit "employer") (lit "Sin empresa"))
    as [[He [e Ee]]|[_ Ee]].
  2:{ unfold rbind in *. destruct (py_get _ (lit "title") _); [|done]. rewrite Et.
      destruct (py_get _ (lit "employer") _); [by rewrite Ee|done]. }
  destruct (text_field_cases kvs (lit "linkOffer") (lit "#")) as [[Hl [l El]]|[_ El]].
  2:{ unfold rbind in *. destruct (py_get _ (lit "title") _); [|done]. rewrite Et.
      destruct (py_get _ (lit "employer") _); [|done]. rewrite Ee.
      destruct (py_get _ (lit "linkOffer") _); [by rewrite El|done]. }
  destruct (text_field_cases kvs (lit "reason") []) as [[Hr [r Er]]|[_ Er]].
  2:{ unfold rbind in *. destruct (py_get _ (lit "title") _); [|done]. rewrite Et.
      destruct (py_get _ (lit "employer") _); [|done]. rewrite Ee.
      destruct (py_get _ (lit "linkOffer") _); [|done]. rewrite El.
      destruct (py_get _ (lit "reason") _); [by rewrite Er|done]. }
  destruct Hnot. by exists kvs.
Qed.

(** The document is written unless it cannot be encoded; the file is
    empty then. *)
Lemma generate_html_document (offers : list json) (document : pystr) (w : world) :
  html_document offers = Ok document →
  generate_html offers w
  = if encodable document then (Ok (), digest_written document w)
    else (Raise UnicodeEncodeError, stored HTML_PATH [] w).
Proof.
  intros Hdoc. unfold generate_html. rewrite Hdoc.
  unfold bind, lift, write_text. by destruct (encodable document).
Qed.

End Email.

(** C9. A match whose [title], [employer], [linkOffer] and [reason] are
    each missing or a text is rendered without an exception: its block is
    the text of lines 44 to 51 in which a missing [title] is shown as
    "Sin título", a missing [employer] as "Sin empresa", a missing
    [linkOffer] as "#" and a missing [reason] as the empty text, and a field
    that is there as its escaped text. A list of such matches is rendered
    to a document, which is written unless it cannot be encoded. A field
    that is there but is not a text makes the rendering of the match raise
    [AttributeError], whichever other fields are missing. *)
Theorem render_offer_placeholders `{PyLib} (kvs : list (pystr * json)) :
  (text_field kvs (lit "title") → text_field kvs (lit "employer") →
   text_field kvs (lit "linkOffer") → text_field kvs (lit "reason") →
   render_offer (JDict kvs)
   = Ok (dedent (expected_block (shown kvs (lit "title") (lit "Sin título"))
                                (shown kvs (lit "employer") (lit "Sin empresa"))
                                (shown kvs (lit "reason") [])
                                (shown kvs (lit "linkOffer") (lit "#"))))
   ∧ (dict_lookup kvs (lit "title") = None →
      shown kvs (lit "title") (lit "Sin título") = lit "Sin título")
   ∧ (dict_lookup kvs (lit "employer") = None →
      shown kvs (lit "employer") (lit "Sin empresa") = lit "Sin empresa")
   ∧ (dict_lookup kvs (lit "linkOffer") = None →
      shown kvs (lit "linkOffer") (lit "#") = lit "#")
   ∧ (dict_lookup kvs (lit "reason") = None → shown kvs (lit "reason") [] = [])
   ∧ (∀ key s, dict_lookup kvs key = Some (JStr s) →
               ∀ placeholder, shown kvs key placeholder = mjoin (escape_char <$> s))
   ∧ (∀ others w,
        Forall renderable others →
        ∃ document,
          html_document (JDict kvs :: others) = Ok document
          ∧ (encodable document = true →
             generate_html (JDict kvs :: others) w = (Ok (), digest_written document w))
          ∧ (encodable document = false →
             generate_html (JDict kvs :: others) w
             = (Raise UnicodeEncodeError, stored HTML_PATH [] w))))
  ∧ (∀ key v,
       key ∈ rendered_fields → dict_lookup kvs key = Some v → (∀ s, v ≠ JStr s) →
       render_offer (JDict kvs) = Raise AttributeError
       ∧ ∀ others w, generate_html (JDict kvs :: others) w = (Raise AttributeError, w)).
Proof.
  split.
  - intros Ht He Hl Hr.
    split; [by rewrite render_offer_record, offer_block_expected|].
    do 4 (split; [intros Hmissing; unfold shown; by rewrite Hmissing|]).
    split; [intros key s Hs placeholder; unfold shown; by rewrite Hs|].
    intros others w Hothers.
    assert (Forall renderable (JDict kvs :: others)) as Hall.
    { constructor; [by exists kvs|done]. }
    destruct (render_offers_renderable _ Hall page_head) as [blocks Hblocks].
    assert (html_document (JDict kvs :: others)
            = Ok ((page_head ++ blocks) ++ lit "</body></html>")) as Hdoc.
    { unfold html_document. by rewrite Hblocks. }
    eexists. split; [exact Hdoc|].
    rewrite (generate_html_document _ _ w Hdoc).
    split; intros Henc; by rewrite Henc.
  - intros key v Hkey Hv Hnot.
    assert (render_offer (JDict kvs) = Raise AttributeError) as Hraise.
    { apply render_offer_not_renderable.
      intros (kvs' & [= <-] & Ht & He & Hl & Hr).
      assert (text_field kvs key) as [Hnone|[s Hs]].
      { unfold rendered_fields in Hkey.
        repeat (apply elem_of_cons in Hkey as [->|Hkey]; [done|]).
        by apply elem_of_nil in Hkey. }
      - congruence.
      - rewrite Hv in Hs. injection Hs as ->. by destruct (Hnot s). }
    split; [done|]. intros others w.
    unfold generate_html, html_document. cbn [render_offers]. by rewrite Hraise.
Qed.

Lemma render_offer_placeholders_witness :
  @render_offer Reference.lib (JDict [(lit "id", JStr (lit "offer-7"))])
  = Ok (nl
        ++ lit "<div class=" ++ quoted "offer" ++ lit ">" ++ nl
        ++ lit "    <p class=" ++ quoted "title" ++ lit ">Sin título</p>" ++ nl
        ++ lit "    <p class=" ++ quoted "company" ++ lit ">Sin empresa</p>" ++ nl
        ++ lit "    <p><strong>Razón:</strong> </p>" ++ nl
        ++ lit "    <p><a class=" ++ quoted "link" ++ lit " href=" ++ quoted "#"
        ++ lit ">Ver oferta completa</a></p>" ++ nl
        ++ lit "</div>" ++ nl).
Proof.
  destruct (@render_offer_placeholders Reference.lib [(lit "id", JStr (lit "offer-7"))])
    as (Hrender & _).
  destruct Hrender as (Hrender & _); try by left.
  rewrite Hrender. vm_compute. reflexivity.
Defined.

(** A match without a title whose employer is [None], evaluated: the
    record is missing a field, yet [html.escape] raises on the employer, so
    the rendering fails and nothing is written. *)
Lemma null_employer_without_title_fails :
  let offer := JDict [(lit "employer", JNull)] in
  py_get offer (lit "title") (JStr (lit "Sin título")) = Ok (JStr (lit "Sin título"))
  ∧ @render_offer Reference.lib offer = Raise AttributeError
  ∧ @generate_html Reference.lib [Reference.match_record 1; offer] Reference.empty_world
    = (Raise AttributeError, Reference.empty_world).
Proof. vm_compute. repeat split; reflexivity. Qed.

(** The block of a match without any of the four fields, and of a match
    whose title needs escaping, as the reference [dedent] lays them out. *)
Example rendered_placeholders :
  @render_offer Reference.lib (JDict [])
  = Ok (nl
        ++ lit "<div class=" ++ quoted "offer" ++ lit ">" ++ nl
        ++ lit "    <p class=" ++ quoted "title" ++ lit ">Sin título</p>" ++ nl
        ++ lit "    <p class=" ++ quoted "company" ++ lit ">Sin empresa</p>" ++ nl
        ++ lit "    <p><strong>Razón:</strong> </p>" ++ nl
        ++ lit "    <p><a class=" ++ quoted "link" ++ lit " href=" ++ quoted "#"
        ++ lit ">Ver oferta completa</a></p>" ++ nl
        ++ lit "</div>" ++ nl).
Proof. vm_compute. reflexivity. Qed.

(** A field that is there but is not a text stops the rendering. *)
Example null_title_fails :
  @render_offer Reference.lib (JDict [(lit "title", JNull)]) = Raise AttributeError.
Proof. reflexivity. Qed.

(** * The whole run *)

(** The end-to-end scenario of the specification, evaluated: two pages of
    three postings, batches of five; the first batch yields two matches, the
    second none. The run writes the two matches to the result artifact and
    renders the digest. *)
Example end_to_end :
  let script := [Reference.selects [2; 4]; Reference.selects []] in
  let '(r, w) := @main (Reference.both_services 2 script) Reference.lib
                   Reference.batches_of_five Reference.default_fetcher
                   Reference.sample_analyzer Reference.empty_world in
  r = Ok ()
  ∧ requests_in (trace w) = [page_params 7 1; page_params 7 2]
  ∧ length (prompts_in (trace w)) = 2%nat
  ∧ fst <$> writes_in (trace w) = [JSON_PATH; HTML_PATH]
  ∧ files w !! JSON_PATH
    = Some (Reference.dumps artifact_options
              (JList [Reference.match_record 2; Reference.match_record 4])).
Proof. vm_compute. repeat split; reflexivity. Qed.

(** * Further properties of the Transport *)

Section TransportRuns.
Context `{Env}.
Variable client : HttpClient.
Variable params : json.

Lemma after_retries_step (w : world) (backoff : Qc) (k : nat) :
  after_retries params (log (EvSleep backoff) (sent params w)) (backoff * 2)%Qc (S k)
  = after_retries params w backoff (S (S k)).
Proof.
  unfold after_retries. rewrite retry_trace_S. simpl.
  rewrite <- !app_assoc. simpl. f_equal. lia.
Qed.

Lemma after_retries_one (w : world) (backoff : Qc) :
  after_retries params w backoff 1 = sent params w.
Proof. unfold after_retries, sent, retry_trace. simpl. f_equal. lia. Qed.

Lemma after_retries_zero (w : world) (backoff : Qc) : after_retries params w backoff 0 = w.
Proof.
  unfold after_retries, retry_trace. simpl. rewrite app_nil_r, Nat.add_0_r. by destruct w.
Qed.

(** Whatever the service answers, the effects of the loop are some number
    of requests with the doubling sleeps between them. *)
Lemma get_json_loop_shape (m : nat) : ∀ (a : Z) (backoff : Qc) (w : world),
  a + Z.of_nat m = max_retries client + 1 →
  ∃ k, (k ≤ m)%nat ∧ (1 ≤ m → 1 ≤ k)%nat
    ∧ (get_json_loop client params ((λ j : nat, a + Z.of_nat j) <$> seq 0 m) backoff w).2
      = after_retries params w backoff k.
Proof.
  induction m as [|m IH]; intros a backoff w Ha.
  - exists 0%nat. rewrite after_retries_zero. repeat split; [lia|done].
  - simpl. rewrite fmap_seq_shift, Z.add_0_r.
    unfold bind at 1. unfold session_get at 1. fold (sent params w).
    assert (∃ k, (k ≤ S m)%nat ∧ (1 ≤ S m → 1 ≤ k)%nat
              ∧ (a < max_retries client →
                 (bind (sleep backoff) (λ _,
                   get_json_loop client params ((λ j : nat, a + Z.of_nat (S j)) <$> seq 0 m)
                     (backoff * 2)%Qc) (sent params w)).2
                 = after_retries params w backoff k)) as (k & Hk & Hk1 & Hretry).
    { unfold bind, sleep. destruct (decide (backoff < 0)%Qc).
      - exists 1%nat. rewrite after_retries_one. repeat split; lia || done.
      - erewrite (list_fmap_ext _ (λ j : nat, (a + 1) + Z.of_nat j)); [|intros; lia].
        destruct (IH (a + 1) (backoff * 2)%Qc (log (EvSleep backoff) (sent params w)))
          as (k & Hk & Hk1 & Hshape); [lia|].
        destruct (Z_lt_ge_dec a (max_retries client)) as [Hlt|Hge].
        + destruct k as [|k]; [lia|]. exists (S (S k)).
          repeat split; try lia. intros _.
          destruct (get_json_loop _ _ _ _ _) as [r w'] eqn:Hrun. destruct r; simpl in *.
          * by rewrite Hshape, after_retries_step.
          * by rewrite Hshape, after_retries_step.
        + exists 1%nat. repeat split; try lia. }
    assert (∃ k, (k ≤ S m)%nat ∧ (1 ≤ S m → 1 ≤ k)%nat
              ∧ sent params w = after_retries params w backoff k) as Hstop.
    { exists 1%nat. rewrite after_retries_one. repeat split; lia. }
    destruct (server (gets w) params) as [resp| | |e]; simpl.
    + destruct (retry_status (status_code resp)); simpl.
      * destruct (Z.ltb_spec a (max_retries client)).
        -- exists k. repeat split; try done. by apply Hretry.
        -- destruct (negb (resp_ok resp)); exact Hstop.
      * destruct (negb (resp_ok resp)); exact Hstop.
    + destruct (Z.ltb_spec a (max_retries client)).
      * exists k. repeat split; try done. by apply Hretry.
      * exact Hstop.
    + destruct (Z.ltb_spec a (max_retries client)).
      * exists k. repeat split; try done. by apply Hretry.
      * exact Hstop.
    + exact Hstop.
Qed.

Lemma get_json_loop_recovers (k : nat) :
  ∀ (m : nat) (a : Z) (backoff : Qc) (w : world) (r : result json),
  a + Z.of_nat m = max_retries client + 1 →
  (k < m)%nat →
  (0 ≤ backoff)%Qc →
  (∀ i, (i < k)%nat → retryable_failure (server (gets w + i) params) = true) →
  final_result (server (gets w + k) params) = Some r →
  get_json_loop client params ((λ j : nat, a + Z.of_nat j) <$> seq 0 m) backoff w
  = (r, after_retries params w backoff (S k)).
Proof.
  induction k as [|k IH]; intros m a backoff w r Ha Hkm Hb Hfail Hfinal.
  - destruct m as [|m]; [lia|]. simpl.
    unfold bind at 1. unfold session_get at 1. fold (sent params w).
    rewrite Nat.add_0_r in Hfinal. rewrite after_retries_one.
    destruct (server (gets w) params) as [resp| | |e]; simpl in *; try done.
    + destruct (retry_status (status_code resp)); [done|]. simpl.
      injection Hfinal as <-. by destruct (resp_ok resp).
    + by injection Hfinal as <-.
  - destruct m as [|m]; [lia|]. simpl. rewrite fmap_seq_shift, Z.add_0_r.
    unfold bind at 1. unfold session_get at 1. fold (sent params w).
    pose proof (Hfail 0%nat ltac:(lia)) as Hfirst. rewrite Nat.add_0_r in Hfirst.
    assert (bind (sleep backoff) (λ _,
             get_json_loop client params ((λ j : nat, a + Z.of_nat (S j)) <$> seq 0 m)
               (backoff * 2)%Qc) (sent params w)
            = (r, after_retries params w backoff (S (S k)))) as Hretry.
    { unfold bind, sleep. rewrite decide_False by (by apply Qcle_not_lt).
      erewrite (list_fmap_ext _ (λ j : nat, (a + 1) + Z.of_nat j)); [|intros; lia].
      rewrite (IH m (a + 1) (backoff * 2)%Qc _ r); try lia.
      - by rewrite after_retries_step.
      - by apply Qc_double_nonneg.
      - intros i Hi. simpl. specialize (Hfail (S i) ltac:(lia)).
        by replace (gets w + S i)%nat with (S (gets w + i)) in Hfail by lia.
      - simpl. by replace (S (gets w + k)) with (gets w + S k)%nat by lia. }
    assert ((a <? max_retries client) = true) as Hlt by (apply Z.ltb_lt; lia).
    destruct (server (gets w) params) as [resp| | |e]; simpl in *; try done.
    + by rewrite Hfirst, Hlt.
    + by rewrite Hlt.
    + by rewrite Hlt.
Qed.

End TransportRuns.

(** The effects of a call, whatever the service answers. *)
Lemma get_json_shape `{Env} (client : HttpClient) (params : json) (w : world) :
  ∃ k, (k ≤ Z.to_nat (max_retries client))%nat
    ∧ (1 ≤ max_retries client → (1 ≤ k)%nat)
    ∧ (get_json client params w).2 = after_retries params w (backoff_seconds client) k.
Proof.
  unfold get_json.
  rewrite (bind_lift_ok _ _ _ _ (py_range_step_1 _ _)).
  replace (max_retries client + 1 - 1) with (max_retries client) by lia.
  destruct (Z_le_gt_dec (max_retries client) 0).
  - exists 0%nat. replace (Z.to_nat (max_retries client)) with 0%nat by lia.
    rewrite after_retries_zero. repeat split; lia || done.
  - destruct (get_json_loop_shape client params (Z.to_nat (max_retries client)) 1
                (backoff_seconds client) w) as (k & Hk & Hk1 & Hshape); [lia|].
    exists k. repeat split; lia || done.
Qed.

(** X1. For every answer of the service and every configuration, the
    effects of a [get_json] call are [k] requests of the same query with
    [k - 1] sleeps between them, the sleep after request [i] lasting
    [backoff_seconds * 2 ^ i]: never more than [max_retries] requests, at
    least one when [max_retries] is positive, and no other effect. *)
Theorem get_json_effects `{Env} (client : HttpClient) (params : json) (w : world) :
  ∃ k new,
    (k ≤ Z.to_nat (max_retries client))%nat
    ∧ (1 ≤ max_retries client → (1 ≤ k)%nat)
    ∧ trace (get_json client params w).2 = trace w ++ new
    ∧ new = retry_trace params (backoff_seconds client) k
    ∧ requests_in new = replicate k params
    ∧ sleeps_in new = (λ i, backoff_seconds client * 2 ^ i)%Qc <$> seq 0 (k - 1)
    ∧ gets (get_json client params w).2 = (gets w + k)%nat
    ∧ files (get_json client params w).2 = files w.
Proof.
  destruct (get_json_shape client params w) as (k & Hk & Hk1 & Hshape).
  exists k, (retry_trace params (backoff_seconds client) k).
  rewrite Hshape. simpl.
  rewrite requests_in_retry_trace, sleeps_in_retry_trace. repeat split; done.
Qed.

(** X2. When the first [k] attempts of a [get_json] call fail in a way
    that is retried ([k] below [max_retries], the initial delay not
    negative) and the next attempt does not (a status outside the five
    retried ones, or an exception other than a timeout or a connection
    error), the call ends with that attempt: it returns the body of a
    successful response, raises [HttpError] on an error status and lets the
    other exception through, after exactly [k + 1] requests and [k] sleeps
    of [backoff_seconds * 2 ^ i]. *)
Theorem get_json_recovers `{Env} (client : HttpClient) (params : json) (w : world)
    (k : nat) (r : result json) :
  (Z.of_nat k < max_retries client) →
  (0 ≤ backoff_seconds client)%Qc →
  (∀ i, (i < k)%nat → retryable_failure (server (gets w + i) params) = true) →
  final_result (server (gets w + k) params) = Some r →
  get_json client params w = (r, after_retries params w (backoff_seconds client) (S k))
  ∧ requests_in (retry_trace params (backoff_seconds client) (S k)) = replicate (S k) params
  ∧ sleeps_in (retry_trace params (backoff_seconds client) (S k))
    = (λ i, backoff_seconds client * 2 ^ i)%Qc <$> seq 0 k.
Proof.
  intros Hk Hb Hfail Hfinal. split.
  - unfold get_json.
    rewrite (bind_lift_ok _ _ _ _ (py_range_step_1 _ _)).
    replace (max_retries client + 1 - 1) with (max_retries client) by lia.
    apply get_json_loop_recovers; try done; lia.
  - rewrite requests_in_retry_trace, sleeps_in_retry_trace.
    by replace (S k - 1)%nat with k by lia.
Qed.

(** On a service that answers 503 twice and then the page, the default
    client returns the page at the third request. *)
Lemma get_json_recovers_witness :
  @get_json (Reference.recovering_service 2 1) Reference.default_client
    (page_params 7 1) Reference.empty_world
  = (Ok (Reference.page_envelope 1 1),
     after_retries (page_params 7 1) Reference.empty_world 1 3)
  ∧ requests_in (retry_trace (page_params 7 1) 1 3) = replicate 3 (page_params 7 1)
  ∧ sleeps_in (retry_trace (page_params 7 1) 1 3) = (λ i, 1 * 2 ^ i)%Qc <$> seq 0 2.
Proof.
  apply (@get_json_recovers (Reference.recovering_service 2 1) Reference.default_client
           (page_params 7 1) Reference.empty_world 2).
  - simpl. lia.
  - done.
  - intros i Hi. simpl. destruct i as [|[|i]]; [done|done|lia].
  - reflexivity.
Defined.

Lemma lstrip_chars_split (s chars : pystr) :
  ∃ a, s = a ++ lstrip_chars s chars ∧ Forall (λ c, c ∈ chars) a
       ∧ ∀ c, head (lstrip_chars s chars) = Some c → c ∉ chars.
Proof.
  induction s as [|c s (a & Hs & Ha & Hhead)].
  - exists []. split; [done|]. split; [constructor|]. by intros c.
  - simpl. case_bool_decide as Hc.
    + exists (c :: a). split; [by rewrite Hs at 1|]. split; [by constructor|done].
    + exists []. split; [done|]. split; [constructor|]. by intros d [= <-].
Qed.

(** X3. The base URL that the client keeps is the given one without its
    trailing slashes: the given text is the kept one followed by slashes
    only, the kept one does not end with a slash, a text that does not end
    with a slash is kept as it is, and normalising twice changes nothing. *)
Theorem base_url_no_trailing_slash (given : pystr) :
  ∃ k : nat,
    given = base_url given ++ replicate k 47%N
    ∧ last (base_url given) ≠ Some 47%N
    ∧ (last given ≠ Some 47%N → base_url given = given)
    ∧ base_url (base_url given) = base_url given.
Proof.
  unfold base_url, rstrip_chars.
  destruct (lstrip_chars_split (reverse given) (lit "/")) as (a & Hs & Ha & Hhead).
  assert (a = replicate (length a) 47%N) as Hslashes.
  { clear Hs. induction Ha as [|c a Hc _ IH]; [done|]. simpl. rewrite <- IH.
    by apply list_elem_of_singleton in Hc as ->. }
  assert (last (reverse (lstrip_chars (reverse given) (lit "/"))) ≠ Some 47%N) as Hlast.
  { rewrite <- head_reverse, reverse_involutive. intros Hh. apply Hhead in Hh.
    apply Hh, list_elem_of_here. }
  exists (length a). split; [|split; [done|split]].
  - rewrite <- (reverse_involutive given) at 1. rewrite Hs at 1.
    rewrite reverse_app. f_equal. rewrite Hslashes at 1. by rewrite reverse_replicate.
  - intros Hgiven. rewrite <- head_reverse in Hgiven.
    destruct (reverse given) as [|c r] eqn:Hr.
    + by rewrite <- (reverse_involutive given), Hr.
    + simpl. rewrite bool_decide_eq_false_2.
      * by rewrite <- Hr, reverse_involutive.
      * intros ->%list_elem_of_singleton. by apply Hgiven.
  - rewrite reverse_involutive.
    destruct (lstrip_chars (reverse given) (lit "/")) as [|c r] eqn:Hr; [done|].
    simpl. rewrite bool_decide_eq_false_2; [done|]. by apply Hhead.
Qed.

(** * Further properties of the Paginator *)

Section PageValidation.
Context `{Env} `{PyLib}.
Variable self : JobOffersFetcher.
Variable days : Z.

Lemma require_keys_dict (kvs : list (pystr * json)) (keys : list pystr) :
  require_keys keys (JDict kvs)
  = if forallb (λ key, bool_decide (is_Some (dict_lookup kvs key))) keys
    then Ok () else Raise ValueError.
Proof.
  induction keys as [|key keys IH]; [done|]. simpl.
  by destruct (bool_decide (is_Some (dict_lookup kvs key))).
Qed.

Lemma require_keys_raises (keys : list pystr) (data : json) :
  is_dict data = false →
  keys ≠ [] →
  require_keys keys data = Raise ValueError ∨ require_keys keys data = Raise TypeError
  ∨ (require_keys keys data = Ok () ∧ ∀ key, py_subscript data key = Raise TypeError).
Proof.
  intros Hd Hne. destruct data as [| | |s|l|kvs]; try done;
    try (destruct keys; [done|]; by right; left).
  - induction keys as [|key keys IH]; [done|]. simpl.
    destruct (is_substring key s); [|by left].
    destruct keys as [|key' keys]; [by right; right|]. by apply IH.
  - induction keys as [|key keys IH]; [done|]. simpl.
    destruct (existsb _ l); [|by left].
    destruct keys as [|key' keys]; [by right; right|]. by apply IH.
Qed.

End PageValidation.

(** X4. Whatever the service answers, a page that [fetch_page] returns is
    the body that [get_json] returned, with the effects of that call only,
    and it is a record that has the four keys [results], [total],
    [totalPages] and [page], with a list under [results]. *)
Theorem fetch_page_validated `{Env} (self : JobOffersFetcher) (days page : Z)
    (w w' : world) (data : json) :
  fetch_page self days page w = (Ok data, w') →
  get_json (http self) (page_params days page) w = (Ok data, w')
  ∧ ∃ kvs items,
      data = JDict kvs
      ∧ dict_lookup kvs (lit "results") = Some (JList items)
      ∧ is_Some (dict_lookup kvs (lit "total"))
      ∧ is_Some (dict_lookup kvs (lit "totalPages"))
      ∧ is_Some (dict_lookup kvs (lit "page")).
Proof.
  unfold fetch_page. fold (page_params days page). fold page_keys.
  unfold bind at 1.
  destruct (get_json (http self) (page_params days page) w) as [[body|e] w1]; [|done].
  destruct (is_dict body) eqn:Hd.
  - destruct body as [| | | | |kvs]; try done.
    unfold bind, lift. rewrite require_keys_dict.
    destruct (forallb _ page_keys) eqn:Hkeys; [|done].
    unfold py_subscript.
    unfold page_keys in Hkeys. simpl in Hkeys.
    repeat (apply andb_true_iff in Hkeys as [?%bool_decide_eq_true Hkeys]).
    match goal with Hr : is_Some (dict_lookup kvs (lit "results")) |- _ =>
      destruct Hr as [rs Hresults] end.
    rewrite Hresults.
    destruct rs as [| | | |items|]; try done.
    intros [= <- <-]. split; [done|]. by exists kvs, items.
  - unfold bind, lift.
    destruct (require_keys_raises page_keys body Hd) as [-> | [-> | [-> Hsub]]]; try done.
    by rewrite Hsub.
Qed.

(** The first page of a listing of two pages. *)
Lemma fetch_page_validated_witness :
  @get_json (Reference.listing_service 2) Reference.default_client (page_params 7 1)
    Reference.empty_world
  = (Ok (Reference.page_envelope 2 1), sent (page_params 7 1) Reference.empty_world)
  ∧ ∃ kvs items,
      Reference.page_envelope 2 1 = JDict kvs
      ∧ dict_lookup kvs (lit "results") = Some (JList items)
      ∧ is_Some (dict_lookup kvs (lit "total"))
      ∧ is_Some (dict_lookup kvs (lit "totalPages"))
      ∧ is_Some (dict_lookup kvs (lit "page")).
Proof.
  apply (@fetch_page_validated (Reference.listing_service 2) Reference.default_fetcher
           7 1 Reference.empty_world).
  vm_compute. reflexivity.
Defined.


(** X5. [fetch_page] lets an exception of [get_json] through; on a body
    that is a record it raises [ValueError] when one of the four keys is
    missing and [TypeError] when all are there but [results] is not a list;
    a body that is not a record is always refused, with one of these two
    exceptions. In every case the effects are those of [get_json]. *)
Theorem fetch_page_rejects `{Env} (self : JobOffersFetcher) (days page : Z)
    (w w' : world) (r : result json) :
  get_json (http self) (page_params days page) w = (r, w') →
  (∀ e, r = Raise e → fetch_page self days page w = (Raise e, w'))
  ∧ (∀ kvs key, r = Ok (JDict kvs) → key ∈ page_keys → dict_lookup kvs key = None →
       fetch_page self days page w = (Raise ValueError, w'))
  ∧ (∀ kvs v, r = Ok (JDict kvs) →
       (∀ key, key ∈ page_keys → is_Some (dict_lookup kvs key)) →
       dict_lookup kvs (lit "results") = Some v → is_list v = false →
       fetch_page self days page w = (Raise TypeError, w'))
  ∧ (∀ data, r = Ok data → is_dict data = false →
       fetch_page self days page w = (Raise ValueError, w')
       ∨ fetch_page self days page w = (Raise TypeError, w')).
Proof.
  intros Hget.
  assert (fetch_page self days page w
          = match r with
            | Ok data =>
              (let! _ := lift (require_keys page_keys data) in
               let! results := lift (py_subscript data (lit "results")) in
               if is_list results then ret data else raise TypeError) w'
            | Raise e => (Raise e, w')
            end) as ->.
  { unfold fetch_page. fold (page_params days page). fold page_keys.
    unfold bind at 1. by rewrite Hget. }
  repeat split.
  - by intros e ->.
  - intros kvs key -> Hkey Hnone. unfold bind, lift. cbv beta iota. rewrite require_keys_dict.
    destruct (forallb _ page_keys) eqn:Hkeys; [|done].
    apply forallb_forall with (x := key) in Hkeys; [|by apply list_elem_of_In].
    apply bool_decide_eq_true in Hkeys. rewrite Hnone in Hkeys. by destruct Hkeys.
  - intros kvs v -> Hkeys Hresults Hlist. unfold bind, lift. cbv beta iota. rewrite require_keys_dict.
    destruct (forallb _ page_keys) eqn:Hall.
    + unfold py_subscript. rewrite Hresults. by rewrite Hlist.
    + apply not_true_iff_false in Hall. destruct Hall. apply forallb_forall.
      intros key Hkey%list_elem_of_In. by apply bool_decide_eq_true, Hkeys.
  - intros data -> Hd. unfold bind, lift. cbv beta iota.
    destruct (require_keys_raises page_keys data Hd) as [-> | [-> | [-> Hsub]]];
      [done|by left|by right|]. rewrite Hsub. by right.
Qed.

(** The exhausted retries of a service that answers 503 come through. *)
Lemma fetch_page_rejects_witness :
  @fetch_page Reference.always_503 Reference.default_fetcher 7 1 Reference.empty_world
  = (Raise HttpError, after_retries (page_params 7 1) Reference.empty_world 1 3).
Proof.
  destruct (@fetch_page_rejects Reference.always_503 Reference.default_fetcher 7 1
              Reference.empty_world
              (after_retries (page_params 7 1) Reference.empty_world 1 3)
              (Raise HttpError)) as (Hraise & _).
  - vm_compute. reflexivity.
  - by apply Hraise.
Defined.
Section PagedRun.
Context `{Env} `{PyLib}.
Variable self : JobOffersFetcher.
Variable days : Z.
Variable respect_rate_limit : bool.
Hypothesis one_attempt : 1 ≤ max_retries (http self).

Lemma add_batch_non_record (items : list pyobj) :
  ∀ (seen : gset pystr) (consolidated : list json),
  Exists (λ it, is_dict it.2 = false) items →
  add_batch items seen consolidated = Raise AttributeError.
Proof.
  induction items as [|it items IH]; intros seen consolidated Hex.
  - by apply Exists_nil in Hex.
  - simpl. destruct it as [addr v]. destruct (is_dict v) eqn:Hd.
    + apply Exists_cons in Hex as [Hit|Hex]; [simpl in Hit; congruence|].
      destruct v as [| | | | |kvs]; try done. rewrite dedupe_key_dict. simpl.
      case_bool_decide; by apply IH.
    + by destruct v.
Qed.

Lemma valid_page_served (n : nat) (params : json) (items : list json) (tpv : json) :
  valid_page (server n params) items tpv → served n params = items.
Proof.
  intros (status & kvs & Hout & _ & _ & Hres & _). unfold served.
  rewrite Hout. cbn [resp_json]. by rewrite Hres.
Qed.

Lemma pacing_run (w : world) :
  (if respect_rate_limit && bool_decide (0 < sleep_between_pages self)%Qc
   then sleep (sleep_between_pages self) else ret ()) w
  = (Ok (), fetched w (pacing self respect_rate_limit) 0).
Proof.
  unfold pacing, fetched.
  destruct (respect_rate_limit && bool_decide (0 < sleep_between_pages self)%Qc) eqn:Hp.
  - apply andb_true_iff in Hp as [_ Hpos%bool_decide_eq_true].
    unfold sleep. rewrite decide_False; [|by apply Qcle_not_lt, Qclt_le_weak].
    unfold log. by rewrite Nat.add_0_r.
  - unfold ret. rewrite app_nil_r, Nat.add_0_r. by destruct w.
Qed.

Lemma remaining_pages_run (pages : list Z) :
  ∀ (seen : gset pystr) (consolidated : list json) (w : world),
  answers_pages days (gets w) pages →
  remaining_pages self days respect_rate_limit pages seen consolidated w
  = (Ok (list_to_set (key_text <$> listing days (gets w) pages) ∪ seen,
         consolidated
         ++ (snd <$> first_occurrences key_text seen (listing days (gets w) pages))),
     fetched w (paged_trace self days respect_rate_limit pages) (length pages)).
Proof using one_attempt.
  induction pages as [|p pages IH]; intros seen consolidated w Hans.
  - simpl. unfold ret, fetched, paged_trace. simpl.
    rewrite !app_nil_r, Nat.add_0_r, (left_id_L ∅ (∪)). by destruct w.
  - simpl. rewrite (bind_ok _ _ _ _ _ (pacing_run w)).
    destruct (Hans 0%nat p eq_refl) as (items & tpv & Hvalid).
    rewrite Nat.add_0_r in Hvalid.
    rewrite (valid_page_served _ _ _ _ Hvalid).
    destruct (fetch_page_valid self days one_attempt p
                (fetched w (pacing self respect_rate_limit) 0) items tpv)
      as (data & Hfetch & Hitems & _ & _).
    { simpl. by rewrite Nat.add_0_r. }
    rewrite (bind_ok _ _ _ _ _ Hfetch), (bind_lift_ok _ _ _ _ Hitems).
    erewrite bind_lift_ok; [|by apply add_batch_first_occurrences, page_items_dicts;
                             destruct Hvalid as (?&?&?&?&?&?&?&?&?&?)].
    cbv beta iota. rewrite IH.
    + simpl. rewrite Nat.add_0_r. rewrite first_occurrences_app, !fmap_app.
      rewrite list_to_set_app_L, <- !app_assoc. f_equal; [f_equal; f_equal; set_solver|].
      unfold fetched, paged_trace. simpl. rewrite <- !app_assoc. simpl.
      f_equal. lia.
    + intros i q Hq. simpl. rewrite Nat.add_0_r.
      specialize (Hans (S i) q Hq). by rewrite Nat.add_succ_r in Hans.
Qed.

End PagedRun.
Section WholeRun.
Context `{Env} `{PyLib}.
Variable self : JobOffersFetcher.
Variable days : Z.
Variable max_pages : option Z.
Variable respect_rate_limit : bool.
Hypothesis one_attempt : 1 ≤ max_retries (http self).

Lemma get_all_offers_run (w : world) (total_pages : Z) :
  (∃ items tpv, valid_page (server (gets w) (page_params days 1)) items tpv
                ∧ py_int tpv = Ok total_pages) →
  answers_pages days (S (gets w)) (later_pages total_pages max_pages) →
  ∃ total,
    get_all_offers self days max_pages respect_rate_limit w
    = (Ok (snd <$> first_occurrences key_text ∅
                     (listing days (gets w) (1 :: later_pages total_pages max_pages)),
           {| total_reported := total;
              pages_traversed := page_limit total_pages max_pages;
              total_pages_api := total_pages;
              items_consolidated :=
                Z.of_nat (length (first_occurrences key_text ∅
                  (listing days (gets w) (1 :: later_pages total_pages max_pages))));
              days_param := days |}),
       fetched w (EvGet (page_params days 1)
                  :: paged_trace self days respect_rate_limit
                       (later_pages total_pages max_pages))
         (S (length (later_pages total_pages max_pages)))).
Proof using one_attempt.
  intros (items & tpv & Hvalid & Htp) Hans.
  destruct (fetch_page_valid self days one_attempt 1 w items tpv Hvalid)
    as (first & Hfetch & Hitems & Hget & Htotal).
  destruct (py_get first (lit "total") JNull) as [total|] eqn:Ht; [|done].
  exists total. unfold get_all_offers.
  rewrite (bind_ok _ _ _ _ _ Hfetch).
  rewrite (bind_lift_ok _ _ _ _ Hget), (bind_lift_ok _ _ _ _ Htp).
  rewrite (bind_lift_ok _ _ _ _ Hitems).
  erewrite bind_lift_ok; [|by apply add_batch_first_occurrences, page_items_dicts;
                           destruct Hvalid as (?&?&?&?&?&?&?&?&?&?)].
  cbv beta iota. rewrite (bind_lift_ok _ _ _ _ (py_range_seqZ _ _)).
  fold (page_limit total_pages max_pages).
  replace (page_limit total_pages max_pages + 1 - 2)
    with (page_limit total_pages max_pages - 1) by lia.
  fold (later_pages total_pages max_pages).
  unfold bind at 1. rewrite (remaining_pages_run self days respect_rate_limit one_attempt).
  2:{ exact Hans. }
  cbv beta iota. rewrite (bind_lift_ok _ _ _ _ Ht). unfold ret.
  simpl listing. rewrite (valid_page_served _ _ _ _ Hvalid).
  rewrite first_occurrences_app, fmap_app. simpl gets.
  rewrite (right_id_L ∅ (∪)), !app_nil_l, !length_app, !length_fmap. f_equal.
  unfold fetched, sent. simpl. rewrite <- app_assoc. f_equal. lia.
Qed.

End WholeRun.

Lemma sleeps_in_app (t1 t2 : list event) : sleeps_in (t1 ++ t2) = sleeps_in t1 ++ sleeps_in t2.
Proof. apply omap_app. Qed.

Lemma paged_trace_cons (self : JobOffersFetcher) (days : Z) (respect_rate_limit : bool)
    (p : Z) (pages : list Z) :
  paged_trace self days respect_rate_limit (p :: pages)
  = pacing self respect_rate_limit ++ [EvGet (page_params days p)]
    ++ paged_trace self days respect_rate_limit pages.
Proof. unfold paged_trace. simpl. by rewrite <- app_assoc. Qed.

Lemma requests_in_paged_trace (self : JobOffersFetcher) (days : Z) (respect_rate_limit : bool)
    (pages : list Z) :
  requests_in (paged_trace self days respect_rate_limit pages) = page_params days <$> pages.
Proof.
  induction pages as [|p pages IH]; [done|].
  rewrite paged_trace_cons, !requests_in_app, IH. unfold pacing.
  by destruct (respect_rate_limit && _).
Qed.

Lemma sleeps_in_paged_trace (self : JobOffersFetcher) (days : Z) (respect_rate_limit : bool)
    (pages : list Z) :
  sleeps_in (paged_trace self days respect_rate_limit pages)
  = if respect_rate_limit && bool_decide (0 < sleep_between_pages self)%Qc
    then replicate (length pages) (sleep_between_pages self) else [].
Proof.
  induction pages as [|p pages IH].
  - by destruct (respect_rate_limit && _).
  - rewrite paged_trace_cons, !sleeps_in_app, IH. unfold pacing.
    by destruct (respect_rate_limit && _).
Qed.

Lemma listing_service_answers (total_pages days : Z) (n : nat) (pages : list Z) :
  @answers_pages (Reference.listing_service total_pages) days n pages.
Proof. intros i p _. apply listing_service_healthy. Qed.

Lemma overlapping_service_valid (total_pages : Z) (n : nat) (params : json) :
  valid_page (@server (Reference.overlapping_service total_pages) n params)
    [Reference.posting (Reference.page_of params);
     Reference.posting (Reference.page_of params + 1);
     Reference.posting (Reference.page_of params + 2)] (JInt total_pages).
Proof.
  eexists 200, _. split; [reflexivity|]. repeat split; try by eexists.
  by repeat constructor.
Qed.

(** X6. When page 1 and the later pages are answered by well-formed
    pages, a run returns the items of the traversed pages, in the order of
    the pages and of their results, with first occurrence wins across the
    pages: an item is dropped exactly when an earlier item, of the same or
    of an earlier page, has its key. So no two returned offers share a key,
    every served item has its key among the returned ones, and
    [items_consolidated] is the number of returned offers. This holds with
    and without a page limit. *)
Theorem get_all_offers_consolidates `{Env} `{PyLib} (self : JobOffersFetcher) (days : Z)
    (max_pages : option Z) (respect_rate_limit : bool) (w : world) (total_pages : Z) :
  1 ≤ max_retries (http self) →
  (∃ items tpv, valid_page (server (gets w) (page_params days 1)) items tpv
                ∧ py_int tpv = Ok total_pages) →
  answers_pages days (S (gets w)) (later_pages total_pages max_pages) →
  ∃ kept meta w',
    kept = first_occurrences key_text ∅
             (listing days (gets w) (1 :: later_pages total_pages max_pages))
    ∧ get_all_offers self days max_pages respect_rate_limit w = (Ok (kept.*2, meta), w')
    ∧ kept `sublist_of` listing days (gets w) (1 :: later_pages total_pages max_pages)
    ∧ NoDup (key_text <$> kept)
    ∧ (∀ it, it ∈ listing days (gets w) (1 :: later_pages total_pages max_pages) →
             ∃ first, first ∈ kept ∧ key_text first = key_text it)
    ∧ items_consolidated meta = Z.of_nat (length kept.*2)
    ∧ pages_traversed meta = page_limit total_pages max_pages
    ∧ total_pages_api meta = total_pages
    ∧ days_param meta = days.
Proof.
  intros Hone Hfirst Hans.
  destruct (get_all_offers_run self days max_pages respect_rate_limit Hone w total_pages
              Hfirst Hans) as (total & Hrun).
  eexists _, _, _. split; [reflexivity|]. split; [exact Hrun|].
  split; [apply first_occurrences_sublist|]. split; [apply first_occurrences_NoDup|].
  split; [|by rewrite length_fmap].
  intros it Hit. apply first_occurrences_covers; [done|set_solver].
Qed.

(** Two overlapping pages: the postings 1, 2, 3 and 2, 3, 4. *)
Lemma get_all_offers_consolidates_witness :
  ∃ meta w',
    @get_all_offers (Reference.overlapping_service 2) Reference.lib Reference.default_fetcher
      7 None true Reference.empty_world
    = (Ok (Reference.posting <$> [1; 2; 3; 4], meta), w')
    ∧ items_consolidated meta = 4.
Proof.
  destruct (@get_all_offers_consolidates (Reference.overlapping_service 2) Reference.lib
              Reference.default_fetcher 7 None true Reference.empty_world 2)
    as (kept & meta & w' & Hkept & Hrun & _ & _ & _ & Hcount & _).
  - vm_compute. discriminate.
  - eexists _, (JInt 2). split; [apply overlapping_service_valid|reflexivity].
  - intros i p _. eexists _, _. apply overlapping_service_valid.
  - exists meta, w'. rewrite Hrun, Hcount, Hkept. vm_compute. split; reflexivity.
Defined.

(** X7. On well-formed pages the events of a run are the request of page
    1 and then, for each later page in increasing order, a sleep of
    [sleep_between_pages] followed by the request of the page; the sleep is
    there only when rate limiting is asked for and the delay is positive,
    and never before page 1. The run writes no file and makes no inference
    call. *)
Theorem get_all_offers_pacing `{Env} `{PyLib} (self : JobOffersFetcher) (days : Z)
    (max_pages : option Z) (respect_rate_limit : bool) (w : world) (total_pages : Z) :
  1 ≤ max_retries (http self) →
  (∃ items tpv, valid_page (server (gets w) (page_params days 1)) items tpv
                ∧ py_int tpv = Ok total_pages) →
  answers_pages days (S (gets w)) (later_pages total_pages max_pages) →
  ∃ r w' new,
    get_all_offers self days max_pages respect_rate_limit w = (Ok r, w')
    ∧ trace w' = trace w ++ new
    ∧ new = EvGet (page_params days 1)
            :: mjoin ((λ p, pacing self respect_rate_limit ++ [EvGet (page_params days p)])
                      <$> later_pages total_pages max_pages)
    ∧ requests_in new = page_params days <$> (1 :: later_pages total_pages max_pages)
    ∧ sleeps_in new
      = (if respect_rate_limit && bool_decide (0 < sleep_between_pages self)%Qc
         then replicate (Z.to_nat (page_limit total_pages max_pages - 1))
                (sleep_between_pages self)
         else [])
    ∧ files w' = files w
    ∧ generates w' = generates w.
Proof.
  intros Hone Hfirst Hans.
  destruct (get_all_offers_run self days max_pages respect_rate_limit Hone w total_pages
              Hfirst Hans) as (total & Hrun).
  eexists _, _, _. split; [exact Hrun|]. split; [reflexivity|]. split; [reflexivity|].
  fold (paged_trace self days respect_rate_limit (later_pages total_pages max_pages)).
  split; [|split; [|done]].
  - simpl. by rewrite requests_in_paged_trace.
  - simpl. rewrite sleeps_in_paged_trace. unfold later_pages. by rewrite length_seqZ.
Qed.

(** Three pages with the default delay of 0.3 seconds. *)
Lemma get_all_offers_pacing_witness :
  ∃ r w',
    @get_all_offers (Reference.listing_service 3) Reference.lib Reference.default_fetcher
      7 None true Reference.empty_world = (Ok r, w')
    ∧ trace w' = [EvGet (page_params 7 1);
                  EvSleep (Q2Qc (3 # 10)); EvGet (page_params 7 2);
                  EvSleep (Q2Qc (3 # 10)); EvGet (page_params 7 3)]
    ∧ files w' = ∅.
Proof.
  destruct (@get_all_offers_pacing (Reference.listing_service 3) Reference.lib
              Reference.default_fetcher 7 None true Reference.empty_world 3)
    as (r & w' & new & Hrun & Htrace & Hnew & _ & _ & Hfiles & _).
  - vm_compute. discriminate.
  - destruct (listing_service_healthy 3 0%nat (page_params 7 1)) as (items & tpv & Hvalid).
    exists items, tpv. split; [done|].
    destruct Hvalid as (status & kvs & Hout & _ & _ & _ & _ & Htp & _).
    injection Hout as _ <-. simpl in Htp. by injection Htp as <-.
  - apply listing_service_answers.
  - exists r, w'. rewrite Hrun, Htrace, Hnew, Hfiles. repeat split.
Defined.
Lemma bind_assoc {A B C} (m : M A) (k : A → M B) (h : B → M C) (w : world) :
  bind (bind m k) h w = bind m (λ a, bind (k a) h) w.
Proof. unfold bind. by destruct (m w) as [[a|e] w']. Qed.

Lemma bind_ext {A B} (m : M A) (k1 k2 : A → M B) (w : world) :
  (∀ a w', k1 a w' = k2 a w') → bind m k1 w = bind m k2 w.
Proof. intros Hk. unfold bind. by destruct (m w) as [[a|e] w']. Qed.

Section Aborts.
Context `{Env} `{PyLib}.
Variable self : JobOffersFetcher.
Variable days : Z.
Variable respect_rate_limit : bool.
Hypothesis one_attempt : 1 ≤ max_retries (http self).

(** The first attempt of a call ends it when it is not retried. *)
Lemma get_json_first_attempt (params : json) (w : world) (r : result json) :
  final_result (server (gets w) params) = Some r →
  get_json (http self) params w = (r, sent params w).
Proof using one_attempt.
  intros Hfinal. unfold get_json.
  rewrite (bind_lift_ok _ _ _ _ (py_range_step_1 _ _)).
  replace (max_retries (http self) + 1 - 1) with (max_retries (http self)) by lia.
  destruct (Z.to_nat (max_retries (http self))) as [|m] eqn:Hm; [lia|].
  simpl. unfold bind, session_get. fold (sent params w).
  destruct (server (gets w) params) as [resp| | |e]; simpl in *; try done.
  - destruct (retry_status (status_code resp)); [done|]. simpl.
    injection Hfinal as <-. by destruct (resp_ok resp).
  - by injection Hfinal as <-.
Qed.

Lemma fetch_page_raises (page : Z) (w : world) (e : exn) :
  final_result (server (gets w) (page_params days page)) = Some (Raise e) →
  fetch_page self days page w = (Raise e, sent (page_params days page) w).
Proof using one_attempt.
  intros Hfinal. unfold fetch_page. fold (page_params days page).
  unfold bind at 1. by rewrite (get_json_first_attempt _ _ _ Hfinal).
Qed.

Lemma remaining_pages_app (pre post : list Z) :
  ∀ (seen : gset pystr) (consolidated : list json) (w : world),
  remaining_pages self days respect_rate_limit (pre ++ post) seen consolidated w
  = bind (remaining_pages self days respect_rate_limit pre seen consolidated)
      (λ sc, remaining_pages self days respect_rate_limit post sc.1 sc.2) w.
Proof.
  induction pre as [|p pre IH]; intros seen consolidated w; [done|].
  simpl. rewrite !bind_assoc. apply bind_ext. intros _ w0.
  rewrite !bind_assoc. apply bind_ext. intros data w1.
  rewrite !bind_assoc. apply bind_ext. intros items w2.
  rewrite !bind_assoc. apply bind_ext. intros [seen' consolidated'] w3.
  apply IH.
Qed.

Lemma remaining_pages_aborts (pre : list Z) (p : Z) (post : list Z)
    (seen : gset pystr) (consolidated : list json) (w : world) (e : exn) :
  answers_pages days (gets w) pre →
  final_result (server (gets w + length pre) (page_params days p)) = Some (Raise e) →
  remaining_pages self days respect_rate_limit (pre ++ p :: post) seen consolidated w
  = (Raise e,
     fetched w (paged_trace self days respect_rate_limit (pre ++ [p])) (S (length pre))).
Proof using one_attempt.
  intros Hans Hfinal. rewrite remaining_pages_app. unfold bind at 1.
  rewrite (remaining_pages_run self days respect_rate_limit one_attempt) by done.
  simpl. rewrite (bind_ok _ _ _ _ _ (pacing_run self respect_rate_limit _)).
  unfold bind. rewrite (fetch_page_raises _ _ e).
  - f_equal. unfold fetched, sent, paged_trace. simpl.
    rewrite fmap_app, join_app. simpl. rewrite !app_nil_r, <- !app_assoc.
    f_equal. lia.
  - simpl. by rewrite Nat.add_0_r.
Qed.

End Aborts.

(** X8. A page that fails stops the run: when page 1 and the pages
    [pre] after it are answered by well-formed pages and the first attempt
    for the next page [p] fails in a way that is not retried, the run raises
    that exception. The pages up to [p] were requested, no later page is,
    the offers gathered so far are not returned, and no file is written. *)
Theorem get_all_offers_page_failure `{Env} `{PyLib} (self : JobOffersFetcher) (days : Z)
    (max_pages : option Z) (respect_rate_limit : bool) (w : world) (total_pages : Z)
    (pre : list Z) (p : Z) (post : list Z) (e : exn) :
  1 ≤ max_retries (http self) →
  (∃ items tpv, valid_page (server (gets w) (page_params days 1)) items tpv
                ∧ py_int tpv = Ok total_pages) →
  later_pages total_pages max_pages = pre ++ p :: post →
  answers_pages days (S (gets w)) pre →
  final_result (server (S (gets w) + length pre) (page_params days p)) = Some (Raise e) →
  ∃ w' new,
    get_all_offers self days max_pages respect_rate_limit w = (Raise e, w')
    ∧ trace w' = trace w ++ new
    ∧ requests_in new = page_params days <$> (1 :: pre ++ [p])
    ∧ files w' = files w.
Proof.
  intros Hone (items & tpv & Hvalid & Htp) Hpages Hans Hfinal.
  destruct (fetch_page_valid self days Hone 1 w items tpv Hvalid)
    as (first & Hfetch & Hitems & Hget & Htotal).
  unfold get_all_offers.
  rewrite (bind_ok _ _ _ _ _ Hfetch).
  rewrite (bind_lift_ok _ _ _ _ Hget), (bind_lift_ok _ _ _ _ Htp).
  rewrite (bind_lift_ok _ _ _ _ Hitems).
  erewrite bind_lift_ok; [|by apply add_batch_first_occurrences, page_items_dicts;
                           destruct Hvalid as (?&?&?&?&?&?&?&?&?&?)].
  cbv beta iota. rewrite (bind_lift_ok _ _ _ _ (py_range_seqZ _ _)).
  fold (page_limit total_pages max_pages).
  replace (page_limit total_pages max_pages + 1 - 2)
    with (page_limit total_pages max_pages - 1) by lia.
  fold (later_pages total_pages max_pages). rewrite Hpages.
  unfold bind at 1.
  rewrite (remaining_pages_aborts self days respect_rate_limit Hone pre p post _ _ _ e);
    [|done|done].
  eexists _, _. split; [reflexivity|]. simpl. rewrite <- app_assoc.
  split; [reflexivity|]. split; [|done].
  simpl. by rewrite requests_in_paged_trace.
Qed.

(** Five pages, of which the third answers 404. *)
Lemma get_all_offers_page_failure_witness :
  ∃ w' new,
    @get_all_offers (Reference.failing_after 2 5) Reference.lib Reference.default_fetcher
      7 None true Reference.empty_world = (Raise HttpError, w')
    ∧ trace w' = trace Reference.empty_world ++ new
    ∧ requests_in new = page_params 7 <$> [1; 2; 3]
    ∧ files w' = files Reference.empty_world.
Proof.
  apply (@get_all_offers_page_failure (Reference.failing_after 2 5) Reference.lib
           Reference.default_fetcher 7 None true Reference.empty_world 5 [2] 3 [4; 5]).
  - vm_compute. discriminate.
  - eexists _, (JInt 5). split; [|reflexivity].
    eexists 200, _. split; [reflexivity|]. repeat split; try by eexists.
    by repeat constructor.
  - reflexivity.
  - intros i q Hq. destruct i as [|i]; [|done]. injection Hq as <-.
    eexists _, (JInt 5). eexists 200, _. split; [reflexivity|].
    repeat split; try by eexists. by repeat constructor.
  - reflexivity.
Defined.

Section FetchFrame.
Context `{Env} `{PyLib}.
Variable self : JobOffersFetcher.
Variable days : Z.
Variable respect_rate_limit : bool.

Lemma only_fetches_refl (w : world) : only_fetches w w.
Proof. exists []. by rewrite app_nil_r. Qed.

Lemma only_fetches_trans (w1 w2 w3 : world) :
  only_fetches w1 w2 → only_fetches w2 w3 → only_fetches w1 w3.
Proof.
  intros (n1 & Ht1 & Hn1 & Hf1 & Hg1 & Hc1) (n2 & Ht2 & Hn2 & Hf2 & Hg2 & Hc2).
  exists (n1 ++ n2). rewrite Ht2, Ht1, app_assoc, forallb_app, Hn1, Hn2.
  repeat split; congruence.
Qed.

Lemma retry_trace_fetch_events (params : json) (backoff : Qc) (n : nat) :
  forallb fetch_event (retry_trace params backoff n) = true.
Proof.
  unfold retry_trace. rewrite forallb_app. apply andb_true_iff. split; [|by destruct n].
  induction (seq 0 (n - 1)) as [|k l IH]; [done|]. simpl. exact IH.
Qed.

Lemma get_json_only_fetches (params : json) (w : world) :
  only_fetches w (get_json (http self) params w).2.
Proof.
  destruct (get_json_shape (http self) params w) as (k & _ & _ & ->).
  exists (retry_trace params (backoff_seconds (http self)) k).
  by rewrite retry_trace_fetch_events.
Qed.

Lemma bind_only_fetches {A B} (m : M A) (k : A → M B) (w : world) :
  only_fetches w (m w).2 →
  (∀ a w', only_fetches w' (k a w').2) →
  only_fetches w (bind m k w).2.
Proof.
  intros Hm Hk. unfold bind. destruct (m w) as [[a|e] w1]; [|done].
  apply (only_fetches_trans _ w1); [done|apply Hk].
Qed.

Lemma lift_only_fetches {A} (r : result A) (w : world) : only_fetches w (lift r w).2.
Proof. apply only_fetches_refl. Qed.

Lemma sleep_only_fetches (seconds : Qc) (w : world) : only_fetches w (sleep seconds w).2.
Proof.
  unfold sleep. destruct (decide (seconds < 0)%Qc); [apply only_fetches_refl|].
  by exists [EvSleep seconds].
Qed.

Lemma fetch_page_only_fetches (page : Z) (w : world) :
  only_fetches w (fetch_page self days page w).2.
Proof.
  unfold fetch_page.
  apply bind_only_fetches; [apply get_json_only_fetches|]. intros data w1.
  apply bind_only_fetches; [apply lift_only_fetches|]. intros _ w2.
  apply bind_only_fetches; [apply lift_only_fetches|]. intros results w3.
  destruct (is_list results); apply only_fetches_refl.
Qed.

Lemma remaining_pages_only_fetches (pages : list Z) :
  ∀ (seen : gset pystr) (consolidated : list json) (w : world),
  only_fetches w (remaining_pages self days respect_rate_limit pages seen consolidated w).2.
Proof.
  induction pages as [|p pages IH]; intros seen consolidated w; [apply only_fetches_refl|].
  simpl. apply bind_only_fetches.
  { destruct (respect_rate_limit && _); [apply sleep_only_fetches|apply only_fetches_refl]. }
  intros _ w0. apply bind_only_fetches; [apply fetch_page_only_fetches|]. intros data w1.
  apply bind_only_fetches; [apply lift_only_fetches|]. intros items w2.
  apply bind_only_fetches; [apply lift_only_fetches|]. intros [seen' consolidated'] w3.
  apply IH.
Qed.

Lemma get_all_offers_frame (max_pages : option Z) (w : world) :
  only_fetches w (get_all_offers self days max_pages respect_rate_limit w).2.
Proof.
  unfold get_all_offers.
  apply bind_only_fetches; [apply fetch_page_only_fetches|]. intros first w1.
  apply bind_only_fetches; [apply lift_only_fetches|]. intros tpv w2.
  apply bind_only_fetches; [apply lift_only_fetches|]. intros total_pages_api w3.
  apply bind_only_fetches; [apply lift_only_fetches|]. intros items w4.
  apply bind_only_fetches; [apply lift_only_fetches|]. intros [seen consolidated] w5.
  apply bind_only_fetches; [apply lift_only_fetches|]. intros pages w6.
  apply bind_only_fetches; [apply remaining_pages_only_fetches|].
  intros [seen' consolidated'] w7.
  apply bind_only_fetches; [apply lift_only_fetches|]. intros total w8.
  apply only_fetches_refl.
Qed.

End FetchFrame.

(** X9. Whatever the service answers, and whether the run returns or
    raises, the only effects of [get_all_offers] are requests and sleeps:
    it writes no file and makes no inference call. *)
Theorem get_all_offers_only_fetches `{Env} `{PyLib} (self : JobOffersFetcher) (days : Z)
    (max_pages : option Z) (respect_rate_limit : bool) (w : world) :
  ∃ new,
    trace (get_all_offers self days max_pages respect_rate_limit w).2 = trace w ++ new
    ∧ Forall (λ ev, (∃ params, ev = EvGet params) ∨ (∃ seconds, ev = EvSleep seconds)) new
    ∧ files (get_all_offers self days max_pages respect_rate_limit w).2 = files w
    ∧ generates (get_all_offers self days max_pages respect_rate_limit w).2 = generates w.
Proof.
  destruct (get_all_offers_frame self days respect_rate_limit max_pages w)
    as (new & Htrace & Hnew & Hfiles & Hgen & _).
  exists new. repeat split; try done.
  apply Forall_forall. intros ev Hev.
  apply forallb_forall with (x := ev) in Hnew; [|by apply list_elem_of_In].
  destruct ev; try done; [left|right]; by eexists.
Qed.

(** X10. When the results of page 1 hold an item that is not a record,
    the run raises [AttributeError] (the item has no [get]) right after the
    request of page 1: no other page is requested and nothing is returned. *)
Theorem get_all_offers_non_record_item `{Env} `{PyLib} (self : JobOffersFetcher) (days : Z)
    (max_pages : option Z) (respect_rate_limit : bool) (w w1 : world)
    (kvs : list (pystr * json)) (items : list json) (total_pages : Z) :
  fetch_page self days 1 w = (Ok (JDict kvs), w1) →
  dict_lookup kvs (lit "results") = Some (JList items) →
  py_int (default (JInt 1) (dict_lookup kvs (lit "totalPages"))) = Ok total_pages →
  Exists (λ v, is_dict v = false) items →
  get_all_offers self days max_pages respect_rate_limit w = (Raise AttributeError, w1).
Proof.
  intros Hfetch Hresults Htp Hex. unfold get_all_offers.
  rewrite (bind_ok _ _ _ _ _ Hfetch). simpl py_get.
  rewrite (bind_lift_ok _ _ _ _ eq_refl), (bind_lift_ok _ _ _ _ Htp).
  unfold page_items, py_subscript. rewrite Hresults. simpl.
  rewrite (bind_lift_ok _ _ _ _ eq_refl).
  unfold bind, lift. rewrite add_batch_non_record; [done|].
  apply Exists_exists in Hex as (v & Hv & Hd).
  apply list_elem_of_lookup_1 in Hv as [i Hi].
  apply Exists_exists. exists (item_id 1 i, v). split; [|done].
  apply list_elem_of_lookup_2 with i. by rewrite list_lookup_imap, Hi.
Qed.

(** A text among the postings of page 1. *)
Lemma get_all_offers_non_record_item_witness :
  @get_all_offers Reference.malformed_service Reference.lib Reference.default_fetcher
    7 None true Reference.empty_world
  = (Raise AttributeError, sent (page_params 7 1) Reference.empty_world).
Proof.
  eapply (@get_all_offers_non_record_item Reference.malformed_service Reference.lib
            Reference.default_fetcher 7 None true Reference.empty_world _ _
            [Reference.posting 1; JStr (lit "posting")] 1).
  - vm_compute. reflexivity.
  - reflexivity.
  - reflexivity.
  - apply Exists_cons_tl, Exists_cons_hd. reflexivity.
Defined.

(** * The pages of a run that completes *)

Section CompletedRun.
Context `{Env} `{PyLib}.
Variable self : JobOffersFetcher.
Variable days : Z.
Variable respect_rate_limit : bool.

Lemma get_json_ok (params : json) (w w' : world) (data : json) :
  get_json (http self) params w = (Ok data, w') →
  ∃ k, (1 ≤ k ≤ Z.to_nat (max_retries (http self)))%nat
    ∧ w' = after_retries params w (backoff_seconds (http self)) k.
Proof.
  intros Hrun. destruct (get_json_shape (http self) params w) as (k & Hk & Hk1 & Hshape).
  rewrite Hrun in Hshape. cbn [snd] in Hshape. exists k. split; [|done].
  split; [|done]. apply Hk1.
  destruct (Z_le_gt_dec (max_retries (http self)) 0) as [Hnone|?]; [|lia].
  unfold get_json in Hrun. rewrite (bind_lift_ok _ _ _ _ (py_range_step_1 _ _)) in Hrun.
  by replace (Z.to_nat (max_retries (http self) + 1 - 1)) with 0%nat in Hrun by lia.
Qed.

Lemma fetch_page_ok (page : Z) (w w' : world) (data : json) :
  fetch_page self days page w = (Ok data, w') →
  ∃ k, (1 ≤ k ≤ Z.to_nat (max_retries (http self)))%nat
    ∧ w' = after_retries (page_params days page) w (backoff_seconds (http self)) k.
Proof.
  unfold fetch_page. intros Hrun.
  apply bind_inv in Hrun as (d & w1 & Hget & Hrun).
  apply bind_inv in Hrun as (u & w2 & [_ ->]%lift_inv & Hrun).
  apply bind_inv in Hrun as (results & w3 & [_ ->]%lift_inv & Hrun).
  destruct (is_list results); [|done]. injection Hrun as _ <-.
  by apply get_json_ok in Hget.
Qed.

Lemma requests_in_after_retries (params : json) (w : world) (backoff : Qc) (k : nat) :
  trace (after_retries params w backoff k) = trace w ++ retry_trace params backoff k
  ∧ requests_in (retry_trace params backoff k) = replicate k params.
Proof. split; [done|apply requests_in_retry_trace]. Qed.

Lemma pacing_ok (w w0 : world) :
  (if respect_rate_limit && bool_decide (0 < sleep_between_pages self)%Qc
   then sleep (sleep_between_pages self) else ret ()) w = (Ok (), w0) →
  ∃ evs, trace w0 = trace w ++ evs ∧ requests_in evs = [].
Proof.
  destruct (respect_rate_limit && _).
  - unfold sleep. destruct (decide _); [done|]. intros [= <-]. by exists [EvSleep (sleep_between_pages self)].
  - intros [= <-]. exists []. by rewrite app_nil_r.
Qed.

Lemma remaining_pages_ok (pages : list Z) :
  ∀ (seen : gset pystr) (consolidated : list json) (w w' : world)
    (res : gset pystr * list json),
  remaining_pages self days respect_rate_limit pages seen consolidated w = (Ok res, w') →
  ∃ new counts,
    trace w' = trace w ++ new
    ∧ Forall2 (λ (k : nat) (_ : Z), (1 ≤ k ≤ Z.to_nat (max_retries (http self)))%nat)
        counts pages
    ∧ requests_in new = repeated_requests days counts pages.
Proof.
  induction pages as [|p pages IH]; intros seen consolidated w w' res Hrun.
  - injection Hrun as _ <-. exists [], []. rewrite app_nil_r. by repeat split.
  - cbn [remaining_pages] in Hrun.
    apply bind_inv in Hrun as ([] & w0 & Hpace & Hrun).
    apply bind_inv in Hrun as (data & w1 & Hfetch & Hrun).
    apply bind_inv in Hrun as (items & w2 & [_ ->]%lift_inv & Hrun).
    apply bind_inv in Hrun as ([seen' cons'] & w3 & [_ ->]%lift_inv & Hrun).
    apply pacing_ok in Hpace as (evs & Htr0 & Hreq0).
    apply fetch_page_ok in Hfetch as (k & Hk & ->).
    apply IH in Hrun as (new & counts & Htr & Hcounts & Hreq).
    exists (evs ++ retry_trace (page_params days p) (backoff_seconds (http self)) k ++ new),
           (k :: counts).
    split; [|split].
    + rewrite Htr. cbn [after_retries trace]. rewrite Htr0. by rewrite <- !app_assoc.
    + by constructor.
    + rewrite !requests_in_app, Hreq0, requests_in_retry_trace, Hreq. done.
Qed.

End CompletedRun.

(** C4 (as amended). A run with a page limit [max_pages] that completes
    has requested page 1 first and then the pages 2 to
    [min(totalPages, max_pages)], in increasing order, each of them at
    least once and, when its request was retried, several times in a row:
    these are the pages 1 to [min(totalPages, max_pages)] whenever that
    minimum is at least 1, and page 1 alone otherwise. The metadata's
    [pages_traversed] is [min(totalPages, max_pages)] in every case, where
    [totalPages] is the number that page 1 reported. When every page is
    answered at once by a well-formed page, each page is requested exactly
    once. *)
Theorem get_all_offers_pages `{Env} `{PyLib} (self : JobOffersFetcher) (days max_pages : Z)
    (respect_rate_limit : bool) (w w' : world) (offers : list json) (meta : RunMetadata) :
  get_all_offers self days (Some max_pages) respect_rate_limit w = (Ok (offers, meta), w') →
  ∃ new counts pages,
    pages = 1 :: seqZ 2 (Z.min (total_pages_api meta) max_pages - 1)
    ∧ trace w' = trace w ++ new
    ∧ Forall2 (λ (k : nat) (_ : Z), (1 ≤ k ≤ Z.to_nat (max_retries (http self)))%nat)
        counts pages
    ∧ requests_in new = repeated_requests days counts pages
    ∧ (1 ≤ Z.min (total_pages_api meta) max_pages →
       pages = seqZ 1 (Z.min (total_pages_api meta) max_pages))
    ∧ (Z.min (total_pages_api meta) max_pages < 1 → pages = [1])
    ∧ pages_traversed meta = Z.min (total_pages_api meta) max_pages
    ∧ (∀ items tpv,
         valid_page (server (gets w) (page_params days 1)) items tpv →
         py_int tpv = Ok (total_pages_api meta))
    ∧ (answers_pages days (gets w) pages →
       requests_in new = page_params days <$> pages).
Proof.
  intros Hrun. pose proof Hrun as Hwhole. unfold get_all_offers in Hrun.
  apply bind_inv in Hrun as (first & w1 & Hfetch & Hrun).
  apply bind_inv in Hrun as (tpv & w2 & [Htpv ->]%lift_inv & Hrun).
  apply bind_inv in Hrun as (total_pages & w3 & [Htotal ->]%lift_inv & Hrun).
  apply bind_inv in Hrun as (items & w4 & [Hitems ->]%lift_inv & Hrun).
  apply bind_inv in Hrun as ([seen consolidated] & w5 & [Hadd ->]%lift_inv & Hrun).
  apply bind_inv in Hrun as (pages & w6 & [Hpages ->]%lift_inv & Hrun).
  apply bind_inv in Hrun as ([seen' consolidated'] & w7 & Hrest & Hrun).
  apply bind_inv in Hrun as (total & w8 & [Hreported ->]%lift_inv & Hrun).
  injection Hrun as <- <- <-. cbn [total_pages_api pages_traversed].
  rewrite py_range_seqZ in Hpages. injection Hpages as <-.
  replace (Z.min total_pages max_pages + 1 - 2) with (Z.min total_pages max_pages - 1)
    in * by lia.
  pose proof Hfetch as Hfirst.
  apply fetch_page_ok in Hfirst as (k & Hk & ->).
  pose proof Hrest as Hlater.
  apply remaining_pages_ok in Hlater as (new & counts & Htr & Hcounts & Hreq).
  assert (∀ items' tpv', valid_page (server (gets w) (page_params days 1)) items' tpv' →
                         py_int tpv' = Ok total_pages) as Hreportedpages.
  { intros items' tpv' Hvalid.
    destruct (fetch_page_valid self days ltac:(lia) 1 w items' tpv' Hvalid)
      as (first' & Hfetch' & _ & Hget' & _).
    rewrite Hfetch in Hfetch'. injection Hfetch' as -> _. congruence. }
  exists (retry_trace (page_params days 1) (backoff_seconds (http self)) k ++ new),
         (k :: counts), (1 :: seqZ 2 (Z.min total_pages max_pages - 1)).
  split; [done|]. split; [|split; [|split; [|split; [|split; [|split; [|split]]]]]].
  - rewrite Htr. cbn [after_retries trace]. by rewrite <- app_assoc.
  - by constructor.
  - by rewrite requests_in_app, requests_in_retry_trace, Hreq.
  - intros Hmin. rewrite (seqZ_cons 1) by lia. f_equal.
  - intros Hmin. by rewrite seqZ_nil by lia.
  - done.
  - done.
  - intros Hans.
    destruct (Hans 0%nat 1 eq_refl) as (items' & tpv' & Hvalid).
    rewrite Nat.add_0_r in Hvalid.
    destruct (get_all_offers_run self days (Some max_pages) respect_rate_limit ltac:(lia)
                w total_pages) as (total' & Hexplicit).
    { exists items', tpv'. split; [done|by apply (Hreportedpages items')]. }
    { intros i p Hp. specialize (Hans (S i) p Hp). by rewrite Nat.add_succ_r in Hans. }
    rewrite Hwhole in Hexplicit. apply (f_equal snd) in Hexplicit as Hw. cbn [snd] in Hw.
    apply (f_equal trace) in Hw. rewrite Htr in Hw. cbn [after_retries fetched trace] in Hw.
    rewrite <- app_assoc in Hw. apply app_inv_head in Hw. rewrite Hw.
    change (requests_in (EvGet (page_params days 1) :: ?t))
      with (page_params days 1 :: requests_in t).
    by rewrite requests_in_paged_trace.
Qed.

(** Five pages and a limit of two. *)
Lemma get_all_offers_pages_witness :
  ∃ offers meta w' new,
    @get_all_offers (Reference.listing_service 5) Reference.lib Reference.default_fetcher
      7 (Some 2) true Reference.empty_world = (Ok (offers, meta), w')
    ∧ trace w' = trace Reference.empty_world ++ new
    ∧ requests_in new = [page_params 7 1; page_params 7 2]
    ∧ pages_traversed meta = 2
    ∧ total_pages_api meta = 5.
Proof.
  destruct (@get_all_offers (Reference.listing_service 5) Reference.lib
              Reference.default_fetcher 7 (Some 2) true Reference.empty_world)
    as [[[offers meta]|e] w'] eqn:Hrun; [|vm_compute in Hrun; discriminate].
  assert (total_pages_api meta = 5) as Htotal.
  { vm_compute in Hrun. by injection Hrun as _ <- _. }
  destruct (@get_all_offers_pages (Reference.listing_service 5) Reference.lib
              Reference.default_fetcher 7 2 true Reference.empty_world w' offers meta Hrun)
    as (new & counts & pages & Hpages & Htr & _ & _ & _ & _ & Htraversed & _ & Honce).
  exists offers, meta, w', new. split; [reflexivity|]. split; [exact Htr|].
  rewrite Htotal in *. split; [|by split].
  rewrite Honce; [by rewrite Hpages|]. apply listing_service_answers.
Defined.

(** * Further properties of the inference stage *)

Lemma within_refl (s : pystr) : within s s.
Proof. exists [], []. by rewrite app_nil_r. Qed.

Lemma within_trans (s t u : pystr) : within s t → within t u → within s u.
Proof.
  intros (a & d & ->) (a' & d' & ->). exists (a' ++ a), (d ++ d').
  by rewrite <- !app_assoc.
Qed.

Lemma within_length (s t : pystr) : within s t → (length s ≤ length t)%nat.
Proof. intros (a & d & ->). rewrite !length_app. lia. Qed.

Lemma lstrip_split (s : pystr) : ∃ a, s = a ++ lstrip s ∧ blank a.
Proof.
  induction s as [|c s (a & Hs & Ha)]; [exists []; split; [done|apply Forall_nil_2]|]. simpl.
  destruct (is_space c) eqn:Hc.
  - exists (c :: a). split; [by rewrite Hs at 1|by apply Forall_cons].
  - exists []. split; [done|apply Forall_nil_2].
Qed.

Lemma lstrip_head (s : pystr) (c : N) : head (lstrip s) = Some c → is_space c = false.
Proof.
  induction s as [|d s IH]; [done|]. simpl. destruct (is_space d) eqn:Hd; [done|].
  by intros [= <-].
Qed.

Lemma rstrip_split (s : pystr) : ∃ d, s = rstrip s ++ d ∧ blank d.
Proof.
  destruct (lstrip_split (reverse s)) as (a & Hs & Ha). exists (reverse a). split.
  - unfold rstrip. rewrite <- reverse_app, <- Hs. by rewrite reverse_involutive.
  - by apply blank_reverse.
Qed.

Lemma rstrip_last (s : pystr) (c : N) : last (rstrip s) = Some c → is_space c = false.
Proof. unfold rstrip. rewrite <- head_reverse, reverse_involutive. apply lstrip_head. Qed.

Lemma strip_within (s : pystr) : within (strip s) s.
Proof.
  destruct (lstrip_split s) as (a & Hs & _).
  destruct (rstrip_split (lstrip s)) as (d & Hd & _).
  exists a, d. unfold strip. by rewrite <- Hd.
Qed.

(** A stripped text is empty, or starts and ends with a character that is
    not a blank. *)
Lemma strip_cases (s : pystr) : strip s = [] ∨ solid (strip s).
Proof.
  destruct (strip s) as [|c rest] eqn:Hstrip; [by left|]. right.
  destruct (rstrip_split (lstrip s)) as (d & Hd & _). fold (strip s) in Hd.
  rewrite Hstrip in Hd. split.
  - exists c, rest. split; [done|]. apply (lstrip_head s). by rewrite Hd.
  - destruct (exists_last (l := c :: rest)) as (front & x & Hx); [done|].
    exists x, front. split; [done|]. apply (rstrip_last (lstrip s)).
    fold (strip s). by rewrite Hstrip, Hx, last_snoc.
Qed.

Lemma strip_idemp (s : pystr) : strip (strip s) = strip s.
Proof. destruct (strip_cases s) as [-> | Hsolid]; [done|by apply strip_solid]. Qed.

Lemma py_slice_within (s : pystr) (lo hi : option Z) : within (py_slice s lo hi) s.
Proof.
  unfold py_slice.
  set (a := Z.to_nat (slice_bound (Z.of_nat (length s)) lo 0)).
  set (n := Z.to_nat _).
  exists (take a s), (drop n (drop a s)). by rewrite !take_drop.
Qed.

Lemma strip_slice_within (s : pystr) (lo hi : option Z) : within (strip (py_slice s lo hi)) s.
Proof. eapply within_trans; [apply strip_within|apply py_slice_within]. Qed.

(** X11. Whatever the text, the sanitizer only removes characters: its
    result is a stretch of the input, so never longer than it, and it is
    stripped, that is empty or starting and ending with a character that is
    not a blank. *)
Theorem clean_response_text_invariants (text : pystr) :
  within (_clean_response_text text) text
  ∧ (length (_clean_response_text text) ≤ length text)%nat
  ∧ strip (_clean_response_text text) = _clean_response_text text
  ∧ (_clean_response_text text = [] ∨ solid (_clean_response_text text)).
Proof.
  assert (∀ s (b : bool) lo hi,
    within s text ∧ strip s = s →
    within (if b then strip (py_slice s lo hi) else s) text
    ∧ strip (if b then strip (py_slice s lo hi) else s)
      = if b then strip (py_slice s lo hi) else s) as Hstep.
  { intros s b lo hi [Hin Hs]. destruct b; [|done]. split; [|apply strip_idemp].
    eapply within_trans; [apply strip_slice_within|done]. }
  assert (within (_clean_response_text text) text
          ∧ strip (_clean_response_text text) = _clean_response_text text) as [Hin Hs].
  { unfold _clean_response_text. cbv zeta. do 4 apply Hstep.
    split; [apply strip_within|apply strip_idemp]. }
  split; [done|]. split; [by apply within_length|]. split; [done|].
  rewrite <- Hs. apply strip_cases.
Qed.

(** X12. [_extract_text_from_response] never returns the empty text: it
    returns [None] instead, so the emptiness test of the caller only ever
    sees [None]. In particular a response whose first candidate has parts
    that are all without text or with an empty text gives [None]. *)
Theorem extract_text_never_empty (r : GenerateContentResponse) :
  _extract_text_from_response r ≠ Some []
  ∧ nonempty_text (_extract_text_from_response r) = _extract_text_from_response r
  ∧ (∀ candidate rest content parts,
       candidates r = Some (candidate :: rest) →
       candidate_content candidate = Some content →
       content_parts content = Some parts →
       Forall (λ p, part_text p = None ∨ part_text p = Some []) parts →
       _extract_text_from_response r = None).
Proof.
  assert (∀ parts, concat (omap (λ p, nonempty_text (part_text p)) parts) = [] →
                   omap (λ p, nonempty_text (part_text p)) parts = []) as Hconcat.
  { induction parts as [|p parts IH]; [done|]. simpl.
    destruct (part_text p) as [[|c s]|]; simpl; done. }
  assert (_extract_text_from_response r ≠ Some []) as Hne.
  { unfold _extract_text_from_response.
    destruct (candidates r) as [[|candidate rest]|]; try done.
    destruct (candidate_content candidate) as [content|]; try done.
    destruct (content_parts content) as [[|p parts]|]; try done.
    destruct (omap _ (p :: parts)) as [|t texts] eqn:Htexts; [done|].
    intros [= Hempty]. change (concat (t :: texts) = []) in Hempty.
    rewrite <- Htexts in Hempty. apply Hconcat in Hempty. congruence. }
  split; [done|]. split.
  - by destruct (_extract_text_from_response r) as [[|c s]|].
  - intros candidate rest content parts Hc Hcontent Hparts Hall.
    unfold _extract_text_from_response. rewrite Hc, Hcontent, Hparts.
    assert (omap (λ p, nonempty_text (part_text p)) parts = []) as Hnone.
    { clear Hparts. induction Hall as [|q qs [Hq|Hq] _ IH]; [done|..];
        simpl; rewrite Hq; simpl; exact IH. }
    destruct parts as [|p parts]; [done|]. by rewrite Hnone.
Qed.

Section Recovery.
Context `{Env} `{PyLib} `{Settings}.
Variable prompt : pystr.
Variable batch_idx : Z.

Lemma call_gemini_loop_recovers (k : nat) :
  ∀ (m : nat) (a : Z) (backoff : Qc) (response : option GenerateContentResponse)
    (w : world) (r : GenerateContentResponse) (matches : list json),
  a + Z.of_nat m = MAX_ATTEMPTS + 1 →
  (k < m)%nat →
  (0 ≤ backoff)%Qc →
  artifacts_encodable prompt → response_encodable response →
  (∀ i, (i < k)%nat → attempt_fails (gemini (generates w + i) prompt) = true) →
  gemini (generates w + k) prompt = Generates r →
  parse_response r = Ok matches →
  ∃ w' new,
    call_gemini_loop prompt batch_idx ((λ j : nat, a + Z.of_nat j) <$> seq 0 m)
      backoff response w = (Ok matches, w')
    ∧ trace w' = trace w ++ new
    ∧ prompts_in new = replicate (S k) prompt
    ∧ sleeps_in new = (λ i, backoff * 2 ^ i)%Qc <$> seq 0 k
    ∧ Forall2 (λ (i : nat) (pt : pystr * pystr),
         pt.1 = raw_path batch_idx (a + Z.of_nat i) (clock (clock_reads w + i))
         ∧ pt.2 = json_dumps artifact_options
                    (expected_artifact (attempt_error (gemini (generates w + i) prompt))
                       (a + Z.of_nat i) prompt
                       (bound_response prompt (generates w) i response)))
        (seq 0 k) (writes_in new).
Proof.
  induction k as [|k IH];
    intros m a backoff response w r matches Ha Hkm Hb Henc Hresp Hfail Hr Hparse.
  - destruct m as [|m]; [lia|]. cbn [seq]. rewrite fmap_cons.
    rewrite Nat.add_0_r in Hr.
    destruct (call_gemini_loop_succeeds prompt batch_idx (a + Z.of_nat 0)
                ((λ j : nat, a + Z.of_nat j) <$> seq 1 m) backoff response w)
      as (r' & matches' & Hr' & Hparse' & Hrun).
    { unfold attempt_fails. by rewrite Hr, Hparse. }
    rewrite Hr in Hr'. injection Hr' as <-. rewrite Hparse in Hparse'.
    injection Hparse' as <-.
    exists (generated prompt w), [EvGenerate prompt]. split; [exact Hrun|].
    repeat split; done || constructor.
  - destruct m as [|m]; [lia|]. cbn [seq]. rewrite fmap_cons, fmap_seq_shift, Z.add_0_r.
    pose proof (Hfail 0%nat ltac:(lia)) as Hfirst. rewrite Nat.add_0_r in Hfirst.
    rewrite (call_gemini_loop_failed _ _ _ _ _ _ _ Hfirst Henc Hresp).
    unfold after_failure, stored. cbn [trace files gets generates clock_reads].
    set (path := raw_path batch_idx a (clock (clock_reads w))).
    set (response' := bound_response prompt (generates w) 0 response).
    set (text := json_dumps artifact_options
                   (expected_artifact (attempt_error (gemini (generates w) prompt)) a prompt
                      response')).
    set (w3 := {| trace := (trace w ++ [EvGenerate prompt]) ++ [EvWrite path text];
                  files := <[path := text]> (files w); gets := gets w;
                  generates := S (generates w); clock_reads := S (clock_reads w) |}).
    destruct (Z.ltb_spec a MAX_ATTEMPTS) as [Hlt|Hge]; [|lia].
    unfold bind at 1, sleep at 1. rewrite decide_False by (by apply Qcle_not_lt).
    erewrite (list_fmap_ext _ (λ j : nat, (a + 1) + Z.of_nat j)); [|intros; lia].
    destruct (IH m (a + 1) (backoff * 2)%Qc response' (log (EvSleep backoff) w3) r matches)
      as (w' & new & Hrun & Htr & Hprompts & Hsleeps & Hwrites); try done.
    { lia. }
    { lia. }
    { by apply Qc_double_nonneg. }
    { by apply bound_response_encodable. }
    { intros i Hi. simpl. specialize (Hfail (S i) ltac:(lia)).
      by replace (generates w + S i)%nat with (S (generates w + i)) in Hfail by lia. }
    { simpl. by replace (S (generates w + k)) with (generates w + S k)%nat by lia. }
    exists w', ([EvGenerate prompt; EvWrite path text; EvSleep backoff] ++ new).
    split; [done|]. split; [|split; [|split]].
    + rewrite Htr. simpl. by rewrite <- !app_assoc.
    + simpl. by rewrite Hprompts.
    + simpl. rewrite Hsleeps. rewrite fmap_seq_shift.
      f_equal; [ring|]. apply list_fmap_ext. intros _ i _. simpl. ring.
    + change (writes_in ([EvGenerate prompt; EvWrite path text; EvSleep backoff] ++ new))
        with ((path, text) :: writes_in new).
      cbn [seq]. constructor.
      * cbn [fst snd]. rewrite Z.add_0_r, !Nat.add_0_r. split; [done|].
        subst text response'. unfold bound_response. by rewrite Nat.add_0_r.
      * rewrite <- fmap_S_seq. apply Forall2_fmap_l.
        eapply Forall2_impl; [exact Hwrites|]. intros i pt [Hp Ht].
        unfold compose. cbv beta. rewrite bound_response_shift. fold response'.
        replace (a + Z.of_nat (S i)) with (a + 1 + Z.of_nat i) by lia.
        replace (clock_reads w + S i)%nat with (S (clock_reads w + i)) by lia.
        replace (generates w + S i)%nat with (S (generates w + i)) by lia.
        done.
Qed.

End Recovery.

(** X13. When the first [k] attempts of an inference call fail ([k] below
    [MAX_ATTEMPTS], the base backoff not negative, the diagnostic
    artifacts of the prompt encodable) and the next attempt gets a response
    that parses to a list, the call returns that list after exactly [k + 1]
    calls of the service, with [k] sleeps of [BACKOFF_SECONDS * 2 ^ i] and
    one diagnostic artifact for each failed attempt, holding the exception
    of the attempt, its number, the first 2000 characters of the prompt and
    the text of the latest response; with [k = 0] it writes nothing and
    does not sleep. The result artifact is not touched. *)
Theorem call_gemini_recovers `{Env} `{PyLib} `{Settings} (prompt : pystr) (batch_idx : Z)
    (w : world) (k : nat) (r : GenerateContentResponse) (matches : list json) :
  Z.of_nat k < MAX_ATTEMPTS →
  (0 ≤ BACKOFF_SECONDS)%Qc →
  artifacts_encodable prompt →
  (∀ i, (i < k)%nat → attempt_fails (gemini (generates w + i) prompt) = true) →
  gemini (generates w + k) prompt = Generates r →
  parse_response r = Ok matches →
  ∃ w' new,
    _call_gemini_with_retries prompt batch_idx w = (Ok matches, w')
    ∧ trace w' = trace w ++ new
    ∧ prompts_in new = replicate (S k) prompt
    ∧ sleeps_in new = (λ i, BACKOFF_SECONDS * 2 ^ i)%Qc <$> seq 0 k
    ∧ Forall2 (λ (i : nat) (pt : pystr * pystr),
         pt.1 = raw_path batch_idx (1 + Z.of_nat i) (clock (clock_reads w + i))
         ∧ pt.2 = json_dumps artifact_options
                    (expected_artifact (attempt_error (gemini (generates w + i) prompt))
                       (1 + Z.of_nat i) prompt
                       (bound_response prompt (generates w) i None)))
        (seq 0 k) (writes_in new)
    ∧ files w' !! JSON_PATH = files w !! JSON_PATH.
Proof.
  intros Hk Hb Henc Hfail Hr Hparse.
  pose proof (call_gemini_keeps_result prompt batch_idx w) as Hkeeps.
  unfold _call_gemini_with_retries in *.
  rewrite (bind_lift_ok _ _ _ _ (py_range_step_1 _ _)) in *.
  replace (MAX_ATTEMPTS + 1 - 1) with MAX_ATTEMPTS in * by lia.
  destruct (call_gemini_loop_recovers prompt batch_idx k (Z.to_nat MAX_ATTEMPTS) 1
              BACKOFF_SECONDS None w r matches)
    as (w' & new & Hrun & Htr & Hprompts & Hsleeps & Hwrites); try done; try lia.
  rewrite Hrun in Hkeeps. by exists w', new.
Qed.

(** An answer that is not JSON, then a fenced list. *)
Lemma call_gemini_recovers_witness :
  ∃ w' new,
    @_call_gemini_with_retries
      (Reference.scripted_gemini
         [Generates (Reference.text_response (lit "Sorry, I cannot help with that."));
          Reference.selects [1; 2]])
      Reference.lib Reference.default_settings (lit "prompt") 4 Reference.empty_world
    = (Ok (Reference.match_record <$> [1; 2]), w')
    ∧ trace w' = new
    ∧ prompts_in new = [lit "prompt"; lit "prompt"]
    ∧ sleeps_in new = [1%Qc]
    ∧ fst <$> writes_in new = [lit "data/raw_batch4_attempt1_1700000000.json"].
Proof.
  destruct (@call_gemini_recovers
              (Reference.scripted_gemini
                 [Generates (Reference.text_response (lit "Sorry, I cannot help with that."));
                  Reference.selects [1; 2]])
              Reference.lib Reference.default_settings (lit "prompt") 4
              Reference.empty_world 1
              (Reference.text_response
                 (lit "```json" ++ nl
                  ++ Reference.dumps
                       {| sort_keys := false; ensure_ascii := true; indent := None |}
                       (JList (Reference.match_record <$> [1; 2]))
                  ++ nl ++ lit "```"))
              (Reference.match_record <$> [1; 2]))
    as (w' & new & Hrun & Htrace & Hprompts & Hsleeps & Hwrites & _).
  - simpl. lia.
  - done.
  - split; [reflexivity|]. intros n.
    destruct n as [|[|n]];
      (split; [reflexivity|intros r Hr; first [discriminate Hr|by injection Hr as <-]]).
  - intros i Hi. destruct i as [|i]; [|lia]. vm_compute. reflexivity.
  - reflexivity.
  - vm_compute. reflexivity.
  - exists w', new. split; [exact Hrun|]. split; [by rewrite Htrace|].
    split; [exact Hprompts|]. split.
    + rewrite Hsleeps. simpl. f_equal.
    + apply Forall2_cons_inv_l in Hwrites as (pt & rest & [Hpt _] & Hrest & ->).
      apply Forall2_nil_inv_l in Hrest as ->. simpl. rewrite Hpt. vm_compute. reflexivity.
Defined.


(** X14. Whatever the service answers and whatever the settings, an
    inference call with retries calls the service at most [MAX_ATTEMPTS]
    times, always with the same prompt, sends no request to the listing
    service, and writes at most one file per call of the service, each of
    them a diagnostic artifact of this batch for an attempt between 1 and
    [MAX_ATTEMPTS]; every other file, the result artifact among them, is
    left as it was. *)
Theorem call_gemini_effects `{Env} `{PyLib} `{Settings} (prompt : pystr) (batch_idx : Z)
    (w : world) :
  ∃ new,
    trace (_call_gemini_with_retries prompt batch_idx w).2 = trace w ++ new
    ∧ (length (prompts_in new) ≤ Z.to_nat MAX_ATTEMPTS)%nat
    ∧ Forall (λ p, p = prompt) (prompts_in new)
    ∧ requests_in new = []
    ∧ (length (writes_in new) ≤ length (prompts_in new))%nat
    ∧ Forall (λ pt : pystr * pystr, ∃ attempt ts, 1 ≤ attempt ≤ MAX_ATTEMPTS
                ∧ pt.1 = raw_path batch_idx attempt ts ∧ pt.1 ≠ JSON_PATH) (writes_in new)
    ∧ (∀ path, (∀ attempt ts, path ≠ raw_path batch_idx attempt ts) →
         files (_call_gemini_with_retries prompt batch_idx w).2 !! path = files w !! path)
    ∧ files (_call_gemini_with_retries prompt batch_idx w).2 !! JSON_PATH
      = files w !! JSON_PATH.
Proof.
  unfold _call_gemini_with_retries.
  rewrite (bind_lift_ok _ _ _ _ (py_range_seqZ _ _)).
  destruct (call_gemini_loop_effects prompt batch_idx (seqZ 1 (MAX_ATTEMPTS + 1 - 1))
              BACKOFF_SECONDS None w)
    as (new & Htr & Hlen & Hprompts & Hreq & Hwlen & Hwrites & Hfiles & _).
  exists new. rewrite length_seqZ in Hlen.
  replace (MAX_ATTEMPTS + 1 - 1) with MAX_ATTEMPTS in * by lia.
  repeat split; try done.
  - eapply Forall_impl; [exact Hwrites|]. intros pt (a & ts & Ha & Hpt).
    exists a, ts. apply elem_of_seqZ in Ha. split; [lia|]. split; [done|].
    rewrite Hpt. apply raw_path_not_result.
  - apply Hfiles. intros a ts Heq. by apply (raw_path_not_result batch_idx a ts).
Qed.

(** X15. The diagnostic artifact of an attempt whose call of the service
    raised records the response of an earlier attempt: when attempt 1 gets
    a response that does not parse and the call of attempt 2 raises (the
    base backoff not negative, the artifacts of the prompt encodable), the
    artifact of attempt 2 carries under [response_str] the text of the
    response of attempt 1, not [None]. *)
Theorem failure_artifact_keeps_earlier_response `{Env} `{PyLib} `{Settings}
    (prompt : pystr) (batch_idx : Z) (w : world)
    (r1 : GenerateContentResponse) (e1 e2 : exn) :
  2 ≤ MAX_ATTEMPTS →
  (0 ≤ BACKOFF_SECONDS)%Qc →
  artifacts_encodable prompt →
  gemini (generates w) prompt = Generates r1 →
  parse_response r1 = Raise e1 →
  gemini (S (generates w)) prompt = GenerateRaises e2 →
  ∃ new,
    trace (_call_gemini_with_retries prompt batch_idx w).2 = trace w ++ new
    ∧ writes_in new !! 0%nat
      = Some (raw_path batch_idx 1 (clock (clock_reads w)),
              json_dumps artifact_options (expected_artifact e1 1 prompt (Some r1)))
    ∧ writes_in new !! 1%nat
      = Some (raw_path batch_idx 2 (clock (S (clock_reads w))),
              json_dumps artifact_options (expected_artifact e2 2 prompt (Some r1)))
    ∧ py_get (expected_artifact e2 2 prompt (Some r1)) (lit "response_str") JNull
      = Ok (JStr (response_str r1))
    ∧ failure_payload e2 2 prompt (Some r1) = expected_artifact e2 2 prompt (Some r1).
Proof.
  intros Hmax Hb Henc Hfirst Hparse Hsecond. unfold _call_gemini_with_retries.
  rewrite (bind_lift_ok _ _ _ _ (py_range_step_1 _ _)).
  replace (MAX_ATTEMPTS + 1 - 1) with MAX_ATTEMPTS by lia.
  destruct (Z.to_nat MAX_ATTEMPTS) as [|[|m]] eqn:Hm; [lia|lia|].
  cbn [seq]. rewrite !fmap_cons. change (1 + Z.of_nat 0) with 1.
  change (1 + Z.of_nat 1) with 2.
  assert (bound_response prompt (generates w) 0 None = Some r1) as Hbound1.
  { unfold bound_response. by rewrite Nat.add_0_r, Hfirst. }
  assert (attempt_error (gemini (generates w) prompt) = e1) as Herror1.
  { unfold attempt_error. by rewrite Hfirst, Hparse. }
  assert (bound_response prompt (S (generates w)) 0 (Some r1) = Some r1) as Hbound2.
  { unfold bound_response. by rewrite Nat.add_0_r, Hsecond. }
  assert (attempt_error (gemini (S (generates w)) prompt) = e2) as Herror2.
  { unfold attempt_error. by rewrite Hsecond. }
  rewrite (call_gemini_loop_failed prompt batch_idx 1 _ _ None w);
    [|by unfold attempt_fails; rewrite Hfirst, Hparse|done|done].
  destruct (Z.ltb_spec 1 MAX_ATTEMPTS) as [_|?]; [|lia].
  unfold bind at 1, sleep at 1. rewrite decide_False by (by apply Qcle_not_lt).
  unfold after_failure. rewrite Hbound1, Herror1.
  set (path1 := raw_path batch_idx 1 (clock (clock_reads w))).
  set (text1 := json_dumps artifact_options (expected_artifact e1 1 prompt (Some r1))).
  set (w1 := log (EvSleep BACKOFF_SECONDS) _).
  assert (trace w1 = trace w ++ [EvGenerate prompt; EvWrite path1 text1;
                                 EvSleep BACKOFF_SECONDS]) as Htr1.
  { subst w1. simpl. by rewrite <- !app_assoc. }
  rewrite (call_gemini_loop_failed prompt batch_idx 2 _ _ (Some r1) w1);
    [|by change (generates w1) with (S (generates w)); rewrite Hsecond
     |done
     |by destruct Henc as [_ Hall]; apply (Hall (generates w))].
  unfold after_failure.
  change (generates w1) with (S (generates w)). rewrite Hbound2, Herror2.
  change (clock_reads w1) with (S (clock_reads w)).
  set (path2 := raw_path batch_idx 2 (clock (S (clock_reads w)))).
  set (text2 := json_dumps artifact_options (expected_artifact e2 2 prompt (Some r1))).
  set (w2 := stored path2 text2 _).
  assert (trace w2 = trace w ++ [EvGenerate prompt; EvWrite path1 text1;
                                 EvSleep BACKOFF_SECONDS; EvGenerate prompt;
                                 EvWrite path2 text2]) as Htr2.
  { subst w2. unfold stored. cbn [trace]. rewrite Htr1. by rewrite <- !app_assoc. }
  assert (∃ rest, trace ((if 2 <? MAX_ATTEMPTS
                          then let! _ := sleep (BACKOFF_SECONDS * 2)%Qc in
                               call_gemini_loop prompt batch_idx
                                 ((λ k : nat, 1 + Z.of_nat k) <$> seq 2 m)
                                 (BACKOFF_SECONDS * 2 * 2)%Qc (Some r1)
                          else ret []) w2).2 = trace w2 ++ rest) as [rest Hrest].
  { destruct (2 <? MAX_ATTEMPTS); [|exists []; simpl; by rewrite app_nil_r].
    unfold bind, sleep.
    destruct (decide (BACKOFF_SECONDS * 2 < 0)%Qc) as [Hneg|_].
    - exfalso. apply Qclt_not_le in Hneg. by apply Hneg, Qc_double_nonneg.
    - match goal with |- context [call_gemini_loop _ _ ?l ?b ?r' ?w3] =>
        destruct (call_gemini_loop_effects prompt batch_idx l b r' w3)
          as (new & Htr & _) end.
      eexists. rewrite Htr. simpl. by rewrite <- app_assoc. }
  eexists. rewrite Hrest, Htr2, <- app_assoc. split; [reflexivity|].
  split; [reflexivity|]. split; [reflexivity|]. split; [reflexivity|].
  apply failure_payload_expected.
Qed.

(** An answer that is not JSON, then an exception of the service. *)
Lemma failure_artifact_keeps_earlier_response_witness :
  let apology := Reference.text_response (lit "Sorry, I cannot help with that.") in
  let failure := OtherException (lit "ServerError") in
  ∃ new,
    trace (@_call_gemini_with_retries
             (Reference.scripted_gemini [Generates apology; GenerateRaises failure])
             Reference.lib Reference.default_settings (lit "prompt") 1
             Reference.empty_world).2
    = trace Reference.empty_world ++ new
    ∧ writes_in new !! 1%nat
      = Some (raw_path 1 2 1700000001,
              Reference.dumps artifact_options
                (JDict [(lit "error", JStr (lit "ServerError()"));
                        (lit "attempt", JInt 2);
                        (lit "prompt_preview", JStr (lit "prompt"));
                        (lit "response_str", JStr (response_str apology))])).
Proof.
  intros apology failure.
  destruct (@failure_artifact_keeps_earlier_response
              (Reference.scripted_gemini [Generates apology; GenerateRaises failure])
              Reference.lib Reference.default_settings (lit "prompt") 1
              Reference.empty_world apology JSONDecodeError failure)
    as (new & Htrace & _ & Hsecond & _).
  - simpl. lia.
  - done.
  - split; [reflexivity|]. intros n.
    destruct n as [|[|n]];
      (split; [reflexivity|intros r Hr; first [discriminate Hr|by injection Hr as <-]]).
  - reflexivity.
  - vm_compute. reflexivity.
  - reflexivity.
  - exists new. split; [exact Htrace|]. rewrite Hsecond. vm_compute. reflexivity.
Defined.

(** * Further properties of the run of [filter_offers] *)


(** X16. The preview of a posting that goes into the prompt keeps six
    fields, [_id], [titleJob], [employer], [location], [descriptionOffer]
    and [linkOffer], in this order. A missing field is [None], except the
    description, which is the empty text when it is missing or false and
    otherwise the first 400 characters of the text. An offer that is not a
    record raises [AttributeError], and a description that is true but
    neither a text nor a list raises [TypeError]. *)
Theorem offer_preview_fields (o : json) :
  (is_dict o = false → offer_preview o = Raise AttributeError)
  ∧ (∀ kvs, o = JDict kvs →
       (∀ v, dict_lookup kvs (lit "descriptionOffer") = Some v → truthy v = true →
             ∃ s, v = JStr s) →
       offer_preview o
       = Ok (JDict [(lit "_id", field kvs (lit "_id"));
                    (lit "titleJob", field kvs (lit "titleJob"));
                    (lit "employer", field kvs (lit "employer"));
                    (lit "location", field kvs (lit "location"));
                    (lit "descriptionOffer", JStr (take 400 (description_text kvs)));
                    (lit "linkOffer", field kvs (lit "linkOffer"))])
       ∧ (length (take 400 (description_text kvs)) ≤ 400)%nat)
  ∧ (∀ kvs v, o = JDict kvs →
       dict_lookup kvs (lit "descriptionOffer") = Some v → truthy v = true →
       (∀ s, v ≠ JStr s) → (∀ l, v ≠ JList l) →
       offer_preview o = Raise TypeError).
Proof.
  split; [by destruct o|]. split.
  - intros kvs -> Hdesc. split; [|rewrite length_take; lia].
    unfold offer_preview, description_text, field. simpl.
    destruct (dict_lookup kvs (lit "descriptionOffer")) as [v|] eqn:Hv; simpl.
    + destruct (truthy v) eqn:Ht.
      * destruct (Hdesc v eq_refl Ht) as [s ->]. simpl.
        by rewrite py_slice_take by lia.
      * simpl. rewrite py_slice_take by lia. simpl.
        destruct v as [| | |s| |]; try done. by destruct s.
    + by rewrite py_slice_take by lia.
  - intros kvs v -> Hv Ht Hstr Hlist. unfold offer_preview. simpl.
    rewrite Hv. simpl. rewrite Ht.
    destruct v as [| | |s|l|]; try done; [by destruct (Hstr s)|by destruct (Hlist l)].
Qed.

(** A posting without employer, location and description. *)
Lemma offer_preview_fields_witness :
  offer_preview (Reference.posting 1)
  = Ok (JDict [(lit "_id", JStr (lit "offer-1"));
               (lit "titleJob", JStr (lit "QA Engineer"));
               (lit "employer", JNull);
               (lit "location", JNull);
               (lit "descriptionOffer", JStr []);
               (lit "linkOffer", JStr (lit "https://jobs.example/1"))]).
Proof.
  destruct (offer_preview_fields (Reference.posting 1)) as (_ & Hrecord & _).
  destruct (Hrecord _ eq_refl) as [Hpreview _]; [done|].
  rewrite Hpreview. vm_compute. reflexivity.
Defined.

Section BadOffer.
Context `{Env} `{PyLib} `{Settings}.
Variable self : GeminiAnalyzer.

Lemma result_map_raises {A B} (f : A → result B) (l : list A) :
  Exists (λ x, is_ok (f x) = false) l → ∃ e, result_map f l = Raise e.
Proof.
  induction 1 as [x l Hx|x l _ [e IH]]; simpl.
  - destruct (f x) as [|e]; [done|]. by exists e.
  - destruct (f x) as [b|e']; [|by exists e']. simpl. rewrite IH. by exists e.
Qed.

Lemma build_prompt_raises (batch : list json) (batch_idx total_batches : Z) :
  Exists (λ o, previewable o = false) batch →
  ∃ e, _build_prompt self batch batch_idx total_batches = Raise e.
Proof.
  intros Hbad. unfold _build_prompt.
  destruct (result_map_raises offer_preview batch Hbad) as [e ->]. by exists e.
Qed.

Lemma keeps_trans (path : pystr) (w1 w2 w3 : world) :
  keeps path w1 w2 → keeps path w2 w3 → keeps path w1 w3.
Proof. intros [Hf1 Hg1] [Hf2 Hg2]. split; congruence. Qed.

Lemma bind_keeps {A B} (path : pystr) (m : M A) (k : A → M B) (w : world) :
  keeps path w (m w).2 →
  (∀ a w', keeps path w' (k a w').2) →
  keeps path w (bind m k w).2.
Proof.
  intros Hm Hk. unfold bind. destruct (m w) as [[a|e] w1]; [|done].
  apply (keeps_trans _ _ w1); [done|apply Hk].
Qed.

(** A path that is not the path of a diagnostic artifact. *)
Lemma call_gemini_other_path (prompt : pystr) (batch_idx : Z) (w : world) (path : pystr) :
  (∀ b attempt ts, path ≠ raw_path b attempt ts) →
  keeps path w (_call_gemini_with_retries prompt batch_idx w).2.
Proof.
  intros Hpath. unfold _call_gemini_with_retries.
  rewrite (bind_lift_ok _ _ _ _ (py_range_seqZ _ _)).
  destruct (call_gemini_loop_effects prompt batch_idx (seqZ 1 (MAX_ATTEMPTS + 1 - 1))
              BACKOFF_SECONDS None w) as (new & _ & _ & _ & _ & _ & _ & Hfiles & Hgets).
  split; [|done]. apply Hfiles. intros a ts. apply Hpath.
Qed.

Lemma result_path_not_raw (b attempt ts : Z) : JSON_PATH ≠ raw_path b attempt ts.
Proof. intros Heq. by apply (raw_path_not_result b attempt ts). Qed.

Lemma batches_loop_bad_offer (batches : list (Z * list json)) (total_batches : Z) :
  ∀ (seen_ids : gset hashed) (all_matches : list json) (w : world),
  Exists (λ b, Exists (λ o, previewable o = false) b.2) batches →
  ∃ e w',
    batches_loop self batches total_batches seen_ids all_matches w = (Raise e, w')
    ∧ files w' !! JSON_PATH = files w !! JSON_PATH.
Proof.
  induction batches as [|[batch_idx batch] rest IH]; intros seen_ids all_matches w Hbad.
  - by apply Exists_nil in Hbad.
  - simpl. destruct (_build_prompt self batch batch_idx total_batches) as [prompt|e] eqn:Hp.
    + apply Exists_cons in Hbad as [Hbad|Hbad].
      { destruct (build_prompt_raises batch batch_idx total_batches Hbad). congruence. }
      unfold bind at 1, lift at 1. unfold bind at 1.
      pose proof (call_gemini_keeps_result prompt batch_idx w) as Hcall.
      destruct (_call_gemini_with_retries prompt batch_idx w) as [[batch_matches|e] w1];
        [|by exists e, w1].
      simpl in Hcall. destruct batch_matches as [|m ms].
      * destruct (IH seen_ids all_matches w1 Hbad) as (e & w' & -> & Hf).
        exists e, w'. by rewrite Hf.
      * unfold bind, lift.
        destruct (consolidate_batch (m :: ms) seen_ids all_matches)
          as [[seen' all']|e]; [|by exists e, w1].
        destruct (IH seen' all' w1 Hbad) as (e & w' & -> & Hf).
        exists e, w'. by rewrite Hf.
    + by exists e, w.
Qed.

Lemma chunks_first {A} (l : list A) (b m : nat) :
  chunks l b (S m) = take b l :: chunks (drop b l) b m.
Proof.
  unfold chunks. simpl. f_equal. rewrite <- fmap_S_seq, <- list_fmap_compose.
  apply list_fmap_ext. intros _ k _. simpl. rewrite drop_drop. do 2 f_equal; lia.
Qed.

End BadOffer.

(** X17. With a batch size of at least 1, an offer that has no preview
    (it is not a record, or its description cannot be sliced) makes the run
    raise, whichever batch it falls in, and the result artifact is not
    written. When the offer is in the first batch the run raises before any
    call of the service and has no effect at all. *)
Theorem filter_offers_unpreviewable_offer `{Env} `{PyLib} `{Settings}
    (self : GeminiAnalyzer) (offers : list json) (w : world) :
  1 ≤ BATCH_SIZE →
  Exists (λ o, previewable o = false) offers →
  ∃ e w',
    filter_offers self offers w = (Raise e, w')
    ∧ files w' !! JSON_PATH = files w !! JSON_PATH
    ∧ (Exists (λ o, previewable o = false) (take (Z.to_nat BATCH_SIZE) offers) → w' = w).
Proof.
  intros HB Hbad. unfold filter_offers.
  destruct offers as [|o offers]; [by apply Exists_nil in Hbad|].
  rewrite (bind_lift_ok _ _ _ _ (split_batches_chunks _ _ HB)).
  pose proof (range_length_pos (Z.of_nat (length (o :: offers))) BATCH_SIZE
                ltac:(lia) HB) as (Hm0 & Hcover & _).
  set (m := Z.to_nat (range_length 0 (Z.of_nat (length (o :: offers))) BATCH_SIZE)) in *.
  assert (concat (chunks (o :: offers) (Z.to_nat BATCH_SIZE) m) = o :: offers) as Hconcat.
  { rewrite concat_chunks. apply take_ge. subst m. nia. }
  destruct m as [|m].
  { simpl in Hconcat. done. }
  set (batches := chunks (o :: offers) (Z.to_nat BATCH_SIZE) (S m)) in *.
  assert (Exists (λ b : Z * list json, Exists (λ o, previewable o = false) b.2)
            (enumerate_from 1 batches)) as Hsome.
  { rewrite <- Hconcat in Hbad. apply Exists_exists in Hbad as (x & Hx & Hbadx).
    apply elem_of_concat in Hx as (batch & Hxb & Hb).
    apply list_elem_of_lookup_1 in Hb as [i Hi].
    apply Exists_exists. exists (1 + Z.of_nat i, batch). split.
    - apply list_elem_of_lookup_2 with i. unfold enumerate_from.
      by rewrite list_lookup_imap, Hi.
    - simpl. apply Exists_exists. by exists x. }
  destruct (batches_loop_bad_offer self _ (Z.of_nat (length batches)) ∅ [] w Hsome)
    as (e & w' & Hloop & Hfiles).
  exists e, w'. unfold bind at 1. rewrite Hloop. split; [done|]. split; [done|].
  intros Hfirst. subst batches. rewrite chunks_first in Hloop.
  unfold enumerate_from in Hloop. rewrite imap_cons in Hloop. cbn [batches_loop] in Hloop.
  match type of Hloop with context [_build_prompt self ?b ?i ?t] =>
    destruct (build_prompt_raises self b i t Hfirst) as [e' He'] end.
  unfold bind at 1, lift at 1 in Hloop. rewrite He' in Hloop. by injection Hloop as _ <-.
Qed.

(** A text among the postings of the first batch. *)
Lemma filter_offers_unpreviewable_offer_witness :
  ∃ e,
    @filter_offers (Reference.scripted_gemini [Reference.selects [1]]) Reference.lib
      Reference.small_batches Reference.sample_analyzer
      [Reference.posting 1; JStr (lit "posting"); Reference.posting 3]
      Reference.empty_world
    = (Raise e, Reference.empty_world).
Proof.
  destruct (@filter_offers_unpreviewable_offer (Reference.scripted_gemini [Reference.selects [1]])
              Reference.lib Reference.small_batches Reference.sample_analyzer
              [Reference.posting 1; JStr (lit "posting"); Reference.posting 3]
              Reference.empty_world) as (e & w' & Hrun & _ & Hfirst).
  - simpl. lia.
  - apply Exists_cons_tl, Exists_cons_hd. reflexivity.
  - exists e. rewrite Hrun, Hfirst; [done|].
    apply Exists_cons_tl, Exists_cons_hd. reflexivity.
Defined.

Section ResultArtifact.
Context `{Env} `{PyLib} `{Settings}.
Variable self : GeminiAnalyzer.

Lemma batches_loop_other_path (path : pystr) (batches : list (Z * list json))
    (total_batches : Z) :
  (∀ b attempt ts, path ≠ raw_path b attempt ts) →
  ∀ (seen_ids : gset hashed) (all_matches : list json) (w : world),
  keeps path w (batches_loop self batches total_batches seen_ids all_matches w).2.
Proof.
  intros Hpath.
  induction batches as [|[batch_idx batch] rest IH]; intros seen_ids all_matches w; [done|].
  simpl. apply bind_keeps; [done|]. intros prompt w0.
  apply bind_keeps; [by apply call_gemini_other_path|]. intros batch_matches w1.
  destruct batch_matches as [|m ms]; [apply IH|].
  apply bind_keeps; [done|]. intros [seen' all'] w2. apply IH.
Qed.

Lemma batches_loop_json_path (batches : list (Z * list json)) (total_batches : Z) :
  ∀ (seen_ids : gset hashed) (all_matches : list json) (w : world),
  files (batches_loop self batches total_batches seen_ids all_matches w).2 !! JSON_PATH
  = files w !! JSON_PATH.
Proof. intros. by apply batches_loop_other_path, result_path_not_raw. Qed.

Lemma consolidate_batch_unhashable (front : list json) (m : json) (back : list json)
    (seen_ids : gset hashed) (all_matches : list json) (key : json) :
  Forall keyed front → match_key m = Ok key → py_hash key = Raise TypeError →
  consolidate_batch (front ++ m :: back) seen_ids all_matches = Raise TypeError.
Proof.
  revert seen_ids all_matches.
  induction front as [|x front IH]; intros seen_ids all_matches Hfront Hm Hkey.
  - simpl. rewrite Hm. simpl. by rewrite Hkey.
  - apply Forall_cons in Hfront as [Hx Hfront]. simpl.
    pose proof (keyed_class x Hx) as Hxkey. unfold hashed_key in Hxkey.
    destruct (match_key x) as [kx|]; [|done]. simpl in *. rewrite Hxkey. simpl.
    case_bool_decide; by apply IH.
Qed.

(** The run on a non-empty input, stage by stage. *)
Lemma filter_offers_stages (o : json) (offers : list json) (w : world) :
  filter_offers self (o :: offers) w
  = match split_batches (o :: offers) BATCH_SIZE with
    | Ok batches =>
      match batches_loop self (enumerate_from 1 batches)
              (Z.of_nat (length batches)) ∅ [] w with
      | (Ok (_, all_matches), w1) =>
        if json_encodable (JList all_matches)
        then (Ok all_matches, saved all_matches w1)
        else (Raise UnicodeEncodeError,
              stored JSON_PATH (json_dump_partial artifact_options (JList all_matches)) w1)
      | (Raise e, w1) => (Raise e, w1)
      end
    | Raise e => (Raise e, w)
    end.
Proof.
  unfold filter_offers, bind, lift.
  destruct (split_batches (o :: offers) BATCH_SIZE) as [batches|e0]; [|done].
  destruct (batches_loop _ _ _ _ _ _) as [[[seen_ids all_matches]|e1] w1]; [|done].
  unfold _save_filtered_offers, bind, write_json.
  by destruct (json_encodable (JList all_matches)).
Qed.

End ResultArtifact.

(** X18. On a non-empty input, a run that returns has written what it
    returns to the result artifact, as its last write. A run that raises
    leaves the result artifact as it was, unless what it raises is the
    [UnicodeEncodeError] of the save of a consolidated list that cannot be
    encoded: the artifact then holds the part of the list written before
    the text that cannot be encoded, as the last write of the run. *)
Theorem filter_offers_result_artifact `{Env} `{PyLib} `{Settings}
    (self : GeminiAnalyzer) (offers : list json) (w : world) :
  offers ≠ [] →
  (∀ final w', filter_offers self offers w = (Ok final, w') →
     json_encodable (JList final) = true
     ∧ files w' !! JSON_PATH = Some (json_dumps artifact_options (JList final))
     ∧ last (writes_in (trace w')) = Some (JSON_PATH, json_dumps artifact_options (JList final)))
  ∧ (∀ e w', filter_offers self offers w = (Raise e, w') →
       files w' !! JSON_PATH = files w !! JSON_PATH
       ∨ (e = UnicodeEncodeError
          ∧ ∃ batches seen_ids all_matches w1,
              split_batches offers BATCH_SIZE = Ok batches
              ∧ batches_loop self (enumerate_from 1 batches) (Z.of_nat (length batches))
                  ∅ [] w = (Ok (seen_ids, all_matches), w1)
              ∧ json_encodable (JList all_matches) = false
              ∧ files w' !! JSON_PATH
                = Some (json_dump_partial artifact_options (JList all_matches))
              ∧ last (writes_in (trace w'))
                = Some (JSON_PATH, json_dump_partial artifact_options (JList all_matches)))).
Proof.
  intros Hne. destruct offers as [|o offers]; [done|].
  rewrite filter_offers_stages.
  destruct (split_batches (o :: offers) BATCH_SIZE) as [batches|e0].
  2:{ split; [done|]. intros e w' [= _ <-]. by left. }
  pose proof (batches_loop_json_path self (enumerate_from 1 batches)
                (Z.of_nat (length batches)) ∅ [] w) as Hloop.
  destruct (batches_loop self (enumerate_from 1 batches) (Z.of_nat (length batches)) ∅ [] w)
    as [[[seen_ids all_matches]|e1] w1] eqn:Hrun.
  - destruct (json_encodable (JList all_matches)) eqn:Henc.
    + split; [|done]. intros final w' [= <- <-]. simpl.
      split; [done|]. split; [by rewrite lookup_insert_eq|].
      unfold writes_in. by rewrite omap_snoc, last_snoc.
    + split; [done|]. intros e w' [= <- <-]. right. split; [done|].
      exists batches, seen_ids, all_matches, w1. unfold stored. cbn [files trace].
      split; [done|]. split; [done|]. split; [done|].
      split; [by rewrite lookup_insert_eq|].
      unfold writes_in. by rewrite omap_snoc, last_snoc.
  - split; [done|]. intros e w' [= _ <-]. by left.
Qed.

(** Two batches whose results overlap. *)
Lemma filter_offers_result_artifact_witness :
  let script := [Reference.selects [1; 2]; Reference.selects [2; 3; 1]] in
  let final := Reference.match_record <$> [1; 2; 3] in
  ∃ w',
    @filter_offers (Reference.scripted_gemini script) Reference.lib Reference.small_batches
      Reference.sample_analyzer (Reference.posting <$> [1; 2; 3]) Reference.empty_world
    = (Ok final, w')
    ∧ files w' !! JSON_PATH = Some (Reference.dumps artifact_options (JList final))
    ∧ last (writes_in (trace w'))
      = Some (JSON_PATH, Reference.dumps artifact_options (JList final)).
Proof.
  intros script final.
  destruct (@filter_offers_result_artifact (Reference.scripted_gemini script) Reference.lib
              Reference.small_batches Reference.sample_analyzer
              (Reference.posting <$> [1; 2; 3]) Reference.empty_world) as [Hok _]; [done|].
  exists (@filter_offers (Reference.scripted_gemini script) Reference.lib
            Reference.small_batches Reference.sample_analyzer
            (Reference.posting <$> [1; 2; 3]) Reference.empty_world).2.
  assert (@filter_offers (Reference.scripted_gemini script) Reference.lib
            Reference.small_batches Reference.sample_analyzer
            (Reference.posting <$> [1; 2; 3]) Reference.empty_world
          = (Ok final,
             (@filter_offers (Reference.scripted_gemini script) Reference.lib
                Reference.small_batches Reference.sample_analyzer
                (Reference.posting <$> [1; 2; 3]) Reference.empty_world).2)) as Hrun.
  { vm_compute. reflexivity. }
  split; [exact Hrun|]. exact (proj2 (Hok _ _ Hrun)).
Defined.

(** A match whose title holds a surrogate, evaluated: the run ends with
    [UnicodeEncodeError] and the result artifact is cut before the title. *)
Example unencodable_match_cuts_result :
  let broken := JDict [(lit "id", JStr (lit "offer-1"));
                       (lit "title", JStr (lit "QA " ++ [55357%N]))] in
  let answer := Generates (Reference.text_response
                  (Reference.dumps {| sort_keys := false; ensure_ascii := false;
                                      indent := None |} (JList [broken]))) in
  let run := @filter_offers (Reference.scripted_gemini [answer]) Reference.lib
               Reference.default_settings Reference.sample_analyzer [Reference.posting 1]
               Reference.empty_world in
  run.1 = Raise UnicodeEncodeError
  ∧ files run.2 !! JSON_PATH
    = Some (lit "[" ++ nl ++ lit "  {" ++ nl ++ lit "    " ++ quoted "id" ++ lit ": "
            ++ quoted "offer-1" ++ lit "," ++ nl ++ lit "    " ++ quoted "title" ++ lit ": ").
Proof. vm_compute. split; reflexivity. Qed.

(** X19. A match whose [id] is a non-empty list or a non-empty record
    cannot be put into the set of seen keys: the consolidation raises
    [TypeError] when it reaches it. *)
Theorem unhashable_match_key `{PyLib} (front : list json) (kvs : list (pystr * json))
    (back : list json) (seen_ids : gset hashed) (all_matches : list json) (v : json) :
  Forall keyed front →
  dict_lookup kvs (lit "id") = Some v →
  truthy v = true →
  is_list v = true ∨ is_dict v = true →
  consolidate_batch (front ++ JDict kvs :: back) seen_ids all_matches = Raise TypeError.
Proof.
  intros Hfront Hid Htrue Hkind.
  apply (consolidate_batch_unhashable front _ back seen_ids all_matches v); [done| |].
  - rewrite match_key_record. unfold key_of_record. rewrite Hid. simpl. by rewrite Htrue.
  - destruct Hkind as [Hkind|Hkind]; by destruct v.
Qed.

(** A match whose [id] is the list [[7]]. *)
Lemma unhashable_match_key_witness :
  @consolidate_batch Reference.lib
    ([Reference.match_record 1]
     ++ JDict [(lit "id", JList [JInt 7]); (lit "title", JStr (lit "QA Engineer"))]
     :: [Reference.match_record 2]) ∅ []
  = Raise TypeError.
Proof.
  apply (@unhashable_match_key Reference.lib [Reference.match_record 1] _ _ ∅ []
           (JList [JInt 7])).
  - by repeat constructor.
  - reflexivity.
  - reflexivity.
  - by left.
Defined.

(** * Further properties of the digest renderer *)

Lemma escape_char_cases (c : N) :
  (markup c = false ∧ escape_char c = [c])
  ∨ (c = 38%N ∧ escape_char c = [38; 97; 109; 112; 59]%N)
  ∨ (c = 60%N ∧ escape_char c = [38; 108; 116; 59]%N)
  ∨ (c = 62%N ∧ escape_char c = [38; 103; 116; 59]%N)
  ∨ (c = 34%N ∧ escape_char c = [38; 113; 117; 111; 116; 59]%N)
  ∨ (c = 39%N ∧ escape_char c = [38; 35; 120; 50; 55; 59]%N).
Proof.
  unfold escape_char, markup.
  destruct (N.eqb_spec c 38) as [->|?]; [by right; left|].
  destruct (N.eqb_spec c 60) as [->|?]; [by right; right; left|].
  destruct (N.eqb_spec c 62) as [->|?]; [by right; right; right; left|].
  destruct (N.eqb_spec c 34) as [->|?]; [by right; right; right; right; left|].
  destruct (N.eqb_spec c 39) as [->|?]; [by right; right; right; right; right|].
  by left.
Qed.




Section Digest.
Context `{PyLib}.

Lemma render_offer_cases (offer : json) :
  (renderable offer ∧ render_offer offer = Ok (block_of offer))
  ∨ (¬ renderable offer ∧ render_offer offer = Raise AttributeError).
Proof.
  destruct (render_offer offer) as [block|e] eqn:Hrender.
  - left. assert (renderable offer) as Hr.
    { destruct offer as [| | | | |kvs]; try done.
      destruct (text_field_cases kvs (lit "title") (lit "Sin título")) as [[Ht _]|[_ Et]].
      2:{ unfold render_offer, rbind in *.
          destruct (py_get _ (lit "title") _); [by rewrite Et in Hrender|done]. }
      destruct (text_field_cases kvs (lit "employer") (lit "Sin empresa"))
        as [[He _]|[_ Ee]].
      2:{ unfold render_offer, rbind in *.
          destruct (py_get _ (lit "title") _); [|done].
          destruct (html_escape _); [|done].
          destruct (py_get _ (lit "employer") _); [by rewrite Ee in Hrender|done]. }
      destruct (text_field_cases kvs (lit "linkOffer") (lit "#")) as [[Hl _]|[_ El]].
      2:{ unfold render_offer, rbind in *.
          destruct (py_get _ (lit "title") _); [|done].
          destruct (html_escape _); [|done].
          destruct (py_get _ (lit "employer") _); [|done].
          destruct (html_escape _); [|done].
          destruct (py_get _ (lit "linkOffer") _); [by rewrite El in Hrender|done]. }
      destruct (text_field_cases kvs (lit "reason") []) as [[Hr _]|[_ Er]].
      2:{ unfold render_offer, rbind in *.
          destruct (py_get _ (lit "title") _); [|done].
          destruct (html_escape _); [|done].
          destruct (py_get _ (lit "employer") _); [|done].
          destruct (html_escape _); [|done].
          destruct (py_get _ (lit "linkOffer") _); [|done].
          destruct (html_escape _); [|done].
          destruct (py_get _ (lit "reason") _); [by rewrite Er in Hrender|done]. }
      by exists kvs. }
    split; [done|]. destruct Hr as (kvs & -> & Ht & He & Hl & Hr).
    rewrite render_offer_record in Hrender by done. by rewrite <- Hrender.
  - right. assert (¬ renderable offer) as Hnot.
    { intros (kvs & -> & Ht & He & Hl & Hr).
      by rewrite render_offer_record in Hrender by done. }
    split; [done|]. rewrite render_offer_not_renderable in Hrender by done. congruence.
Qed.

End Digest.

Section DigestRun.
Context `{PyLib}.

Lemma render_offers_blocks (offers : list json) :
  Forall renderable offers →
  ∀ html_content,
    render_offers offers html_content = Ok (html_content ++ mjoin (block_of <$> offers)).
Proof.
  induction 1 as [|offer offers Hr _ IH]; intros html_content.
  - simpl. by rewrite app_nil_r.
  - simpl. destruct (render_offer_cases offer) as [[_ ->]|[Hnot _]]; [|done].
    simpl. by rewrite IH, <- app_assoc.
Qed.

Lemma render_offers_fails (offers : list json) :
  Exists (λ o, ¬ renderable o) offers →
  ∀ html_content, render_offers offers html_content = Raise AttributeError.
Proof.
  induction 1 as [offer offers Hnot|offer offers _ IH]; intros html_content; simpl.
  - by rewrite render_offer_not_renderable.
  - destruct (render_offer_cases offer) as [[_ ->]|[_ ->]]; [apply IH|done].
Qed.

End DigestRun.

(** X21. A match that is not renderable (it is not a record, or one of
    its four fields is there but is not a text) makes [generate_html] raise
    [AttributeError], wherever it is in the list, before anything is
    written: the digest of an earlier run stays as it was. *)
Theorem generate_html_not_renderable `{PyLib} (offers : list json) (w : world) :
  Exists (λ o, ¬ renderable o) offers →
  generate_html offers w = (Raise AttributeError, w).
Proof.
  intros Hbad. unfold generate_html, html_document.
  destruct offers as [|o offers]; [by apply Exists_nil in Hbad|].
  by rewrite render_offers_fails.
Qed.

(** A match whose title is [None], after a renderable one. *)
Lemma generate_html_not_renderable_witness :
  @generate_html Reference.lib
    [Reference.match_record 1; JDict [(lit "title", JNull)]] Reference.empty_world
  = (Raise AttributeError, Reference.empty_world).
Proof.
  apply (@generate_html_not_renderable Reference.lib).
  apply Exists_cons_tl, Exists_cons_hd.
  intros (kvs & [= <-] & [Ht|[s Ht]] & _); vm_compute in Ht; discriminate.
Defined.

(** X22. The digest of renderable matches is the page head, then one
    block for each match, in the order of the matches, then the closing
    tags; the paragraph that tells that nothing was found is there exactly
    when the list is empty. When the digest can be encoded it is written to
    the digest file; when it cannot, the run ends with
    [UnicodeEncodeError] and the digest file is left empty. No other file
    is touched. *)
Theorem html_document_layout `{PyLib} (offers : list json) (w : world) :
  Forall renderable offers →
  ∃ document,
    html_document offers = Ok document
    ∧ document
      = page_head
        ++ match offers with
           | [] => lit "<p>No se encontraron ofertas que coincidan con el perfil.</p>" ++ nl
           | _ :: _ => mjoin (block_of <$> offers)
           end
        ++ lit "</body></html>"
    ∧ (encodable document = true →
       generate_html offers w = (Ok (), digest_written document w)
       ∧ files (generate_html offers w).2 !! HTML_PATH = Some document)
    ∧ (encodable document = false →
       generate_html offers w = (Raise UnicodeEncodeError, stored HTML_PATH [] w)
       ∧ files (generate_html offers w).2 !! HTML_PATH = Some [])
    ∧ (∀ path, path ≠ HTML_PATH → files (generate_html offers w).2 !! path = files w !! path).
Proof.
  intros Hall.
  assert (html_document offers
          = Ok (page_head
                ++ match offers with
                   | [] => lit "<p>No se encontraron ofertas que coincidan con el perfil.</p>"
                           ++ nl
                   | _ :: _ => mjoin (block_of <$> offers)
                   end
                ++ lit "</body></html>")) as Hdoc.
  { unfold html_document. destruct offers as [|o offers].
    - simpl. by rewrite <- !app_assoc.
    - rewrite render_offers_blocks by done. simpl. by rewrite <- !app_assoc. }
  eexists. split; [exact Hdoc|]. split; [reflexivity|].
  rewrite (generate_html_document _ _ w Hdoc).
  split; [|split].
  - intros ->. split; [done|]. simpl. by rewrite lookup_insert_eq.
  - intros ->. split; [done|]. simpl. by rewrite lookup_insert_eq.
  - intros path Hpath. destruct (encodable _); simpl; by rewrite lookup_insert_ne.
Qed.

(** Two matches. *)
Lemma html_document_layout_witness :
  ∃ document,
    @html_document Reference.lib (Reference.match_record <$> [1; 2]) = Ok document
    ∧ document
      = @page_head Reference.lib
        ++ (@block_of Reference.lib (Reference.match_record 1)
            ++ @block_of Reference.lib (Reference.match_record 2))
        ++ lit "</body></html>"
    ∧ @generate_html Reference.lib (Reference.match_record <$> [1; 2]) Reference.empty_world
      = (Ok (), digest_written document Reference.empty_world).
Proof.
  destruct (@html_document_layout Reference.lib (Reference.match_record <$> [1; 2])
              Reference.empty_world) as (document & Hdoc & Hlayout & Hwritten & _).
  - repeat constructor; eexists; (split; [reflexivity|]);
      repeat split; right; by eexists.
  - exists document. split; [exact Hdoc|].
    split; [rewrite Hlayout; vm_compute; reflexivity|].
    apply Hwritten. rewrite Hlayout. vm_compute. reflexivity.
Defined.

(** A match whose title holds a surrogate, evaluated: the match is
    renderable, yet the digest cannot be written and the file is left
    empty. *)
Example unencodable_title_empties_digest :
  let offer := JDict [(lit "title", JStr (lit "QA " ++ [55357%N]))] in
  let before := {| trace := []; files := {[HTML_PATH := lit "<html>old</html>"]};
                   gets := 0; generates := 0; clock_reads := 0 |} in
  (@generate_html Reference.lib [offer] before).1 = Raise UnicodeEncodeError
  ∧ files (@generate_html Reference.lib [offer] before).2 !! HTML_PATH = Some [].
Proof. vm_compute. split; reflexivity. Qed.

(** * Further properties of the whole run *)

Lemma digest_path_not_raw (b attempt ts : Z) : HTML_PATH ≠ raw_path b attempt ts.
Proof. unfold raw_path, HTML_PATH. intros Heq. vm_compute in Heq. discriminate. Qed.

Lemma digest_path_not_result : HTML_PATH ≠ JSON_PATH.
Proof. intros Heq. vm_compute in Heq. discriminate. Qed.

Lemma filter_offers_keeps `{Env} `{PyLib} `{Settings} (self : GeminiAnalyzer)
    (offers : list json) (w : world) (path : pystr) :
  path ≠ JSON_PATH →
  (∀ b attempt ts, path ≠ raw_path b attempt ts) →
  keeps path w (filter_offers self offers w).2.
Proof.
  intros Hresult Hraw. unfold filter_offers. destruct offers as [|o offers]; [done|].
  apply bind_keeps; [done|]. intros batches w0.
  apply bind_keeps; [by apply batches_loop_other_path|]. intros [seen_ids all_matches] w1.
  apply bind_keeps; [|done]. unfold _save_filtered_offers.
  apply bind_keeps; [|done]. unfold write_json.
  destruct (json_encodable _); (split; [|done]); simpl; by rewrite lookup_insert_ne.
Qed.

(** ** Texts that can be encoded *)

Lemma encodable_app (a b : pystr) : encodable (a ++ b) = encodable a && encodable b.
Proof. apply forallb_app. Qed.

Lemma encodable_replicate (n : nat) : encodable (replicate n 32%N) = true.
Proof. induction n as [|n IH]; [done|exact IH]. Qed.

Lemma encodable_line (margin : nat) (s : pystr) : encodable (line margin s) = encodable s.
Proof.
  unfold line. rewrite !encodable_app, encodable_replicate. simpl.
  by rewrite andb_true_r.
Qed.

Lemma encodable_escape (s : pystr) :
  encodable s = true → encodable (mjoin (escape_char <$> s)) = true.
Proof.
  induction s as [|c s IH]; [done|].
  change (encodable (c :: s)) with (negb (is_surrogate c) && encodable s).
  intros [Hc Hs]%andb_true_iff.
  rewrite fmap_cons. change (mjoin (escape_char c :: (escape_char <$> s)))
    with (escape_char c ++ mjoin (escape_char <$> s)).
  rewrite encodable_app, IH by done. rewrite andb_true_r.
  destruct (escape_char_cases c) as [[_ ->]|[[_ ->]|[[_ ->]|[[_ ->]|[[_ ->]|[_ ->]]]]]];
    try done.
  unfold encodable. simpl. by rewrite Hc.
Qed.

Lemma dict_lookup_encodable (kvs : list (pystr * json)) (key : pystr) (v : json) :
  json_encodable (JDict kvs) = true → dict_lookup kvs key = Some v →
  json_encodable v = true.
Proof.
  induction kvs as [|[k x] kvs IH]; [done|]. simpl.
  intros [[_ Hx]%andb_true_iff Hrest]%andb_true_iff.
  destruct (decide (k = key)); [by intros [= <-]|]. by apply IH.
Qed.

Lemma shown_encodable (kvs : list (pystr * json)) (key placeholder : pystr) :
  json_encodable (JDict kvs) = true → encodable placeholder = true →
  encodable (shown kvs key placeholder) = true.
Proof.
  intros Hkvs Hplaceholder. unfold shown.
  destruct (dict_lookup kvs key) as [v|] eqn:Hv; [|done].
  destruct v as [| | |s| |]; try done.
  apply encodable_escape. exact (dict_lookup_encodable kvs key (JStr s) Hkvs Hv).
Qed.

Section Encodable.
Context `{PyLib}.

Lemma offer_block_encodable (title employer reason link_offer : pystr) :
  encodable title = true → encodable employer = true → encodable reason = true →
  encodable link_offer = true →
  encodable (offer_block title employer reason link_offer) = true.
Proof.
  intros Ht He Hr Hl. unfold offer_block.
  rewrite !encodable_app, !encodable_line, !encodable_app, encodable_replicate.
  by rewrite Ht, He, Hr, Hl.
Qed.

Lemma block_of_encodable (offer : json) :
  json_encodable offer = true → encodable (block_of offer) = true.
Proof.
  intros Henc. destruct offer as [| | | | |kvs]; try done.
  apply dedent_encodable, offer_block_encodable; by apply shown_encodable.
Qed.

Lemma page_head_encodable : encodable page_head = true.
Proof. apply dedent_encodable. vm_compute. reflexivity. Qed.

Lemma empty_digest_encodable : encodable empty_digest = true.
Proof.
  unfold empty_digest. rewrite !encodable_app, page_head_encodable. reflexivity.
Qed.

Lemma blocks_encodable (offers : list json) :
  json_encodable (JList offers) = true → encodable (mjoin (block_of <$> offers)) = true.
Proof.
  induction offers as [|o offers IH]; [done|]. simpl.
  intros [Ho Hrest]%andb_true_iff. rewrite encodable_app, block_of_encodable by done.
  by apply IH.
Qed.

(** The digest of matches that were saved can be written. *)
Lemma document_encodable (matches : list json) (document : pystr) :
  Forall renderable matches → json_encodable (JList matches) = true →
  html_document matches = Ok document → encodable document = true.
Proof.
  intros Hall Henc. unfold html_document. destruct matches as [|m matches].
  - intros [= <-]. rewrite !encodable_app, page_head_encodable. reflexivity.
  - rewrite render_offers_blocks by done. intros Hdoc.
    assert (document = page_head ++ mjoin (block_of <$> m :: matches)
                       ++ lit "</body></html>") as ->.
    { injection Hdoc as <-. by rewrite <- app_assoc. }
    rewrite !encodable_app, page_head_encodable, (blocks_encodable _ Henc). reflexivity.
Qed.

End Encodable.

(** What a run of the filter that returns has saved. *)
Lemma filter_offers_returned `{Env} `{PyLib} `{Settings} (self : GeminiAnalyzer)
    (offers matches : list json) (w w' : world) :
  offers ≠ [] →
  filter_offers self offers w = (Ok matches, w') →
  json_encodable (JList matches) = true
  ∧ files w' !! JSON_PATH = Some (json_dumps artifact_options (JList matches))
  ∧ last (writes_in (trace w')) = Some (JSON_PATH, json_dumps artifact_options (JList matches)).
Proof.
  intros Hne Hfilter. destruct offers as [|o offers]; [done|].
  rewrite filter_offers_stages in Hfilter.
  destruct (split_batches (o :: offers) BATCH_SIZE) as [batches|e0]; [|done].
  destruct (batches_loop _ _ _ _ _ _) as [[[seen_ids all_matches]|e1] w3]; [|done].
  destruct (json_encodable (JList all_matches)) eqn:Henc; [|done].
  injection Hfilter as <- <-. split; [done|]. simpl. split; [by rewrite lookup_insert_eq|].
  unfold writes_in. by rewrite omap_snoc, last_snoc.
Qed.

(** X23. Whatever the service answers, [filter_offers] touches no file
    other than the result artifact and the diagnostic artifacts, and it
    sends no request to the listing service. *)
Theorem filter_offers_other_files `{Env} `{PyLib} `{Settings} (self : GeminiAnalyzer)
    (offers : list json) (w : world) (path : pystr) :
  path ≠ JSON_PATH →
  (∀ b attempt ts, path ≠ raw_path b attempt ts) →
  files (filter_offers self offers w).2 !! path = files w !! path
  ∧ gets (filter_offers self offers w).2 = gets w.
Proof. apply filter_offers_keeps. Qed.

(** The digest file, over a run with one failed attempt. *)
Lemma filter_offers_other_files_witness :
  let script := [Generates (Reference.text_response (lit "Sorry, I cannot help with that."));
                 Reference.selects [1]] in
  files (@filter_offers (Reference.scripted_gemini script) Reference.lib
           Reference.small_batches Reference.sample_analyzer [Reference.posting 1]
           Reference.empty_world).2 !! HTML_PATH
  = files Reference.empty_world !! HTML_PATH
  ∧ gets (@filter_offers (Reference.scripted_gemini script) Reference.lib
            Reference.small_batches Reference.sample_analyzer [Reference.posting 1]
            Reference.empty_world).2
    = gets Reference.empty_world.
Proof.
  intros script.
  apply (@filter_offers_other_files (Reference.scripted_gemini script) Reference.lib
           Reference.small_batches Reference.sample_analyzer [Reference.posting 1]
           Reference.empty_world HTML_PATH).
  - apply digest_path_not_result.
  - apply digest_path_not_raw.
Defined.

(** X24. When the listing has no offer, [main] makes no inference call
    and does not write the result artifact, which keeps what an earlier run
    left in it; the only file it writes is the digest, with the paragraph
    that tells that nothing was found. *)
Theorem main_no_offers `{Env} `{PyLib} `{Settings} (fetcher : JobOffersFetcher)
    (analyzer : GeminiAnalyzer) (w w1 : world) (meta : RunMetadata) :
  get_all_offers fetcher 7 None true w = (Ok ([], meta), w1) →
  main fetcher analyzer w = (Ok (), digest_written empty_digest w1)
  ∧ generates (digest_written empty_digest w1) = generates w
  ∧ files (digest_written empty_digest w1) = <[HTML_PATH := empty_digest]> (files w)
  ∧ files (digest_written empty_digest w1) !! JSON_PATH = files w !! JSON_PATH.
Proof.
  intros Hfetch.
  pose proof (get_all_offers_frame fetcher 7 true None w) as Hframe.
  rewrite Hfetch in Hframe. destruct Hframe as (new & _ & _ & Hfiles & Hgen & _).
  simpl in Hfiles, Hgen. split; [|split; [|split]].
  - unfold main. rewrite (bind_ok _ _ _ _ _ Hfetch). cbv beta iota.
    unfold filter_offers. unfold bind at 1, ret at 1.
    assert (html_document [] = Ok empty_digest) as Hdoc.
    { unfold html_document, empty_digest. simpl. by rewrite <- !app_assoc. }
    by rewrite (generate_html_document _ _ w1 Hdoc), empty_digest_encodable.
  - done.
  - simpl. by rewrite Hfiles.
  - simpl. rewrite lookup_insert_ne by apply digest_path_not_result. by rewrite Hfiles.
Qed.

(** A listing without postings. *)
Lemma main_no_offers_witness :
  @main Reference.empty_service Reference.lib Reference.default_settings
    Reference.default_fetcher Reference.sample_analyzer Reference.empty_world
  = (Ok (), digest_written (@empty_digest Reference.lib)
              (sent (page_params 7 1) Reference.empty_world))
  ∧ generates (digest_written (@empty_digest Reference.lib)
                 (sent (page_params 7 1) Reference.empty_world)) = 0%nat.
Proof.
  destruct (@main_no_offers Reference.empty_service Reference.lib Reference.default_settings
              Reference.default_fetcher Reference.sample_analyzer Reference.empty_world
              (sent (page_params 7 1) Reference.empty_world)
              {| total_reported := JInt 0; pages_traversed := 0; total_pages_api := 0;
                 items_consolidated := 0; days_param := 7 |})
    as (Hrun & Hgen & _).
  - vm_compute. reflexivity.
  - split; [exact Hrun|exact Hgen].
Defined.

(** X25. When the fetch of the listing raises, [main] ends with that
    exception: it has made no inference call and has written no file. *)
Theorem main_listing_failure `{Env} `{PyLib} `{Settings} (fetcher : JobOffersFetcher)
    (analyzer : GeminiAnalyzer) (w w1 : world) (e : exn) :
  get_all_offers fetcher 7 None true w = (Raise e, w1) →
  main fetcher analyzer w = (Raise e, w1)
  ∧ files w1 = files w
  ∧ generates w1 = generates w.
Proof.
  intros Hfetch.
  pose proof (get_all_offers_frame fetcher 7 true None w) as Hframe.
  rewrite Hfetch in Hframe. destruct Hframe as (new & _ & _ & Hfiles & Hgen & _).
  split; [|done]. unfold main, bind. by rewrite Hfetch.
Qed.

(** A listing service that answers 503. *)
Lemma main_listing_failure_witness :
  @main Reference.always_503 Reference.lib Reference.default_settings
    Reference.default_fetcher Reference.sample_analyzer Reference.empty_world
  = (Raise HttpError, after_retries (page_params 7 1) Reference.empty_world 1 3)
  ∧ files (after_retries (page_params 7 1) Reference.empty_world 1 3) = ∅
  ∧ generates (after_retries (page_params 7 1) Reference.empty_world 1 3) = 0%nat.
Proof.
  apply (@main_listing_failure Reference.always_503 Reference.lib Reference.default_settings
           Reference.default_fetcher Reference.sample_analyzer Reference.empty_world).
  vm_compute. reflexivity.
Defined.

(** X26. When the consolidated matches hold one that is not renderable,
    [main] raises [AttributeError] after the result artifact has been
    written with these matches and before the digest is written: the digest
    file keeps what it held before the run. *)
Theorem main_unrenderable_match `{Env} `{PyLib} `{Settings} (fetcher : JobOffersFetcher)
    (analyzer : GeminiAnalyzer) (w w1 w2 : world) (offers : list json) (meta : RunMetadata)
    (matches : list json) :
  get_all_offers fetcher 7 None true w = (Ok (offers, meta), w1) →
  offers ≠ [] →
  filter_offers analyzer offers w1 = (Ok matches, w2) →
  Exists (λ m, ¬ renderable m) matches →
  main fetcher analyzer w = (Raise AttributeError, w2)
  ∧ files w2 !! JSON_PATH = Some (json_dumps artifact_options (JList matches))
  ∧ files w2 !! HTML_PATH = files w !! HTML_PATH.
Proof.
  intros Hfetch Hne Hfilter Hbad.
  pose proof (get_all_offers_frame fetcher 7 true None w) as Hframe.
  rewrite Hfetch in Hframe. destruct Hframe as (new & _ & _ & Hfiles & _).
  pose proof (filter_offers_keeps analyzer offers w1 HTML_PATH digest_path_not_result
                digest_path_not_raw) as [Hkeep _].
  rewrite Hfilter in Hkeep. simpl in Hfiles, Hkeep.
  split; [|split].
  - unfold main. rewrite (bind_ok _ _ _ _ _ Hfetch). cbv beta iota.
    rewrite (bind_ok _ _ _ _ _ Hfilter). unfold generate_html, html_document.
    destruct matches as [|m matches]; [by apply Exists_nil in Hbad|].
    by rewrite render_offers_fails.
  - by destruct (filter_offers_returned analyzer offers matches w1 w2 Hne Hfilter)
      as (_ & Hsaved & _).
  - by rewrite Hkeep, Hfiles.
Qed.

(** A match whose title is [None]. *)
Lemma main_unrenderable_match_witness :
  let broken := JDict [(lit "id", JStr (lit "offer-1")); (lit "title", JNull)] in
  let answer := Generates (Reference.text_response
                  (Reference.dumps {| sort_keys := false; ensure_ascii := true;
                                      indent := None |} (JList [broken]))) in
  ∃ w2,
    @main (Reference.both_services 1 [answer]) Reference.lib Reference.batches_of_five
      Reference.default_fetcher Reference.sample_analyzer Reference.empty_world
    = (Raise AttributeError, w2)
    ∧ files w2 !! JSON_PATH = Some (Reference.dumps artifact_options (JList [broken]))
    ∧ files w2 !! HTML_PATH = None.
Proof.
  intros broken answer.
  destruct (@get_all_offers (Reference.both_services 1 [answer]) Reference.lib
              Reference.default_fetcher 7 None true Reference.empty_world)
    as [[[offers meta]|e] w1] eqn:Hfetch; [|vm_compute in Hfetch; discriminate].
  destruct (@filter_offers (Reference.both_services 1 [answer]) Reference.lib
              Reference.batches_of_five Reference.sample_analyzer offers w1)
    as [[matches|e] w2] eqn:Hfilter.
  2:{ vm_compute in Hfetch. injection Hfetch as <- <- <-.
      vm_compute in Hfilter. discriminate. }
  exists w2.
  assert (offers = Reference.posting <$> [1; 2; 3]) as Hoffers.
  { vm_compute in Hfetch. by injection Hfetch as <- _ _. }
  assert (matches = [broken]) as Hmatches.
  { vm_compute in Hfetch. injection Hfetch as <- <- <-.
    vm_compute in Hfilter. by injection Hfilter as <- _. }
  rewrite <- Hmatches.
  apply (@main_unrenderable_match (Reference.both_services 1 [answer]) Reference.lib
           Reference.batches_of_five Reference.default_fetcher Reference.sample_analyzer
           Reference.empty_world w1 w2 offers meta matches Hfetch).
  - by rewrite Hoffers.
  - exact Hfilter.
  - rewrite Hmatches. apply Exists_cons_hd.
    intros (kvs & [= <-] & [Ht|[s Ht]] & _); vm_compute in Ht; discriminate.
Defined.

(** X27. When the listing is not empty, the filter returns and the
    matches are renderable, [main] succeeds; the result artifact holds the
    matches, the digest file holds the digest of the same matches, and
    these are the last two writes of the run, the result artifact first. *)
Theorem main_both_artifacts `{Env} `{PyLib} `{Settings} (fetcher : JobOffersFetcher)
    (analyzer : GeminiAnalyzer) (w w1 w2 : world) (offers : list json) (meta : RunMetadata)
    (matches : list json) :
  get_all_offers fetcher 7 None true w = (Ok (offers, meta), w1) →
  offers ≠ [] →
  filter_offers analyzer offers w1 = (Ok matches, w2) →
  Forall renderable matches →
  ∃ document w',
    main fetcher analyzer w = (Ok (), w')
    ∧ html_document matches = Ok document
    ∧ files w' !! JSON_PATH = Some (json_dumps artifact_options (JList matches))
    ∧ files w' !! HTML_PATH = Some document
    ∧ take 2 (reverse (writes_in (trace w')))
      = [(HTML_PATH, document);
         (JSON_PATH, json_dumps artifact_options (JList matches))].
Proof.
  intros Hfetch Hne Hfilter Hall.
  pose proof (render_offers_blocks matches Hall page_head) as Hblocks.
  assert (∃ document, html_document matches = Ok document) as [document Hdoc].
  { unfold html_document. destruct matches; [by eexists|]. rewrite Hblocks. by eexists. }
  exists document, (digest_written document w2).
  destruct (filter_offers_returned analyzer offers matches w1 w2 Hne Hfilter)
    as (Henc & Hsaved & Hlast).
  split; [|split; [done|split; [|split]]].
  - unfold main. rewrite (bind_ok _ _ _ _ _ Hfetch). cbv beta iota.
    rewrite (bind_ok _ _ _ _ _ Hfilter).
    by rewrite (generate_html_document _ _ w2 Hdoc),
         (document_encodable matches document Hall Henc Hdoc).
  - simpl. by rewrite lookup_insert_ne by apply digest_path_not_result.
  - simpl. by rewrite lookup_insert_eq.
  - simpl. unfold writes_in. rewrite omap_snoc, reverse_snoc. simpl. f_equal.
    fold (writes_in (trace w2)). rewrite <- head_reverse in Hlast.
    destruct (reverse (writes_in (trace w2))) as [|pt rest]; [done|].
    simpl in Hlast. by injection Hlast as ->.
Qed.

(** Two pages, two batches, two matches. *)
Lemma main_both_artifacts_witness :
  let script := [Reference.selects [2; 4]; Reference.selects []] in
  ∃ document w',
    @main (Reference.both_services 2 script) Reference.lib Reference.batches_of_five
      Reference.default_fetcher Reference.sample_analyzer Reference.empty_world
    = (Ok (), w')
    ∧ @html_document Reference.lib (Reference.match_record <$> [2; 4]) = Ok document
    ∧ files w' !! JSON_PATH
      = Some (Reference.dumps artifact_options (JList (Reference.match_record <$> [2; 4])))
    ∧ files w' !! HTML_PATH = Some document.
Proof.
  intros script.
  destruct (@get_all_offers (Reference.both_services 2 script) Reference.lib
              Reference.default_fetcher 7 None true Reference.empty_world)
    as [[[offers meta]|e] w1] eqn:Hfetch; [|vm_compute in Hfetch; discriminate].
  destruct (@filter_offers (Reference.both_services 2 script) Reference.lib
              Reference.batches_of_five Reference.sample_analyzer offers w1)
    as [[matches|e] w2] eqn:Hfilter.
  2:{ vm_compute in Hfetch. injection Hfetch as <- <- <-.
      vm_compute in Hfilter. discriminate. }
  assert (offers = Reference.posting <$> [1; 2; 3; 4; 5; 6]) as Hoffers.
  { vm_compute in Hfetch. by injection Hfetch as <- _ _. }
  assert (matches = Reference.match_record <$> [2; 4]) as Hmatches.
  { vm_compute in Hfetch. injection Hfetch as <- <- <-.
    vm_compute in Hfilter. by injection Hfilter as <- _. }
  destruct (@main_both_artifacts (Reference.both_services 2 script) Reference.lib
              Reference.batches_of_five Reference.default_fetcher Reference.sample_analyzer
              Reference.empty_world w1 w2 offers meta matches Hfetch)
    as (document & w' & Hrun & Hdoc & Hjson & Hhtml & _).
  - by rewrite Hoffers.
  - exact Hfilter.
  - rewrite Hmatches. repeat constructor; eexists; (split; [reflexivity|]);
      repeat split; right; by eexists.
  - exists document, w'. rewrite <- Hmatches. by repeat split.
Defined.

(** * Degenerate settings *)

(** X28. When no attempt is allowed the loops do not run: with
    [max_retries] at most 0, [get_json] raises [HttpError] without sending
    a request; with [MAX_ATTEMPTS] at most 0, the inference call returns
    the empty list without calling the service, so every batch counts as
    without matches. *)
Theorem no_attempt_allowed `{Env} `{PyLib} `{Settings} (client : HttpClient) (params : json)
    (prompt : pystr) (batch_idx : Z) (w : world) :
  (max_retries client ≤ 0 → get_json client params w = (Raise HttpError, w))
  ∧ (MAX_ATTEMPTS ≤ 0 → _call_gemini_with_retries prompt batch_idx w = (Ok [], w)).
Proof.
  split; intros Hnone.
  - unfold get_json. rewrite (bind_lift_ok _ _ _ _ (py_range_step_1 _ _)).
    by replace (Z.to_nat (max_retries client + 1 - 1)) with 0%nat by lia.
  - unfold _call_gemini_with_retries. rewrite (bind_lift_ok _ _ _ _ (py_range_step_1 _ _)).
    by replace (Z.to_nat (MAX_ATTEMPTS + 1 - 1)) with 0%nat by lia.
Qed.

(** A client and settings that allow no attempt. *)
Lemma no_attempt_allowed_witness :
  @get_json (Reference.listing_service 1) {| max_retries := 0; backoff_seconds := 1 |}
    (page_params 7 1) Reference.empty_world
  = (Raise HttpError, Reference.empty_world)
  ∧ @_call_gemini_with_retries (Reference.scripted_gemini [Reference.selects [1]])
      Reference.lib {| MAX_ATTEMPTS := 0; BACKOFF_SECONDS := 1; BATCH_SIZE := 25 |}
      (lit "prompt") 1 Reference.empty_world
    = (Ok [], Reference.empty_world).
Proof.
  split.
  - apply (@no_attempt_allowed (Reference.listing_service 1) Reference.lib
             Reference.default_settings {| max_retries := 0; backoff_seconds := 1 |}
             (page_params 7 1) [] 0 Reference.empty_world). simpl. lia.
  - apply (@no_attempt_allowed (Reference.scripted_gemini [Reference.selects [1]])
             Reference.lib {| MAX_ATTEMPTS := 0; BACKOFF_SECONDS := 1; BATCH_SIZE := 25 |}
             Reference.default_client JNull (lit "prompt") 1 Reference.empty_world).
    simpl. lia.
Defined.

(** X29. The base backoff must not be negative for the inference call to
    return: with a negative [BACKOFF_SECONDS] and at least two attempts
    allowed, the first failed attempt writes its diagnostic artifact (which
    is taken to be encodable) and then the sleep raises [ValueError],
    outside the [try], so the call raises after one call of the service. *)
Theorem negative_backoff_escapes `{Env} `{PyLib} `{Settings} (prompt : pystr)
    (batch_idx : Z) (w : world) :
  (BACKOFF_SECONDS < 0)%Qc →
  2 ≤ MAX_ATTEMPTS →
  artifacts_encodable prompt →
  attempt_fails (gemini (generates w) prompt) = true →
  ∃ w' path text,
    _call_gemini_with_retries prompt batch_idx w = (Raise ValueError, w')
    ∧ trace w' = trace w ++ [EvGenerate prompt; EvWrite path text]
    ∧ path = raw_path batch_idx 1 (clock (clock_reads w))
    ∧ text = json_dumps artifact_options
               (expected_artifact (attempt_error (gemini (generates w) prompt)) 1 prompt
                  (bound_response prompt (generates w) 0 None))
    ∧ files w' !! path = Some text.
Proof.
  intros Hneg Hmax Henc Hfail. unfold _call_gemini_with_retries.
  rewrite (bind_lift_ok _ _ _ _ (py_range_step_1 _ _)).
  replace (MAX_ATTEMPTS + 1 - 1) with MAX_ATTEMPTS by lia.
  destruct (Z.to_nat MAX_ATTEMPTS) as [|m] eqn:Hm; [lia|].
  cbn [seq]. rewrite fmap_cons. change (1 + Z.of_nat 0) with 1.
  rewrite (call_gemini_loop_failed prompt batch_idx 1 _ _ None w Hfail Henc I).
  destruct (Z.ltb_spec 1 MAX_ATTEMPTS) as [_|?]; [|lia].
  unfold bind, sleep. rewrite decide_True by done.
  eexists _, _, _. split; [reflexivity|]. unfold after_failure, stored. cbn [trace files].
  rewrite <- app_assoc. split; [reflexivity|]. split; [reflexivity|].
  split; [reflexivity|]. by rewrite lookup_insert_eq.
Qed.

(** A backoff of -1 second and a service that raises. *)
Lemma negative_backoff_escapes_witness :
  ∃ w' path text,
    @_call_gemini_with_retries (Reference.scripted_gemini []) Reference.lib
      {| MAX_ATTEMPTS := 3; BACKOFF_SECONDS := -1; BATCH_SIZE := 25 |}
      (lit "prompt") 1 Reference.empty_world
    = (Raise ValueError, w')
    ∧ trace w' = trace Reference.empty_world ++ [EvGenerate (lit "prompt"); EvWrite path text]
    ∧ path = raw_path 1 1 1700000000.
Proof.
  destruct (@negative_backoff_escapes (Reference.scripted_gemini []) Reference.lib
              {| MAX_ATTEMPTS := 3; BACKOFF_SECONDS := -1; BATCH_SIZE := 25 |}
              (lit "prompt") 1 Reference.empty_world)
    as (w' & path & text & Hrun & Htrace & Hpath & _).
  - done.
  - simpl. lia.
  - split; [reflexivity|]. intros n. split; [reflexivity|]. intros r Hr. discriminate Hr.
  - reflexivity.
  - exists w', path, text. split; [exact Hrun|]. split; [exact Htrace|exact Hpath].
Defined.
